(** * SQL Intelligent Tutoring System: the query analysis engine

    A shallow embedding of [sql_tutor_system.py] (classes [OntologyManager]
    and [SQLTutorEngine]) and the properties of its analysis pipeline.

    Conventions of the embedding.
    - Python [str] is [string]; the model covers ASCII text (code points
      below 128), on which [str.upper], [str.lower], [str.strip],
      [str.split] and the [re] classes [\s], [\w], [\b] are as defined here.
    - A Python [dict] whose iteration order is observable is an association
      list; a [dict] that is only looked up is a [gmap]; a [set] is a [gset].
    - An uncaught Python exception is the [Raise] outcome of the [exc] monad;
      a [while] loop takes fuel, one unit per iteration.
    - [sqlparse.parse] and the SQLite cursor are collaborators outside the
      repository: they are parameters of the engine ([Section Engine]). *)

From Stdlib Require Import Ascii String ZArith List Lia Bool.
From stdpp Require Import base option list gmap strings sorting pretty.

Local Open Scope nat_scope.

(** ** Python built-ins on [str] *)

Module Py.

Definition code (c : ascii) : nat := nat_of_ascii c.

(** [str.isspace] on one ASCII character; also the class [\s] of [re]. *)
Definition isspace (c : ascii) : bool :=
  ((9 <=? code c) && (code c <=? 13))
  || ((28 <=? code c) && (code c <=? 32)).

Definition islower (c : ascii) : bool := (97 <=? code c) && (code c <=? 122).
Definition isupper (c : ascii) : bool := (65 <=? code c) && (code c <=? 90).
Definition isdigit_char (c : ascii) : bool := (48 <=? code c) && (code c <=? 57).

Definition upper_char (c : ascii) : ascii :=
  if islower c then ascii_of_nat (code c - 32) else c.
Definition lower_char (c : ascii) : ascii :=
  if isupper c then ascii_of_nat (code c + 32) else c.

Fixpoint map_chars (f : ascii -> ascii) (s : string) : string :=
  match s with
  | EmptyString => EmptyString
  | String c s' => String (f c) (map_chars f s')
  end.

(** [s.upper()] and [s.lower()]. *)
Definition upper : string -> string := map_chars upper_char.
Definition lower : string -> string := map_chars lower_char.

(** [s.startswith(p)]. *)
Fixpoint startswith (p s : string) : bool :=
  match p, s with
  | EmptyString, _ => true
  | String _ _, EmptyString => false
  | String a p', String b s' => Ascii.eqb a b && startswith p' s'
  end.

(** [sub in s]. *)
Fixpoint contains (sub s : string) : bool :=
  startswith sub s
  || match s with
     | EmptyString => false
     | String _ s' => contains sub s'
     end.

(** [s.find(sub)] and [s.find(sub, start)]; [None] stands for [-1]. *)
Fixpoint find_at (sub s : string) (i : nat) : option nat :=
  if startswith sub s then Some i
  else match s with
       | EmptyString => None
       | String _ s' => find_at sub s' (S i)
       end.

Fixpoint sdrop (n : nat) (s : string) : string :=
  match n, s with
  | O, _ => s
  | S n', String _ s' => sdrop n' s'
  | S _, EmptyString => EmptyString
  end.

Fixpoint stake (n : nat) (s : string) : string :=
  match n, s with
  | S n', String c s' => String c (stake n' s')
  | _, _ => EmptyString
  end.

Definition find (sub s : string) : option nat := find_at sub s 0.
Definition find_from (sub s : string) (start : nat) : option nat :=
  find_at sub (sdrop start s) start.

(** [s[a:b]] and [s[a:]] for indices within [0 .. len(s)]. *)
Definition slice (s : string) (a b : nat) : string := stake (b - a) (sdrop a s).
Definition slice_from (s : string) (a : nat) : string := sdrop a s.

(** [s.strip()]. *)
Fixpoint lstrip (s : string) : string :=
  match s with
  | EmptyString => EmptyString
  | String c s' => if isspace c then lstrip s' else s
  end.

Fixpoint rstrip (s : string) : string :=
  match s with
  | EmptyString => EmptyString
  | String c s' =>
      match rstrip s' with
      | EmptyString => if isspace c then EmptyString else String c EmptyString
      | r => String c r
      end
  end.

Definition strip (s : string) : string := rstrip (lstrip s).

(** [s.split(sep)] for a one-character separator: never an empty list. *)
Fixpoint split_on (sep : ascii) (s : string) : list string :=
  match s with
  | EmptyString => [EmptyString]
  | String c s' =>
      if Ascii.eqb c sep then EmptyString :: split_on sep s'
      else match split_on sep s' with
           | p :: ps => String c p :: ps
           | [] => [String c EmptyString]
           end
  end.

(** [s.split()]: the maximal runs of non-whitespace characters. *)
Fixpoint split_ws_go (cur : string) (s : string) : list string :=
  match s with
  | EmptyString => match cur with EmptyString => [] | _ => [cur] end
  | String c s' =>
      if isspace c
      then match cur with
           | EmptyString => split_ws_go EmptyString s'
           | _ => cur :: split_ws_go EmptyString s'
           end
      else split_ws_go (cur +:+ String c EmptyString) s'
  end.

Definition split_ws (s : string) : list string := split_ws_go EmptyString s.

(** [s.isdigit()]. *)
Fixpoint all_chars (p : ascii -> bool) (s : string) : bool :=
  match s with
  | EmptyString => true
  | String c s' => p c && all_chars p s'
  end.

Definition isdigit (s : string) : bool :=
  match s with
  | EmptyString => false
  | _ => all_chars isdigit_char s
  end.

(** [sep.join(parts)]. *)
Fixpoint join (sep : string) (parts : list string) : string :=
  match parts with
  | [] => EmptyString
  | [p] => p
  | p :: ps => p +:+ sep +:+ join sep ps
  end.

(** [x in l] for a list of strings. *)
Definition mem (x : string) (l : list string) : bool :=
  existsb (String.eqb x) l.

End Py.

(** ** Uncaught exceptions *)

Inductive exn : Type :=
  | IndexError
  | TypeError
  | Warning.

(** The outcome of a call: a value, an uncaught exception, or [Unfinished]
    when the fuel given to a [while] loop ended before the loop did (no
    amount of fuel ends a loop that runs forever). *)
Inductive exc (A : Type) : Type :=
  | Ret (a : A)
  | Raise (e : exn)
  | Unfinished.
Arguments Ret {A} a.
Arguments Raise {A} e.
Arguments Unfinished {A}.

Global Instance exc_ret : MRet exc := fun A a => Ret a.
Global Instance exc_bind : MBind exc := fun A B k m =>
  match m with
  | Ret a => k a
  | Raise e => Raise e
  | Unfinished => Unfinished
  end.

Definition of_fuel {A : Type} (o : option A) : exc A :=
  match o with
  | Some a => Ret a
  | None => Unfinished
  end.

(** [l[0]]. *)
Definition first {A : Type} (l : list A) : exc A :=
  match l with
  | [] => Raise IndexError
  | x :: _ => Ret x
  end.

(** ** The fragment of [re] the engine uses

    A pattern is a sequence of atoms; the matcher is the backtracking one of
    [re]: greedy repetition, first alternative that succeeds.  The matcher
    sees the character before the current position, for [\b]. *)

Module Re.

Inductive atom : Type :=
  | Lit (ignorecase : bool) (s : string)   (* a literal string *)
  | Cls (p : ascii -> bool)                (* one character of a class *)
  | Star (p : ascii -> bool)               (* class*, greedy *)
  | WordB.                                 (* \b *)

Definition pattern := list atom.

(** [\w], [\s], [[^)]], [[a-zA-Z_]], [[a-zA-Z0-9_]]. *)
Definition word (c : ascii) : bool :=
  Py.islower c || Py.isupper c || Py.isdigit_char c || Ascii.eqb c "_"%char.
Definition space : ascii -> bool := Py.isspace.
Definition not_rparen (c : ascii) : bool := negb (Ascii.eqb c ")"%char).
Definition ident_start (c : ascii) : bool :=
  Py.islower c || Py.isupper c || Ascii.eqb c "_"%char.
Definition ident_char : ascii -> bool := word.

Definition is_word_opt (c : option ascii) : bool :=
  match c with
  | Some a => word a
  | None => false
  end.

Definition head (s : string) : option ascii :=
  match s with
  | EmptyString => None
  | String c _ => Some c
  end.

(** The last character of [s], or [prev] when [s] is empty. *)
Fixpoint last_or (prev : option ascii) (s : string) : option ascii :=
  match s with
  | EmptyString => prev
  | String c s' => last_or (Some c) s'
  end.

Definition lit_prefix (ic : bool) (l s : string) : bool :=
  if ic then Py.startswith (Py.upper l) (Py.upper (Py.stake (String.length l) s))
  else Py.startswith l s.

(** [match_here p prev s]: the length of the match of [p] at the start of
    [s], when the character before is [prev]. *)
Fixpoint match_here (p : pattern) (prev : option ascii) (s : string)
  : option nat :=
  match p with
  | [] => Some 0
  | Lit ic l :: p' =>
      if lit_prefix ic l s
      then Nat.add (String.length l)
             <$> match_here p' (last_or prev (Py.stake (String.length l) s))
                            (Py.sdrop (String.length l) s)
      else None
  | Cls c :: p' =>
      match s with
      | String a s' => if c a then S <$> match_here p' (Some a) s' else None
      | EmptyString => None
      end
  | Star c :: p' =>
      (fix star (prev : option ascii) (s : string) : option nat :=
         match s with
         | String a s' =>
             if c a
             then match star (Some a) s' with
                  | Some n => Some (S n)
                  | None => match_here p' prev s
                  end
             else match_here p' prev s
         | EmptyString => match_here p' prev s
         end) prev s
  | WordB :: p' =>
      if xorb (is_word_opt prev) (is_word_opt (head s))
      then match_here p' prev s
      else None
  end.

(** [re.search(p, s) is not None]. *)
Fixpoint search_from (p : pattern) (prev : option ascii) (s : string) : bool :=
  match match_here p prev s with
  | Some _ => true
  | None =>
      match s with
      | EmptyString => false
      | String a s' => search_from p (Some a) s'
      end
  end.

Definition search (p : pattern) (s : string) : bool := search_from p None s.

(** [re.sub(p, '', s)] for a pattern that matches no empty string: a match
    of length [n] found at a position removes the next [n] characters. *)
Fixpoint sub_go (p : pattern) (skip : nat) (prev : option ascii) (s : string)
  : string :=
  match s with
  | EmptyString => EmptyString
  | String a s' =>
      match skip with
      | S k => sub_go p k (Some a) s'
      | O =>
          match match_here p prev s with
          | Some (S k) => sub_go p k (Some a) s'
          | _ => String a (sub_go p O (Some a) s')
          end
      end
  end.

Definition sub_empty (p : pattern) (s : string) : string := sub_go p 0 None s.

(** [re.findall(p, s)] for a pattern without groups that matches no empty
    string. *)
Fixpoint findall_go (p : pattern) (skip : nat) (prev : option ascii)
    (s : string) : list string :=
  match s with
  | EmptyString => []
  | String a s' =>
      match skip with
      | S k => findall_go p k (Some a) s'
      | O =>
          match match_here p prev s with
          | Some (S k) => Py.stake (S k) s :: findall_go p k (Some a) s'
          | _ => findall_go p O (Some a) s'
          end
      end
  end.

Definition findall (p : pattern) (s : string) : list string :=
  findall_go p 0 None s.

End Re.

(** ** Knowledge base and report data *)

(** One entry of [feedback['errors']] or [feedback['suggestions']]: a Python
    dict with the keys below; an absent key is [None]. *)
Record item : Type := Item {
  message : string;
  type : string;
  severity : string;
  explanation : option string;
  source : option string;
  available_tables : option (list string)
}.

Record ontology_error : Type := OntologyError {
  oe_message : string;
  oe_type : string;
  oe_severity : string;
  oe_explanation : string
}.

Record feedback_message : Type := FeedbackMessage {
  fm_message : string;
  fm_type : string
}.

Record sql_concept : Type := SqlConcept {
  label : string;
  difficulty : Z;
  prerequisite : option string
}.

Record column_info : Type := ColumnInfo {
  col_type : string;
  nullable : bool;
  primary_key : bool
}.

(** [OntologyManager] after [_extract_knowledge]: the four dictionaries.
    [schema_tables] maps a table key to its columns. *)
Record OntologyManager : Type := {
  schema_tables : list (string * list (string * column_info));
  error_patterns : gmap string ontology_error;
  feedback_messages : list (string * feedback_message);
  sql_concepts : gmap string sql_concept
}.

(** A truthy [Optional[str]]: neither [None] nor the empty string. *)
Definition truthy (o : option string) : option string :=
  match o with
  | Some EmptyString => None
  | _ => o
  end.

(** [get_concept_prerequisites]: the [while] loop, one iteration per unit of
    fuel; [None] when the fuel ends before the loop does. *)
Fixpoint get_concept_prerequisites (fuel : nat) (self : OntologyManager)
    (current_concept : string) : option (list string) :=
  match fuel with
  | O => None
  | S fuel' =>
      match sql_concepts self !! current_concept with
      | None => Some []
      | Some c =>
          match truthy (prerequisite c) with
          | Some prereq =>
              if decide (is_Some (sql_concepts self !! prereq))
              then cons prereq <$> get_concept_prerequisites fuel' self prereq
              else Some []
          | None => Some []
          end
      end
  end.

(** The concepts one error type maps to in [suggest_learning_path]. *)
Definition concepts_of_error (error_type : string) : gset string :=
  let error_type_lower := Py.lower error_type in
  if Py.contains "aggregate" error_type_lower then
    {[ "aggregate_functions_concept" ]} ∪ {[ "group_by_concept" ]}
  else if Py.contains "group" error_type_lower
          || Py.contains "having" error_type_lower then
    {[ "group_by_concept" ]} ∪ {[ "having_clause_concept" ]}
  else if Py.contains "join" error_type_lower then {[ "join_concept" ]}
  else if Py.contains "where" error_type_lower then {[ "where_clause_concept" ]}
  else ∅.

Definition concepts_needed (current_errors : list string) : gset string :=
  ⋃ (concepts_of_error <$> current_errors).

(** The sort key [self.sql_concepts.get(c, {}).get('difficulty', 1)]. *)
Definition difficulty_key (self : OntologyManager) (c : string) : Z :=
  match sql_concepts self !! c with
  | Some k => difficulty k
  | None => 1%Z
  end.

Definition by_difficulty (self : OntologyManager) : relation string :=
  fun a b => (difficulty_key self a <= difficulty_key self b)%Z.

Global Instance by_difficulty_dec self : RelDecision (by_difficulty self).
Proof. intros a b. unfold by_difficulty. apply _. Defined.

(** [suggest_learning_path]. [sorted] is a sort of the elements of the set
    [all_concepts], whose iteration order Python leaves unspecified. *)
Definition suggest_learning_path (fuel : nat) (self : OntologyManager)
    (current_errors : list string) : option (list string) :=
  let needed := concepts_needed current_errors in
  prereqs ← mapM (get_concept_prerequisites fuel self) (elements needed);
  let all_concepts : gset string := needed ∪ ⋃ (list_to_set <$> prereqs) in
  Some (merge_sort (by_difficulty self) (elements all_concepts)).

(** ** SQLTutorEngine *)

Definition aggregate_functions : list string :=
  ["COUNT"; "SUM"; "AVG"; "MIN"; "MAX"].

Definition sql_keywords : list string :=
  ["SELECT"; "FROM"; "WHERE"; "GROUP BY"; "HAVING"; "ORDER BY"; "JOIN";
   "INNER"; "LEFT"; "RIGHT"; "ON"; "AND"; "OR"; "NOT"; "AS"].

Record table_schema : Type := TableSchema {
  columns : list (string * column_info);
  foreign_keys : list (string * string)
}.

(** [_build_schema_from_ontology]. *)
Definition _build_schema_from_ontology (ontology : OntologyManager)
  : list (string * table_schema) :=
  List.map (fun '(table_key, cols) =>
      (table_key,
       {| columns := cols;
          foreign_keys :=
            if existsb (fun '(col_key, _) =>
                 Py.contains "manager_id" col_key
                 && String.eqb table_key "employees") cols
            then [("manager_id", "employees(emp_id)")] else [] |}))
    (schema_tables ontology).

(** [key in d] and [d.keys()] for an association list. *)
Definition keys {V : Type} (d : list (string * V)) : list string := List.map fst d.
Definition has_key {V : Type} (k : string) (d : list (string * V)) : bool :=
  Py.mem k (keys d).

(** *** Clause and column extraction *)

(** [_extract_select_clause]; [parsed] stands for [str(parsed)]. *)
Definition _extract_select_clause (parsed : string) : string :=
  let query_str := Py.upper parsed in
  match Py.find "SELECT" query_str with
  | None => ""
  | Some select_start =>
      match Py.find_from "FROM" query_str select_start with
      | None => Py.slice_from query_str select_start
      | Some from_start => Py.slice query_str select_start from_start
      end
  end.

Definition lparen : Re.atom := Re.Cls (Ascii.eqb "("%char).
Definition rparen : Re.atom := Re.Cls (Ascii.eqb ")"%char).

(** [rf"{func}\s*\(\s*[^)]*\s*\)"] *)
Definition aggregate_call_pattern (func : string) : Re.pattern :=
  [Re.Lit false func; Re.Star Re.space; lparen; Re.Star Re.space;
   Re.Star Re.not_rparen; Re.Star Re.space; rparen].

(** [r'\bAS\s+[a-zA-Z_][a-zA-Z0-9_]*'] *)
Definition alias_pattern : Re.pattern :=
  [Re.WordB; Re.Lit false "AS"; Re.Cls Re.space; Re.Star Re.space;
   Re.Cls Re.ident_start; Re.Star Re.ident_char].

(** [r'\b[a-zA-Z_][a-zA-Z0-9_]*\b'] *)
Definition identifier_pattern : Re.pattern :=
  [Re.WordB; Re.Cls Re.ident_start; Re.Star Re.ident_char; Re.WordB].

(** [rf"{func}\s*\([^)]*{re.escape(col)}[^)]*\)"] with [re.IGNORECASE] *)
Definition column_in_aggregate_pattern (func col : string) : Re.pattern :=
  [Re.Lit true func; Re.Star Re.space; lparen; Re.Star Re.not_rparen;
   Re.Lit true col; Re.Star Re.not_rparen; rparen].

(** [r'\b' + re.escape(col) + r'\b'] with [re.IGNORECASE] *)
Definition column_word_pattern (col : string) : Re.pattern :=
  [Re.WordB; Re.Lit true col; Re.WordB].

(** [_extract_columns_from_select] *)
Definition _extract_columns_from_select (select_clause : string) : list string :=
  let temp_clause := Py.upper select_clause in
  let temp_clause :=
    fold_left (fun temp_clause func =>
                 Re.sub_empty (aggregate_call_pattern func) temp_clause)
              aggregate_functions temp_clause in
  let temp_clause := Re.sub_empty alias_pattern temp_clause in
  let words := Re.findall identifier_pattern temp_clause in
  let excluded_keywords :=
    sql_keywords ++ ["FROM"; "WHERE"; "GROUP"; "HAVING"; "ORDER"; "BY"; "JOIN";
                     "ON"; "INNER"; "LEFT"; "RIGHT"; "OUTER"; "AS"] in
  List.filter (fun w => negb (Py.mem (Py.upper w) excluded_keywords)
                        && negb (Py.isdigit w)) words.

(** [_extract_all_columns_from_select] *)
Definition _extract_all_columns_from_select (select_clause : string)
  : list string :=
  let columns := Re.findall identifier_pattern select_clause in
  List.filter (fun c => negb (Py.mem (Py.upper c) (sql_keywords ++ ["AS"]))
                        && negb (Py.isdigit c)) columns.

(** The end of a clause: the least position of one of [keywords] at or after
    [start], else the length of the text. *)
Definition clause_end (query_str : string) (start : nat) (keywords : list string)
  : nat :=
  fold_left (fun clause_end keyword =>
               match Py.find_from keyword query_str start with
               | Some pos => Nat.min clause_end pos
               | None => clause_end
               end)
            keywords (String.length query_str).

(** [_extract_group_by_columns] *)
Definition _extract_group_by_columns (parsed : string) : exc (list string) :=
  let query_str := Py.upper parsed in
  match Py.find "GROUP BY" query_str with
  | None => Ret []
  | Some group_by_start =>
      let group_by_end :=
        clause_end query_str group_by_start ["HAVING"; "ORDER BY"; "LIMIT"] in
      let group_by_clause :=
        Py.strip (Py.slice query_str (group_by_start + 8) group_by_end) in
      columns ← mapM (fun part => first (Py.split_ws (Py.strip part)))
                     (Py.split_on ","%char group_by_clause);
      Ret (List.filter (fun column =>
                          negb (String.eqb column "")
                          && negb (Py.mem column sql_keywords)) columns)
  end.

(** The [while] loop of [_extract_table_names] over the occurrences of
    [JOIN], from left to right; [s] is [query_str[join_pos:]]. *)
Fixpoint join_tables (query_str s : string) (join_pos : nat)
  : exc (list string) :=
  match s with
  | EmptyString => Ret []
  | String _ s' =>
      if Py.startswith "JOIN" s then
        match Py.find_from "ON" query_str join_pos with
        | None => Ret []
        | Some join_end =>
            join_table ←
              first (Py.split_ws
                       (Py.strip (Py.slice query_str (join_pos + 4) join_end)));
            tables ← join_tables query_str s' (S join_pos);
            Ret (join_table :: tables)
        end
      else join_tables query_str s' (S join_pos)
  end.

(** [_extract_table_names] *)
Definition _extract_table_names (parsed : string) : exc (list string) :=
  let query_str := Py.upper parsed in
  from_tables ←
    match Py.find "FROM" query_str with
    | None => Ret []
    | Some from_start =>
        let from_end :=
          clause_end query_str from_start
            ["WHERE"; "GROUP BY"; "HAVING"; "ORDER BY"; "JOIN"] in
        let from_clause :=
          Py.strip (Py.slice query_str (from_start + 4) from_end) in
        mapM (fun tbl => first (Py.split_ws (Py.strip tbl)))
             (Py.split_on ","%char from_clause)
    end;
  joined ← join_tables query_str query_str 0;
  Ret (List.filter (fun tbl =>
                      negb (String.eqb tbl "")
                      && negb (Py.mem (Py.upper tbl)
                                 ["INNER"; "LEFT"; "RIGHT"; "FULL"]))
                   (from_tables ++ joined)).

(** *** Collaborators *)

(** What [cursor.execute] followed by [fetchall] and the loop over
    [cursor.description] gives: an exception of class [sqlite3.Error], the
    column names and the rows, or an exception of another class
    ([TypeError] when [description] is [None], for one). *)
Inductive sqlite_outcome (Value : Type) : Type :=
  | SqliteError (msg : string)
  | Rows (description : list string) (results : list (list Value))
  | CursorRaises (e : exn).
Arguments SqliteError {Value} msg.
Arguments Rows {Value} description results.
Arguments CursorRaises {Value} e.

Record query_result (Value : Type) : Type := ExecutionResult {
  result_columns : list string;
  data : list (list Value);
  row_count : nat
}.
Arguments ExecutionResult {Value}.
Arguments result_columns {Value}.
Arguments data {Value}.
Arguments row_count {Value}.

(** The dict [_try_execute_query] returns: [{'error': ..}] or [{'result': ..}]. *)
Inductive execution_feedback (Value : Type) : Type :=
  | ExecError (error : item)
  | ExecResult (result : query_result Value).
Arguments ExecError {Value} error.
Arguments ExecResult {Value} result.

(** The [feedback] dict of [analyze_query]. *)
Record feedback (Value : Type) : Type := Feedback {
  errors : list item;
  warnings : list item;
  suggestions : list item;
  learning_path : list string;
  correctness : string;
  execution_result : option (query_result Value)
}.
Arguments Feedback {Value}.
Arguments errors {Value}.
Arguments warnings {Value}.
Arguments suggestions {Value}.
Arguments learning_path {Value}.
Arguments correctness {Value}.
Arguments execution_result {Value}.

(** An entry of [SQLTutorEngine.error_patterns] (the unused regular
    expression under ['pattern'] is left out). *)
Record error_pattern : Type := ErrorPattern {
  check_function : option string;
  ep_type : string;
  ep_severity : string;
  ep_message : string;
  ep_explanation : string
}.

(** [key.replace('_', ' ').title()] *)
Fixpoint title_go (prev_cased : bool) (s : string) : string :=
  match s with
  | EmptyString => EmptyString
  | String c s' =>
      let c := if Ascii.eqb c "_"%char then " "%char else c in
      let cased := Py.islower c || Py.isupper c in
      String (if prev_cased then Py.lower_char c else Py.upper_char c)
             (title_go cased s')
  end.

Definition builtin_patterns : list (string * (option string * string * string)) :=
  [("missing_select", (None, "SYNTAX_ERROR", "HIGH"));
   ("missing_from", (Some "check_missing_from", "SYNTAX_ERROR", "HIGH"));
   ("aggregate_in_where", (Some "check_aggregate_in_where", "SEMANTIC_ERROR", "HIGH"));
   ("missing_group_by", (Some "check_missing_group_by", "SEMANTIC_ERROR", "HIGH"));
   ("having_without_group", (Some "check_having_without_group", "SEMANTIC_ERROR", "MEDIUM"));
   ("ambiguous_column", (Some "check_ambiguous_columns", "SEMANTIC_ERROR", "MEDIUM"));
   ("group_by_column_not_in_select",
     (Some "check_group_by_column_not_in_select", "SEMANTIC_ERROR", "HIGH"));
   ("missing_aggregate_with_group_by",
     (Some "check_missing_aggregate_with_group_by", "SEMANTIC_ERROR", "HIGH"))].

(** The loop body of [_initialize_error_patterns]: the built-in entry,
    enhanced with the ontology's data or with the fallback messages. *)
Definition enhance_pattern (ontology : OntologyManager) (pattern_key : string)
    (check : option string) (ty sev : string) : error_pattern :=
  match error_patterns ontology !! pattern_key with
  | Some ontology_error =>
      {| check_function := check;
         ep_type := oe_type ontology_error;
         ep_severity := oe_severity ontology_error;
         ep_message := oe_message ontology_error;
         ep_explanation := oe_explanation ontology_error |}
  | None =>
      {| check_function := check;
         ep_type := ty;
         ep_severity := sev;
         ep_message := "Error detected: " +:+ title_go false pattern_key;
         ep_explanation := "Refer to SQL documentation for proper usage." |}
  end.

(** [_initialize_error_patterns] *)
Definition _initialize_error_patterns (ontology : OntologyManager)
  : list (string * error_pattern) :=
  List.map (fun '(pattern_key, (check, ty, sev)) =>
              (pattern_key, enhance_pattern ontology pattern_key check ty sev))
           builtin_patterns.

(** [d.get(k)] on an association list. *)
Fixpoint assoc {V : Type} (k : string) (d : list (string * V)) : option V :=
  match d with
  | [] => None
  | (k', v) :: d' => if String.eqb k k' then Some v else assoc k d'
  end.

(** *** The checks *)

(** [_check_clause_order] *)
Definition canonical_clauses : list string :=
  ["SELECT"; "FROM"; "WHERE"; "GROUP BY"; "HAVING"; "ORDER BY"].

Definition present_clauses (query_text : string) : list string :=
  let query_upper := Py.upper query_text in
  List.filter (fun clause => Py.contains clause query_upper) canonical_clauses.

Definition _check_clause_order (query_text : string) : option item :=
  let clauses := present_clauses query_text in
  let expected_order := canonical_clauses in
  let filtered_expected := List.filter (fun c => Py.mem c clauses) expected_order in
  if decide (clauses <> filtered_expected) then
    Some {| message :=
              "SQL clauses should follow this order: SELECT -> FROM -> WHERE -> GROUP BY -> HAVING -> ORDER BY. Found: "
              +:+ Py.join " -> " clauses;
            type := "SYNTAX_ERROR";
            severity := "MEDIUM";
            explanation := None; source := None; available_tables := None |}
  else None.

(** [_has_aggregate_in_where] *)
Definition _has_aggregate_in_where (parsed : string) : bool :=
  let query_str := Py.upper parsed in
  match Py.find "WHERE" query_str with
  | None => false
  | Some where_start =>
      let where_end :=
        clause_end query_str where_start
          ["GROUP BY"; "HAVING"; "ORDER BY"; "LIMIT"] in
      let where_clause := Py.slice query_str where_start where_end in
      existsb (fun func => Py.contains (func +:+ "(") where_clause)
              aggregate_functions
  end.

(** [_needs_group_by] *)
Definition _needs_group_by (parsed query_text : string) : bool :=
  let query_upper := Py.upper query_text in
  if Py.contains "GROUP BY" query_upper then false
  else
    let select_clause := _extract_select_clause parsed in
    if String.eqb select_clause "" then false
    else
      let has_aggregate :=
        existsb (fun func => Py.contains func select_clause)
                aggregate_functions in
      if has_aggregate then
        let all_columns := _extract_columns_from_select select_clause in
        let non_aggregate_columns :=
          List.filter (fun col =>
              negb (existsb (fun func =>
                      Re.search (column_in_aggregate_pattern func col)
                                select_clause)
                    aggregate_functions))
            all_columns in
        match non_aggregate_columns with
        | [] => false
        | _ :: _ => true
        end
      else false.

(** The first definition of [check_missing_group_by] in the class body, which
    the later one replaces (its statements after [return True] never run). *)
Definition check_missing_group_by_replaced (parsed query_text : string) : bool :=
  let query_upper := Py.upper query_text in
  if Py.contains "GROUP BY" query_upper then false
  else
    let select_clause := _extract_select_clause parsed in
    if String.eqb select_clause "" then false
    else
      let has_aggregate :=
        existsb (fun func => Py.contains func (Py.upper select_clause))
                aggregate_functions in
      if negb has_aggregate then false
      else
        match _extract_columns_from_select select_clause with
        | [] => false
        | _ :: _ => true
        end.

Definition check_missing_from (parsed query_text : string) : bool :=
  let query_upper := Py.upper query_text in
  Py.contains "SELECT" query_upper && negb (Py.contains "FROM" query_upper).

Definition check_aggregate_in_where (parsed query_text : string) : bool :=
  _has_aggregate_in_where parsed.

Definition check_missing_group_by (parsed query_text : string) : bool :=
  _needs_group_by parsed query_text.

Definition check_having_without_group (parsed query_text : string) : bool :=
  let query_upper := Py.upper query_text in
  Py.contains "HAVING" query_upper && negb (Py.contains "GROUP BY" query_upper).

(** [check_missing_aggregate_with_group_by] *)
Definition check_missing_aggregate_with_group_by (parsed query_text : string)
  : bool :=
  let query_upper := Py.upper query_text in
  if Py.contains "GROUP BY" query_upper then
    let select_clause := Py.upper (_extract_select_clause parsed) in
    let has_aggregate :=
      existsb (fun func => Py.contains (func +:+ "(") select_clause
                           || Py.contains (func +:+ " (") select_clause)
              aggregate_functions in
    negb has_aggregate
  else false.

(** [check_group_by_column_not_in_select] *)
Definition check_group_by_column_not_in_select (parsed query_text : string)
  : exc bool :=
  let query_upper := Py.upper query_text in
  if Py.contains "GROUP BY" query_upper then
    group_by_columns ← _extract_group_by_columns parsed;
    let select_clause := _extract_select_clause parsed in
    let select_columns := _extract_all_columns_from_select select_clause in
    Ret (existsb (fun group_col =>
                    negb (Py.mem (Py.upper group_col)
                                 (List.map Py.upper select_columns)))
                 group_by_columns)
  else Ret false.

(** [list(dict.fromkeys(l))]: the keys a dict built from [l] has, in order. *)
Fixpoint dedup_keys (l : list string) : list string :=
  match l with
  | [] => []
  | x :: l' => x :: List.filter (fun y => negb (String.eqb x y)) (dedup_keys l')
  end.

Section Engine.

Context {Value : Type}.

(** [self.ontology]. *)
Variable ontology : OntologyManager.

(** [sqlparse.parse(query_text)[0]]: the message of the exception, or the
    text [str(parsed)] of the first statement. *)
Variable sqlparse_parse : string -> string + string.

(** [self.cursor.execute(query_text)] on the sample database. *)
Variable cursor_execute : string -> sqlite_outcome Value.

(** [self.schema] and [self.error_patterns], set by [__init__]. *)
Definition schema : list (string * table_schema) :=
  _build_schema_from_ontology ontology.

Definition engine_error_patterns : list (string * error_pattern) :=
  _initialize_error_patterns ontology.

(** [_find_ambiguous_columns], up to the order of the result (the code
    returns [list(set(used_ambiguous))]). *)
Definition _find_ambiguous_columns (parsed : string) : exc (list string) :=
  tables ← _extract_table_names parsed;
  if length tables <? 2 then Ret []
  else
    let all_columns : list (string * list string) :=
      omap (fun table =>
              match assoc (Py.lower table) schema with
              | Some t => Some (table, keys (columns t))
              | None => None
              end)
           (dedup_keys tables) in
    let column_occurrences (col : string) : list string :=
      List.map fst
        (List.filter (fun '(_, cols) => Py.mem col cols) all_columns) in
    let ambiguous_cols :=
      List.filter (fun col => 1 <? length (column_occurrences col))
                  (dedup_keys (concat (List.map snd all_columns))) in
    let query_str := parsed in
    let used_ambiguous :=
      List.filter (fun col =>
          let matches := Re.findall (column_word_pattern col) query_str in
          existsb (fun m =>
              match Py.find (Py.lower m) (Py.lower query_str) with
              | Some pos =>
                  (0 <? pos)
                  && (let preceding :=
                        Py.strip (Py.slice query_str (pos - 20) pos) in
                      negb (existsb (fun table =>
                                       Py.contains (Py.lower table) preceding)
                                    tables))
              | None => false
              end)
            matches)
        ambiguous_cols in
    Ret used_ambiguous.

Definition check_ambiguous_columns (parsed query_text : string) : exc bool :=
  ambiguous_cols ← _find_ambiguous_columns parsed;
  Ret (0 <? length ambiguous_cols).

(** [getattr(self, name, None)] for the names of check methods. *)
Definition getattr (name : string) : option (string -> string -> exc bool) :=
  if String.eqb name "check_missing_from" then
    Some (fun p q => Ret (check_missing_from p q))
  else if String.eqb name "check_aggregate_in_where" then
    Some (fun p q => Ret (check_aggregate_in_where p q))
  else if String.eqb name "check_missing_group_by" then
    Some (fun p q => Ret (check_missing_group_by p q))
  else if String.eqb name "check_having_without_group" then
    Some (fun p q => Ret (check_having_without_group p q))
  else if String.eqb name "check_ambiguous_columns" then
    Some check_ambiguous_columns
  else if String.eqb name "check_group_by_column_not_in_select" then
    Some check_group_by_column_not_in_select
  else if String.eqb name "check_missing_aggregate_with_group_by" then
    Some (fun p q => Ret (check_missing_aggregate_with_group_by p q))
  else None.

Definition ontology_item (msg ty sev expl : string) : item :=
  {| message := msg; type := ty; severity := sev;
     explanation := Some expl; source := Some "ontology";
     available_tables := None |}.

(** [_check_syntax] *)
Definition _check_syntax (query_text parsed : string) : list item :=
  let query_upper := Py.strip (Py.upper query_text) in
  let missing_select :=
    if negb (Py.startswith "SELECT" query_upper) then
      match assoc "missing_select" engine_error_patterns with
      | Some pattern =>
          [ontology_item (ep_message pattern) (ep_type pattern)
                         (ep_severity pattern) (ep_explanation pattern)]
      | None =>
          [ontology_item "Query must start with SELECT keyword."
                         "SYNTAX_ERROR" "HIGH" ""]
      end
    else [] in
  let clause_order :=
    match _check_clause_order query_text with
    | Some clause_order_error =>
        match error_patterns ontology !! "clause_order" with
        | Some ontology_error =>
            [{| message := oe_message ontology_error;
                type := type clause_order_error;
                severity := severity clause_order_error;
                explanation := Some (oe_explanation ontology_error);
                source := Some "ontology";
                available_tables := available_tables clause_order_error |}]
        | None => [clause_order_error]
        end
    | None => []
    end in
  missing_select ++ clause_order.

(** [_check_semantics] *)
Definition _check_semantics (query_text parsed : string) : exc (list item) :=
  found ← mapM (fun '(pattern_key, pattern) =>
              match check_function pattern with
              | Some name =>
                  match getattr name with
                  | Some check_method =>
                      fired ← check_method parsed query_text;
                      Ret (if fired : bool
                           then [ontology_item (ep_message pattern)
                                   (ep_type pattern) (ep_severity pattern)
                                   (ep_explanation pattern)]
                           else [])
                  | None => Ret []
                  end
              | None => Ret []
              end)
           engine_error_patterns;
  Ret (concat found).

(** The error [_check_schema_constraints] appends for a table name that is
    not in the schema, with the "did you mean" suggestions. *)
Definition missing_table_error (table_name : string) : item :=
  let suggestions :=
    List.filter (fun actual_table =>
        Py.contains (Py.lower table_name) actual_table
        || Py.contains actual_table (Py.lower table_name))
      (keys schema) in
  let error_msg :=
    "Table '" +:+ table_name
    +:+ "' does not exist in the database schema." in
  let error_msg :=
    match suggestions with
    | [] => error_msg
    | _ :: _ =>
        error_msg +:+ " Did you mean: "
        +:+ Py.join ", " suggestions +:+ "?"
    end in
  {| message := error_msg; type := "SCHEMA_ERROR"; severity := "HIGH";
     explanation := None; source := None;
     available_tables := Some (keys schema) |}.

(** [_check_schema_constraints] *)
Definition _check_schema_constraints (query_text parsed : string)
  : exc (list item) :=
  table_names ← _extract_table_names parsed;
  Ret (concat (List.map (fun table_name =>
      if negb (has_key (Py.lower table_name) schema)
      then [missing_table_error table_name]
      else [])
    table_names)).

Definition destructive_keywords : list string :=
  ["DROP"; "DELETE"; "UPDATE"; "INSERT"; "ALTER"; "CREATE"; "TRUNCATE"].

Definition security_error : item :=
  {| message :=
       "This tutoring system only supports SELECT queries for learning purposes.";
     type := "SECURITY_ERROR"; severity := "HIGH";
     explanation := None; source := None; available_tables := None |}.

(** [_try_execute_query]; [executed] is the list of statements handed to
    [cursor.execute] so far, most recent last.  Only [sqlite3.Error] is
    caught. *)
Definition _try_execute_query (query_text parsed : string)
    (executed : list string)
  : exc (execution_feedback Value) * list string :=
  let query_upper := Py.strip (Py.upper query_text) in
  if existsb (fun keyword => Py.contains keyword query_upper)
             destructive_keywords
  then (Ret (ExecError security_error), executed)
  else
    match cursor_execute query_text with
    | Rows description results =>
        (Ret (ExecResult
                {| result_columns := description;
                   data := take 10 results;
                   row_count := length results |}),
         executed ++ [query_text])
    | SqliteError msg =>
        (Ret (ExecError
                {| message := "Execution error: " +:+ msg;
                   type := "EXECUTION_ERROR"; severity := "HIGH";
                   explanation :=
                     Some "The query failed to execute against the sample database.";
                   source := None; available_tables := None |}),
         executed ++ [query_text])
    | CursorRaises e => (Raise e, executed ++ [query_text])
    end.

Definition suggestion (sugg_info : feedback_message) (sev : string) : item :=
  {| message := fm_message sugg_info; type := fm_type sugg_info;
     severity := sev; explanation := None; source := Some "ontology";
     available_tables := None |}.

(** The body of the loop of [_generate_ontology_suggestions] for one entry
    of [self.ontology.feedback_messages]. *)
Definition suggestions_for (query_text parsed : string)
    (entry : string * feedback_message) : exc (list item) :=
  let '(sugg_key, sugg_info) := entry in
  let query_upper := Py.upper query_text in
  if negb (Py.contains "ORDER BY" query_upper)
     && Py.contains "order_by" (Py.lower sugg_key)
     && negb (Py.contains "GROUP BY" query_upper)
  then Ret [suggestion sugg_info "LOW"]
  else if Py.contains "*" query_text
          && Py.contains "select_star" (Py.lower sugg_key)
          && negb (Py.contains "COUNT(*)" query_upper)
  then Ret [suggestion sugg_info "LOW"]
  else if Py.contains "employees" query_upper
          && Py.contains "departments" query_upper
          && Py.contains "join" (Py.lower sugg_key)
          && negb (Py.contains "JOIN" query_upper)
  then Ret [suggestion sugg_info "MEDIUM"]
  else if Py.contains "GROUP BY" query_upper
          && Py.contains "group_by_aggregate" (Py.lower sugg_key)
  then
    let select_clause := Py.upper (_extract_select_clause parsed) in
    let has_aggregate :=
      existsb (fun func => Py.contains (func +:+ "(") select_clause
                           || Py.contains (func +:+ " (") select_clause)
              aggregate_functions in
    Ret (if negb has_aggregate then [suggestion sugg_info "MEDIUM"] else [])
  else if Py.contains "GROUP BY" query_upper
          && Py.contains "group_by_select" (Py.lower sugg_key)
  then
    group_by_columns ← _extract_group_by_columns parsed;
    let select_clause := _extract_select_clause parsed in
    let select_columns := _extract_all_columns_from_select select_clause in
    let missing_in_select :=
      existsb (fun group_col =>
                 negb (Py.mem (Py.upper group_col)
                              (List.map Py.upper select_columns)))
              group_by_columns in
    Ret (if missing_in_select then [suggestion sugg_info "MEDIUM"] else [])
  else Ret [].

(** [_generate_ontology_suggestions] *)
Definition _generate_ontology_suggestions (query_text parsed : string)
    (errors : list item) : exc (list item) :=
  found ← mapM (suggestions_for query_text parsed)
               (feedback_messages ontology);
  Ret (concat found).

Definition empty_input_error : item :=
  {| message := "Please enter a SQL query."; type := "EMPTY_INPUT";
     severity := "LOW"; explanation := None; source := None;
     available_tables := None |}.

Definition parse_error (e : string) : item :=
  {| message := "Failed to parse query: " +:+ e; type := "PARSE_ERROR";
     severity := "HIGH"; explanation := None; source := None;
     available_tables := None |}.

Definition success_suggestion : item :=
  {| message := "✓ Query is syntactically and semantically correct!";
     type := "SUCCESS"; severity := "LOW"; explanation := None;
     source := Some "ontology"; available_tables := None |}.

(** The initial [feedback] dict with one error appended: what the two
    early [return feedback] of [analyze_query] give back. *)
Definition early_feedback (e : item) : feedback Value :=
  {| errors := [e]; warnings := []; suggestions := []; learning_path := [];
     correctness := "UNKNOWN"; execution_result := None |}.

(** The three validation passes of [analyze_query], in order. *)
Definition validate (query_text parsed : string) : exc (list item) :=
  let syntax_errors := _check_syntax query_text parsed in
  semantic_errors ← _check_semantics query_text parsed;
  schema_errors ← _check_schema_constraints query_text parsed;
  Ret (syntax_errors ++ semantic_errors ++ schema_errors).

(** What [analyze_query] does with the checks' errors and the outcome of
    the execution: suggestions, learning path, verdict. *)
Definition conclude (fuel : nat) (query_text parsed : string)
    (errors0 : list item) (execution_feedback : execution_feedback Value)
  : exc (feedback Value) :=
  let errors1 :=
    match execution_feedback with
    | ExecError error => errors0 ++ [error]
    | ExecResult _ => errors0
    end in
  let result :=
    match execution_feedback with
    | ExecError _ => None
    | ExecResult result => Some result
    end in
  suggestions ← _generate_ontology_suggestions query_text parsed errors1;
  learning_path ←
    of_fuel (suggest_learning_path fuel ontology (List.map type errors1));
  Ret (match errors1 with
       | [] =>
           {| errors := errors1; warnings := [];
              suggestions := success_suggestion :: suggestions;
              learning_path := learning_path;
              correctness := "CORRECT";
              execution_result := result |}
       | _ :: _ =>
           {| errors := errors1; warnings := [];
              suggestions := suggestions;
              learning_path := learning_path;
              correctness :=
                if existsb (fun e => String.eqb (severity e) "HIGH") errors1
                then "INCORRECT" else "PARTIAL";
              execution_result := result |}
       end).

(** [analyze_query]. [executed] is threaded through the one call that can
    reach the database. *)
Definition analyze_query (fuel : nat) (query_text : string)
    (executed : list string) : exc (feedback Value) * list string :=
  if String.eqb (Py.strip query_text) "" then
    (Ret (early_feedback empty_input_error), executed)
  else
    match sqlparse_parse query_text with
    | inl e => (Ret (early_feedback (parse_error e)), executed)
    | inr parsed =>
        match validate query_text parsed with
        | Raise e => (Raise e, executed)
        | Unfinished => (Unfinished, executed)
        | Ret errors0 =>
            let '(execution_feedback, executed') :=
              _try_execute_query query_text parsed executed in
            (execution_feedback ← execution_feedback;
             conclude fuel query_text parsed errors0 execution_feedback,
             executed')
        end
    end.

End Engine.

(** ** OntologyManager: the keys of the extracted entries *)

(** [s.replace(old, '')] for a non-empty [old]: the occurrences of [old],
    from left to right and without overlap, are removed; [skip] counts the
    characters of the occurrence being removed. *)
Fixpoint remove_go (old : string) (skip : nat) (s : string) : string :=
  match s with
  | EmptyString => EmptyString
  | String c s' =>
      match skip with
      | S skip' => remove_go old skip' s'
      | O =>
          if Py.startswith old s
          then remove_go old (String.length old - 1) s'
          else String c (remove_go old 0 s')
      end
  end.

Definition remove (old s : string) : string := remove_go old 0 s.

(** [''.join(['_' + c.lower() if c.isupper() else c for c in s])] *)
Fixpoint snake_case (s : string) : string :=
  match s with
  | EmptyString => EmptyString
  | String c s' =>
      if Py.isupper c
      then String "_"%char (String (Py.lower_char c) (snake_case s'))
      else String c (snake_case s')
  end.

(** [s.lstrip('_')] *)
Fixpoint lstrip_underscores (s : string) : string :=
  match s with
  | EmptyString => EmptyString
  | String c s' => if Ascii.eqb c "_"%char then lstrip_underscores s' else s
  end.

(** The key [_extract_error_patterns] and [_extract_feedback_messages] give
    the entry of the individual [uri]; [suffix] is ['_error'] for the
    first and ['_suggestion'] for the second. *)
Definition ontology_key (suffix uri : string) : string :=
  let class_name :=
    remove suffix (remove "_instance" (List.last (Py.split_on "#"%char uri) "")) in
  lstrip_underscores (snake_case class_name).

(** ** SQLTutorGUI: what the display methods write

    A display method empties its [ScrolledText] widget and then appends
    texts to it, each with a tag or without one.  The content of the widget
    after the call is the list of these texts and tags, in order. *)

Definition nl : string := String "010"%char EmptyString.

(** [display_results]; [str] is [str(cell)] on the values of the database. *)
Definition display_results {Value : Type} (str : Value -> string)
    (feedback : feedback Value) : list (string * option string) :=
  ("=== QUERY EXECUTION RESULTS ===" +:+ nl +:+ nl, Some "header")
  :: match execution_result feedback with
     | Some result =>
         let columns := Py.join " | " (result_columns result) in
         [("Columns: " +:+ columns +:+ nl +:+ nl, Some "sql");
          ("Data:" +:+ nl, Some "header")]
         ++ List.map (fun row =>
                        let row_str := Py.join " | " (List.map str row) in
                        (row_str +:+ nl, Some "sql"))
                     (data result)
         ++ [(nl +:+ "Total rows: " +:+ pretty (row_count result) +:+ nl,
              Some "header")]
         ++ (if 10 <? row_count result
             then [("(Showing first 10 rows)" +:+ nl, Some "suggestion")]
             else [])
     | None =>
         [("Query was not executed due to errors." +:+ nl, Some "error");
          ("Fix the errors in the Analysis tab and try again." +:+ nl,
           Some "suggestion")]
     end.

(** [display_feedback] *)
Definition source_line : string * option string :=
  ("   📚 Source: Ontology Knowledge Base" +:+ nl, Some "ontology").

Definition is_ontology (e : item) : bool :=
  match source e with
  | Some src => String.eqb src "ontology"
  | None => false
  end.

Definition error_lines (i : nat) (error : item) : list (string * option string) :=
  let tag := if is_ontology error then "ontology" else "error" in
  [(nl +:+ pretty (S i) +:+ ". " +:+ message error +:+ nl, Some tag)]
  ++ match explanation error with
     | Some (String _ _ as explanation) =>
         [("   💡 Explanation: " +:+ explanation +:+ nl, Some "suggestion")]
     | _ => []
     end
  ++ (if is_ontology error then [source_line] else []).

Definition suggestion_lines (i : nat) (suggestion : item)
  : list (string * option string) :=
  let tag := if String.eqb (type suggestion) "SUCCESS"
             then "success" else "suggestion" in
  let tag := if is_ontology suggestion then "ontology" else tag in
  [(nl +:+ pretty (S i) +:+ ". " +:+ message suggestion +:+ nl, Some tag)]
  ++ (if is_ontology suggestion then [source_line] else []).

Definition assessment (correctness : string) : list (string * option string) :=
  if String.eqb correctness "CORRECT" then
    [("✅ STATUS: Query is correct and executable!" +:+ nl, Some "success");
     ("Great job! Your query follows SQL syntax and semantic rules." +:+ nl,
      None)]
  else if String.eqb correctness "INCORRECT" then
    [("❌ STATUS: Query has critical errors" +:+ nl, Some "error");
     ("Please review and fix the errors listed above." +:+ nl, None)]
  else
    [("⚠️ STATUS: Query needs improvement" +:+ nl, Some "warning");
     ("Review the suggestions to enhance your query." +:+ nl, None)].

Definition errors_block (errors : list item) : list (string * option string) :=
  match errors with
  | [] => [("✅ No errors found!" +:+ nl, Some "success")]
  | _ :: _ =>
      ("❌ ERRORS FOUND:" +:+ nl, Some "error")
      :: concat (imap error_lines errors)
  end.

Definition suggestions_block (suggestions : list item)
  : list (string * option string) :=
  match suggestions with
  | [] => []
  | _ :: _ =>
      (nl +:+ nl +:+ "💡 SUGGESTIONS:" +:+ nl, Some "suggestion")
      :: concat (imap suggestion_lines suggestions)
  end.


(** Two lines of [display_results]. *)
Definition truncation_note : string * option string :=
  ("(Showing first 10 rows)" +:+ nl, Some "suggestion").

Definition not_executed_line : string * option string :=
  ("Query was not executed due to errors." +:+ nl, Some "error").

(** ** Notions of the specification

    Definitions that follow the words of the specification, to compare the
    code with. *)

(** A word without white space. *)
Definition no_space (k : string) : bool :=
  Py.all_chars (fun c => negb (Py.isspace c)) k.

(** The order in which the clauses appear, as the specification words it:
    the first position of each present clause, listed in canonical order;
    the clauses appear in canonical order when these positions increase. *)
Definition clause_positions (query_text : string) : list nat :=
  omap (fun clause => Py.find clause (Py.upper query_text)) canonical_clauses.

Fixpoint increasing (l : list nat) : bool :=
  match l with
  | a :: (b :: _) as l' => (a <? b) && increasing l'
  | _ => true
  end.

Definition appears_in_canonical_order (query_text : string) : bool :=
  increasing (clause_positions query_text).

(** An aggregate call in a clause, as the checks look for it: an aggregate
    function name, optional white space, an opening parenthesis; letter case
    is ignored. *)
Definition aggregate_call_start (func : string) : Re.pattern :=
  [Re.Lit true func; Re.Star Re.space; lparen].

Definition has_aggregate_call (clause : string) : bool :=
  existsb (fun func => Re.search (aggregate_call_start func) clause)
          aggregate_functions.

(** The trigger of [missing_group_by] as the specification states it: no
    [GROUP BY], an aggregate call in the SELECT clause, and a non-empty
    [extractNonAggregate(SELECT)], which is [_extract_columns_from_select]. *)
Definition missing_group_by_trigger (parsed query_text : string) : bool :=
  let select_clause := _extract_select_clause parsed in
  negb (Py.contains "GROUP BY" (Py.upper query_text))
  && has_aggregate_call select_clause
  && match _extract_columns_from_select select_clause with
     | [] => false
     | _ :: _ => true
     end.





(** A concept table without prerequisite cycles: some rank decreases along
    every prerequisite link the walk follows. *)
Definition acyclic (self : OntologyManager) (rank : string -> nat) : Prop :=
  forall k c p,
    sql_concepts self !! k = Some c ->
    truthy (prerequisite c) = Some p ->
    is_Some (sql_concepts self !! p) ->
    rank p < rank k.

(** Some finding has severity High, the condition of the verdict
    [Incorrect] in the specification. *)
Definition has_high (findings : list item) : Prop :=
  Exists (fun e => severity e = "HIGH") findings.

(** A query the execution gate rejects: its upper-cased text contains one of
    the destructive keywords. *)
Definition destructive (query_text : string) : bool :=
  existsb (fun keyword => Py.contains keyword (Py.upper query_text))
          destructive_keywords.

(** The database call ends normally or with an exception of class
    [sqlite3.Error], the one class [_try_execute_query] catches. *)
Definition cursor_answers {Value : Type}
    (cursor_execute : string -> sqlite_outcome Value) (query_text : string)
  : Prop :=
  forall e, cursor_execute query_text <> CursorRaises e.

(** ** Sample knowledge bases and collaborators *)

(** Two concepts that name each other as prerequisite. *)
Definition cyclic_ontology : OntologyManager :=
  {| schema_tables := [];
     error_patterns := ∅;
     feedback_messages := [];
     sql_concepts :=
       <["group_by_concept" :=
           SqlConcept "GROUP BY" 2 (Some "having_clause_concept")]>
       (<["having_clause_concept" :=
            SqlConcept "HAVING" 3 (Some "group_by_concept")]> ∅) |}.

(** A chain: aggregate functions need GROUP BY, which needs WHERE. *)
Definition chain_ontology : OntologyManager :=
  {| schema_tables := [];
     error_patterns := ∅;
     feedback_messages := [];
     sql_concepts :=
       <["aggregate_functions_concept" :=
           SqlConcept "Aggregate functions" 3 (Some "group_by_concept")]>
       (<["group_by_concept" :=
            SqlConcept "GROUP BY" 2 (Some "where_clause_concept")]>
       (<["where_clause_concept" := SqlConcept "WHERE" 1 None]> ∅)) |}.

Definition chain_rank (k : string) : nat :=
  if String.eqb k "aggregate_functions_concept" then 2
  else if String.eqb k "group_by_concept" then 1
  else 0.

(** A knowledge base with nothing in it, a parser that accepts every text
    as one statement, and a database that answers with no row. *)
Definition empty_ontology : OntologyManager :=
  {| schema_tables := []; error_patterns := ∅;
     feedback_messages := []; sql_concepts := ∅ |}.

Definition accepting_parser (query_text : string) : string + string :=
  inr query_text.


Definition no_rows (query_text : string) : sqlite_outcome string :=
  Rows [] [].

(** A knowledge base whose only content is two suggestion templates. *)
Definition advisory_ontology : OntologyManager :=
  {| schema_tables := []; error_patterns := ∅;
     feedback_messages :=
       [("order_by_suggestion",
         FeedbackMessage "Consider adding ORDER BY." "SUGGESTION");
        ("join_suggestion",
         FeedbackMessage "Use an explicit JOIN." "SUGGESTION")];
     sql_concepts := ∅ |}.


(** A knowledge base whose only suggestion template is the one about joins,
    and the tables of the sample database in its schema. *)
Definition join_ontology : OntologyManager :=
  {| schema_tables :=
       [("employees", [("emp_id", ColumnInfo "INTEGER" false true);
                       ("department", ColumnInfo "VARCHAR" true false)]);
        ("departments", [("dept_id", ColumnInfo "INTEGER" false true);
                         ("dept_name", ColumnInfo "VARCHAR" false false)]);
        ("projects", [("project_id", ColumnInfo "INTEGER" false true);
                      ("project_name", ColumnInfo "VARCHAR" false false)])];
     error_patterns := ∅;
     feedback_messages :=
       [("join_suggestion",
         FeedbackMessage "Use an explicit JOIN." "SUGGESTION")];
     sql_concepts := ∅ |}.

(** A database that answers every query with twelve rows of one column, and
    one that fails every query with an [sqlite3.Error]. *)
Definition twelve_rows (query_text : string) : sqlite_outcome string :=
  Rows ["emp_id"]
       [["1"]; ["2"]; ["3"]; ["4"]; ["5"]; ["6"];
        ["7"]; ["8"]; ["9"]; ["10"]; ["11"]; ["12"]].

Definition no_such_table (query_text : string) : sqlite_outcome string :=
  SqliteError "no such table: employes".

(** ** Notions of the further properties *)

(** The finding [_check_syntax] and [_check_semantics] build from an entry
    of [self.error_patterns], and the one [_try_execute_query] builds from
    an [sqlite3.Error]. *)
Definition pattern_finding (pattern : error_pattern) : item :=
  ontology_item (ep_message pattern) (ep_type pattern) (ep_severity pattern)
                (ep_explanation pattern).

Definition execution_error (msg : string) : item :=
  {| message := "Execution error: " +:+ msg;
     type := "EXECUTION_ERROR"; severity := "HIGH";
     explanation :=
       Some "The query failed to execute against the sample database.";
     source := None; available_tables := None |}.

(** The kinds of finding of a report on a parsed query: built from one of
    the entries of [self.error_patterns], a missing table among the
    extracted table names, the refusal of the execution gate, or an error
    of the database. *)
Inductive finding_of (ontology : OntologyManager) (parsed : string)
  : item -> Prop :=
  | finding_pattern key pattern :
      (key, pattern) ∈ engine_error_patterns ontology ->
      finding_of ontology parsed (pattern_finding pattern)
  | finding_table tables table_name :
      _extract_table_names parsed = Ret tables ->
      table_name ∈ tables ->
      has_key (Py.lower table_name) (schema ontology) = false ->
      finding_of ontology parsed (missing_table_error ontology table_name)
  | finding_security :
      finding_of ontology parsed security_error
  | finding_execution msg :
      finding_of ontology parsed (execution_error msg).

(** A text of ASCII characters only, the text on which the functions of
    [Py] are those of Python. *)
Definition ascii_text (s : string) : bool :=
  Py.all_chars (fun c => Py.code c <? 128) s.

(** A text of white space only (the empty text included), and
    [part.strip().split()[0]], the first word of a part of a clause. *)
Definition blank (s : string) : bool := Py.all_chars Py.isspace s.

Definition first_word (part : string) : exc string :=
  first (Py.split_ws (Py.strip part)).

(** A text without lower-case letter. *)
Definition upper_case (s : string) : bool :=
  Py.all_chars (fun c => negb (Py.islower c)) s.

(** The text [_extract_group_by_columns] takes for the GROUP BY clause, and
    the one [_extract_table_names] takes for the FROM clause. *)
Definition group_by_clause (parsed : string) : option string :=
  let query_str := Py.upper parsed in
  match Py.find "GROUP BY" query_str with
  | None => None
  | Some group_by_start =>
      Some (Py.strip
              (Py.slice query_str (group_by_start + 8)
                 (clause_end query_str group_by_start
                    ["HAVING"; "ORDER BY"; "LIMIT"])))
  end.

Definition from_clause (parsed : string) : option string :=
  let query_str := Py.upper parsed in
  match Py.find "FROM" query_str with
  | None => None
  | Some from_start =>
      Some (Py.strip
              (Py.slice query_str (from_start + 4)
                 (clause_end query_str from_start
                    ["WHERE"; "GROUP BY"; "HAVING"; "ORDER BY"; "JOIN"])))
  end.

(** Some part of the clause, between two commas, is blank. *)
Definition has_blank_part (clause : option string) : bool :=
  match clause with
  | None => false
  | Some clause => existsb blank (Py.split_on ","%char clause)
  end.

(** Some [JOIN] of the text is followed by an [ON] with nothing but white
    space between the two. *)
Definition join_without_table (query_str : string) : Prop :=
  exists join_pos join_end,
    Py.startswith "JOIN" (Py.sdrop join_pos query_str) = true
    /\ Py.find_from "ON" query_str join_pos = Some join_end
    /\ blank (Py.slice query_str (join_pos + 4) join_end) = true.

(** A word taken from [query_str]: not empty, without white space, made of
    characters of [query_str]. *)
Definition table_token (query_str tok : string) : Prop :=
  tok <> "" /\ no_space tok = true
  /\ forall p, Py.all_chars p query_str = true -> Py.all_chars p tok = true.

(** The extraction of the table names or of the GROUP BY columns takes the
    first word of a blank text. *)
Definition extraction_fails (parsed query_text : string) : Prop :=
  has_blank_part (from_clause parsed) = true
  \/ join_without_table (Py.upper parsed)
  \/ (Py.contains "GROUP BY" (Py.upper query_text) = true
      /\ has_blank_part (group_by_clause parsed) = true).

(** The query goes through to [cursor.execute]. *)
Definition reaches_database (sqlparse_parse : string -> string + string)
    (query_text : string) : Prop :=
  Py.strip query_text <> ""
  /\ destructive query_text = false
  /\ exists parsed,
       sqlparse_parse query_text = inr parsed
       /\ ~ extraction_fails parsed query_text.


(** The same knowledge base with other error patterns. *)
Definition with_error_patterns (ontology : OntologyManager)
    (patterns : gmap string ontology_error) : OntologyManager :=
  {| schema_tables := schema_tables ontology;
     error_patterns := patterns;
     feedback_messages := feedback_messages ontology;
     sql_concepts := sql_concepts ontology |}.

(** A knowledge base in which two tables have a column of the same name. *)
Definition shared_column_ontology : OntologyManager :=
  {| schema_tables :=
       [("employees", [("emp_id", ColumnInfo "INTEGER" false true);
                       ("department", ColumnInfo "VARCHAR" true false)]);
        ("projects", [("project_id", ColumnInfo "INTEGER" false true);
                      ("department", ColumnInfo "VARCHAR" true false)])];
     error_patterns := ∅;
     feedback_messages := [];
     sql_concepts := ∅ |}.

(** * Properties *)

(** ** Facts about the string built-ins *)

Section StringFacts.

(** Properties of single characters, each checked on the 256 of them. *)
Ltac by_ascii_cases :=
  let c := fresh "c" in
  intros c; destruct c as [[] [] [] [] [] [] [] []]; vm_compute;
  try reflexivity; try discriminate; auto.

Lemma upper_char_idem : forall c, Py.upper_char (Py.upper_char c) = Py.upper_char c.
Proof. by_ascii_cases. Qed.

Lemma upper_char_not_lower : forall c, Py.islower (Py.upper_char c) = false.
Proof. by_ascii_cases. Qed.

Lemma upper_char_space : forall c, Py.isspace (Py.upper_char c) = Py.isspace c.
Proof. by_ascii_cases. Qed.

Lemma upper_idem s : Py.upper (Py.upper s) = Py.upper s.
Proof.
  unfold Py.upper. induction s as [|c s IH]; simpl; [reflexivity|].
  now rewrite upper_char_idem, IH.
Qed.

(** [startswith] and [contains] as decompositions of the text. *)
Lemma startswith_app p t : Py.startswith p (p +:+ t) = true.
Proof.
  induction p as [|a p IH]; simpl; [reflexivity|].
  now rewrite Ascii.eqb_refl, IH.
Qed.

Lemma startswith_inv p s :
  Py.startswith p s = true -> exists t, s = p +:+ t.
Proof.
  revert s. induction p as [|a p IH]; intros s H.
  - now exists s.
  - destruct s as [|b s]; simpl in H; [discriminate|].
    apply andb_true_iff in H as [Hab Hp].
    apply Ascii.eqb_eq in Hab as ->.
    destruct (IH _ Hp) as [t ->]. now exists t.
Qed.

Lemma contains_startswith sub s :
  Py.startswith sub s = true -> Py.contains sub s = true.
Proof. intros H. destruct s; cbn [Py.contains]; now rewrite H. Qed.

Lemma contains_app a sub b : Py.contains sub (a +:+ sub +:+ b) = true.
Proof.
  induction a as [|c a IH].
  - change ("" +:+ sub +:+ b) with (sub +:+ b).
    apply contains_startswith, startswith_app.
  - change (String c a +:+ sub +:+ b) with (String c (a +:+ sub +:+ b)).
    cbn [Py.contains]. rewrite IH. apply orb_true_r.
Qed.


Lemma contains_cons sub c s :
  Py.contains sub (String c s)
  = Py.startswith sub (String c s) || Py.contains sub s.
Proof. reflexivity. Qed.

(** No lower-case letter survives [upper]. *)
Lemma startswith_upper_lower a p s :
  Py.islower a = true -> Py.startswith (String a p) (Py.upper s) = false.
Proof.
  intros Ha. destruct s as [|c s]; simpl; [reflexivity|].
  destruct (Ascii.eqb a (Py.upper_char c)) eqn:E; [|reflexivity].
  apply Ascii.eqb_eq in E. subst a.
  now rewrite upper_char_not_lower in Ha.
Qed.

Lemma contains_upper_lower a p s :
  Py.islower a = true -> Py.contains (String a p) (Py.upper s) = false.
Proof.
  intros Ha. induction s as [|c s IH].
  - reflexivity.
  - change (Py.upper (String c s)) with (String (Py.upper_char c) (Py.upper s)).
    rewrite contains_cons, IH, orb_false_r.
    apply (startswith_upper_lower a p (String c s) Ha).
Qed.

(** [strip] keeps every occurrence of a word without white space. *)
Lemma startswith_space k c s :
  no_space k = true -> k <> "" -> Py.isspace c = true ->
  Py.startswith k (String c s) = false.
Proof.
  intros Hk Hne Hc. destruct k as [|a k]; [congruence|]. simpl in *.
  apply andb_true_iff in Hk as [Ha _].
  destruct (Ascii.eqb a c) eqn:E; [|reflexivity].
  apply Ascii.eqb_eq in E. subst a. now rewrite Hc in Ha.
Qed.

Lemma contains_lstrip k s :
  no_space k = true -> k <> "" ->
  Py.contains k (Py.lstrip s) = Py.contains k s.
Proof.
  intros Hk Hne. induction s as [|c s IH]; [reflexivity|].
  cbn [Py.lstrip]. destruct (Py.isspace c) eqn:Hc; [|reflexivity].
  now rewrite IH, contains_cons, startswith_space.
Qed.

Lemma rstrip_cons c s :
  Py.rstrip (String c s)
  = if String.eqb (Py.rstrip s) "" && Py.isspace c then ""
    else String c (Py.rstrip s).
Proof.
  cbn [Py.rstrip]. destruct (Py.rstrip s); simpl; [|reflexivity].
  now destruct (Py.isspace c).
Qed.

Lemma startswith_rstrip k s :
  no_space k = true -> Py.startswith k (Py.rstrip s) = Py.startswith k s.
Proof.
  revert s. induction k as [|a k IH]; intros s Hk; [now destruct s|].
  simpl in Hk. apply andb_true_iff in Hk as [Ha Hk].
  destruct s as [|c s]; [reflexivity|].
  rewrite rstrip_cons.
  destruct (String.eqb (Py.rstrip s) "" && Py.isspace c) eqn:E.
  - apply andb_true_iff in E as [_ Hc]. simpl.
    destruct (Ascii.eqb a c) eqn:Eac; [|reflexivity].
    apply Ascii.eqb_eq in Eac. subst a. now rewrite Hc in Ha.
  - simpl. now rewrite IH.
Qed.

Lemma contains_rstrip k s :
  no_space k = true -> k <> "" ->
  Py.contains k (Py.rstrip s) = Py.contains k s.
Proof.
  intros Hk Hne. induction s as [|c s IH]; [reflexivity|].
  rewrite (contains_cons k c s), <- (startswith_rstrip k (String c s) Hk).
  rewrite rstrip_cons.
  destruct (String.eqb (Py.rstrip s) "" && Py.isspace c) eqn:E.
  - apply andb_true_iff in E as [Hr _]. apply String.eqb_eq in Hr.
    rewrite <- IH, Hr. destruct k; [congruence|reflexivity].
  - now rewrite contains_cons, IH.
Qed.

Lemma contains_strip k s :
  no_space k = true -> k <> "" ->
  Py.contains k (Py.strip s) = Py.contains k s.
Proof.
  intros Hk Hne. unfold Py.strip.
  now rewrite contains_rstrip, contains_lstrip.
Qed.

(** A blank text stays blank under [upper]. *)
Lemma lstrip_upper s : Py.lstrip (Py.upper s) = Py.upper (Py.lstrip s).
Proof.
  induction s as [|c s IH]; [reflexivity|].
  change (Py.upper (String c s)) with (String (Py.upper_char c) (Py.upper s)).
  cbn [Py.lstrip]. rewrite upper_char_space.
  now destruct (Py.isspace c).
Qed.

End StringFacts.

(** ** The clause-order check *)

Lemma mem_In x l : Py.mem x l = true <-> In x l.
Proof.
  unfold Py.mem. rewrite existsb_exists. split.
  - intros (y & Hy & E). apply String.eqb_eq in E. now subst.
  - intros H. exists x. split; [assumption|apply String.eqb_refl].
Qed.

Lemma filter_mem_filter (p : string -> bool) (l : list string) :
  List.filter (fun c => Py.mem c (List.filter p l)) l = List.filter p l.
Proof.
  apply List.filter_ext_in. intros c Hc.
  destruct (p c) eqn:Hp.
  - apply mem_In, List.filter_In. now split.
  - destruct (Py.mem c (List.filter p l)) eqn:E; [|reflexivity].
    apply mem_In, List.filter_In in E as [_ E]. congruence.
Qed.

(** [_check_clause_order] compares a list with itself: [clauses] is collected
    by a loop over the canonical order, so it is already the canonical
    subsequence, and the check returns [None] on every text. *)
Lemma _check_clause_order_None query_text :
  _check_clause_order query_text = None.
Proof.
  unfold _check_clause_order, present_clauses.
  rewrite filter_mem_filter.
  destruct (decide _) as [H|H]; [now contradiction H|reflexivity].
Qed.

(** [_check_syntax] reports nothing but a missing [SELECT]. *)
Lemma _check_syntax_starts_with_select ontology query_text parsed :
  Py.startswith "SELECT" (Py.strip (Py.upper query_text)) = true ->
  _check_syntax ontology query_text parsed = [].
Proof.
  intros H. unfold _check_syntax.
  now rewrite H, _check_clause_order_None.
Qed.

Lemma _check_syntax_length ontology query_text parsed :
  length (_check_syntax ontology query_text parsed) <= 1.
Proof.
  unfold _check_syntax. rewrite _check_clause_order_None, app_nil_r.
  destruct (negb _); [|simpl; lia].
  destruct (assoc _ _); simpl; lia.
Qed.

(** C2, at the input [FROM employees SELECT *]: the clauses [SELECT] and
    [FROM] are present and appear out of canonical order ([FROM] at
    position 0, [SELECT] at 15), and [_check_clause_order] returns [None]:
    no SYNTAX_ERROR/MEDIUM finding is produced. *)
Theorem C2_clause_order_silent_on_reordered_query :
  present_clauses "FROM employees SELECT *" = ["SELECT"; "FROM"]
  /\ clause_positions "FROM employees SELECT *" = [15; 0]
  /\ appears_in_canonical_order "FROM employees SELECT *" = false
  /\ _check_clause_order "FROM employees SELECT *" = None.
Proof. repeat split; vm_compute; reflexivity. Qed.

(** On every query the clause-order check is silent, in or out of order. *)
Theorem clause_order_check_never_fires :
  forall query_text, _check_clause_order query_text = None.
Proof. exact _check_clause_order_None. Qed.

(** ** The missing-GROUP-BY check *)

(** The documented cases: a SELECT list of aggregates only does not fire, a
    mixed one does. *)
Example missing_group_by_pure_aggregate :
  check_missing_group_by "SELECT COUNT(*) FROM employees"
                         "SELECT COUNT(*) FROM employees" = false.
Proof. vm_compute. reflexivity. Qed.

Example missing_group_by_mixed :
  check_missing_group_by "SELECT department, COUNT(*) FROM employees"
                         "SELECT department, COUNT(*) FROM employees" = true.
Proof. vm_compute. reflexivity. Qed.

(** What the check guarantees when it fires: no [GROUP BY], and a column
    outside the aggregate calls. *)
Lemma check_missing_group_by_fires parsed query_text :
  check_missing_group_by parsed query_text = true ->
  Py.contains "GROUP BY" (Py.upper query_text) = false
  /\ _extract_columns_from_select (_extract_select_clause parsed) <> [].
Proof.
  unfold check_missing_group_by, _needs_group_by. cbv zeta.
  destruct (Py.contains "GROUP BY" _); [discriminate|].
  destruct (String.eqb _ ""); [discriminate|].
  destruct (existsb _ aggregate_functions); [|discriminate].
  intros H. split; [reflexivity|].
  intros E. rewrite E in H. discriminate.
Qed.

(** C1, at the input [SELECT salary, SUM(salary) FROM employees]: there is no
    GROUP BY, the SELECT clause holds the aggregate call [SUM(SALARY)] and
    the non-aggregate column [SALARY], so the stated trigger holds; the check
    does not fire, because [_needs_group_by] drops a column whose name also
    occurs inside an aggregate call.  The definition of
    [check_missing_group_by] that the class body replaces fires here. *)
Theorem C1_missing_group_by_misses_repeated_column :
  let q := "SELECT salary, SUM(salary) FROM employees" in
  Py.contains "GROUP BY" (Py.upper q) = false
  /\ has_aggregate_call (_extract_select_clause q) = true
  /\ _extract_columns_from_select (_extract_select_clause q) = ["SALARY"]
  /\ missing_group_by_trigger q q = true
  /\ check_missing_group_by q q = false
  /\ check_missing_group_by_replaced q q = true.
Proof. repeat split; vm_compute; reflexivity. Qed.

(** The other direction fails too: [has_aggregate] in [_needs_group_by] is a
    substring test for the function name, so a column whose name contains one
    ([DISCOUNT] contains [COUNT]) makes the check fire on a SELECT clause with
    no aggregate call. *)
Example missing_group_by_fires_without_aggregate :
  let q := "SELECT discount FROM products" in
  has_aggregate_call (_extract_select_clause q) = false
  /\ missing_group_by_trigger q q = false
  /\ check_missing_group_by q q = true.
Proof. repeat split; vm_compute; reflexivity. Qed.

(** ** The aggregate-with-GROUP-BY check *)

Section RegexFacts.










(** The SELECT clause is a piece of the upper-cased statement. *)
Lemma upper_sdrop n s : Py.upper (Py.sdrop n s) = Py.sdrop n (Py.upper s).
Proof.
  revert s. induction n as [|n IH]; intros s; [reflexivity|].
  destruct s as [|c s]; [reflexivity|]. apply IH.
Qed.

Lemma upper_stake n s : Py.upper (Py.stake n s) = Py.stake n (Py.upper s).
Proof.
  revert s. induction n as [|n IH]; intros s; [now destruct s|].
  destruct s as [|c s]; [reflexivity|].
  change (Py.upper (Py.stake (S n) (String c s)))
    with (String (Py.upper_char c) (Py.upper (Py.stake n s))).
  now rewrite IH.
Qed.


End RegexFacts.







(** *** What follows the first [FROM] is not inspected *)

Section Prefix.

Lemma startswith_stake p s :
  Py.startswith p (Py.stake (String.length p) s) = Py.startswith p s.
Proof.
  revert s. induction p as [|a p IH]; intros s; [reflexivity|].
  destruct s as [|b s]; [reflexivity|]. simpl. now rewrite IH.
Qed.

Lemma stake_stake n m s :
  n <= m -> Py.stake n (Py.stake m s) = Py.stake n s.
Proof.
  revert m s. induction n as [|n IH]; intros m s Hnm; [now destruct m, s|].
  destruct m as [|m]; [lia|]. destruct s as [|c s]; [reflexivity|].
  simpl. rewrite IH; [reflexivity|lia].
Qed.

Lemma stake_agree n m s s' :
  n <= m -> Py.stake m s' = Py.stake m s -> Py.stake n s' = Py.stake n s.
Proof.
  intros Hnm H. rewrite <- (stake_stake n m s'), <- (stake_stake n m s) by lia.
  now rewrite H.
Qed.

Lemma find_at_ge sub s i n : Py.find_at sub s i = Some n -> i <= n.
Proof.
  revert i. induction s as [|c s IH]; intros i; cbn [Py.find_at].
  - destruct (Py.startswith sub ""); [intros [= <-]; lia|discriminate].
  - destruct (Py.startswith sub (String c s)); [intros [= <-]; lia|].
    intros H. apply IH in H. lia.
Qed.

(** The first occurrence is determined by the text up to its end. *)
Lemma find_at_agree sub s s' i n :
  Py.find_at sub s i = Some n ->
  Py.stake (n - i + String.length sub) s'
  = Py.stake (n - i + String.length sub) s ->
  Py.find_at sub s' i = Some n.
Proof.
  revert s' i. induction s as [|c s IH]; intros s' i Hfind Hagree.
  - cbn [Py.find_at] in Hfind.
    destruct (Py.startswith sub "") eqn:E; [|discriminate].
    injection Hfind as <-.
    apply (stake_agree (String.length sub)) in Hagree; [|lia].
    assert (Py.startswith sub s' = true) as Hs'
      by (now rewrite <- startswith_stake, Hagree, startswith_stake).
    destruct s'; cbn [Py.find_at]; now rewrite Hs'.
  - cbn [Py.find_at] in Hfind.
    pose proof Hagree as Hsub.
    apply (stake_agree (String.length sub)) in Hsub; [|lia].
    assert (Py.startswith sub s' = Py.startswith sub (String c s)) as Hs'
      by (now rewrite <- startswith_stake, Hsub, startswith_stake).
    destruct (Py.startswith sub (String c s)) eqn:E.
    + injection Hfind as <-.
      destruct s'; cbn [Py.find_at]; now rewrite Hs'.
    + pose proof (find_at_ge _ _ _ _ Hfind) as Hge.
      replace (n - i + String.length sub)
        with (S (n - S i + String.length sub)) in Hagree by lia.
      destruct s' as [|c' s']; [discriminate|].
      cbn [Py.stake] in Hagree. injection Hagree as -> Hagree.
      cbn [Py.find_at]. rewrite Hs'. now apply IH.
Qed.

Lemma find_at_startswith sub s i n :
  Py.find_at sub s i = Some n -> Py.startswith sub (Py.sdrop (n - i) s) = true.
Proof.
  revert i. induction s as [|c s IH]; intros i; cbn [Py.find_at].
  - destruct (Py.startswith sub "") eqn:E; [|discriminate].
    intros [= <-]. now rewrite Nat.sub_diag.
  - destruct (Py.startswith sub (String c s)) eqn:E.
    + intros [= <-]. now rewrite Nat.sub_diag.
    + intros H. pose proof (find_at_ge _ _ _ _ H).
      replace (n - i) with (S (n - S i)) by lia. now apply IH.
Qed.

Lemma sdrop_stake_agree i m s s' :
  Py.stake (i + m) s' = Py.stake (i + m) s ->
  Py.stake m (Py.sdrop i s') = Py.stake m (Py.sdrop i s).
Proof.
  revert s s'. induction i as [|i IH]; intros s s' H; [exact H|].
  destruct s as [|c s], s' as [|c' s']; cbn [Py.sdrop].
  - reflexivity.
  - cbn in H. destruct m; discriminate.
  - cbn in H. destruct m; discriminate.
  - cbn in H. injection H as _ H. now apply IH.
Qed.

(** [FROM] cannot start inside the keyword [SELECT]. *)
Lemma from_after_select t i j :
  Py.find_at "FROM" ("SELECT" +:+ t) i = Some j -> i + 6 <= j.
Proof.
  change (Py.find_at "FROM" ("SELECT" +:+ t) i)
    with (Py.find_at "FROM" t (S (S (S (S (S (S i))))))).
  intros H. apply find_at_ge in H. lia.
Qed.

End Prefix.

(** The SELECT clause of a statement is the same for every statement that
    agrees with it up to the end of the first [FROM] after [SELECT]. *)
Lemma _extract_select_clause_prefix parsed parsed' i j :
  Py.find "SELECT" (Py.upper parsed) = Some i ->
  Py.find_from "FROM" (Py.upper parsed) i = Some j ->
  Py.stake (j + 4) parsed' = Py.stake (j + 4) parsed ->
  _extract_select_clause parsed' = _extract_select_clause parsed.
Proof.
  intros Hsel Hfrom Hagree.
  assert (Py.stake (j + 4) (Py.upper parsed')
          = Py.stake (j + 4) (Py.upper parsed)) as Hup
    by (now rewrite <- !upper_stake, Hagree).
  unfold Py.find in Hsel. unfold Py.find_from in Hfrom.
  pose proof (find_at_startswith _ _ _ _ Hsel) as Hstart.
  rewrite Nat.sub_0_r in Hstart.
  apply startswith_inv in Hstart as [t Ht].
  rewrite Ht in Hfrom. pose proof (from_after_select _ _ _ Hfrom) as Hij.
  rewrite <- Ht in Hfrom.
  assert (Py.find "SELECT" (Py.upper parsed') = Some i) as Hsel'.
  { unfold Py.find. apply (find_at_agree _ _ _ _ _ Hsel).
    apply (stake_agree _ (j + 4)); [cbn; lia|exact Hup]. }
  assert (Py.find_from "FROM" (Py.upper parsed') i = Some j) as Hfrom'.
  { unfold Py.find_from. apply (find_at_agree _ _ _ _ _ Hfrom).
    apply sdrop_stake_agree.
    apply (stake_agree _ (j + 4)); [cbn; lia|exact Hup]. }
  unfold _extract_select_clause. cbv zeta.
  rewrite Hsel', Hfrom'. unfold Py.find, Py.find_from. rewrite Hsel, Hfrom.
  unfold Py.slice. apply sdrop_stake_agree.
  apply (stake_agree _ (j + 4)); [lia|exact Hup].
Qed.

(** The check [missing_aggregate_with_group_by] gives the same answer on two
    statements that agree up to the end of the first [FROM] after [SELECT],
    whatever follows (a HAVING clause with an aggregate, for one), when the
    queries both have a [GROUP BY]. *)
Theorem missing_aggregate_with_group_by_ignores_tail
    (parsed parsed' query_text query_text' : string) (i j : nat) :
  Py.find "SELECT" (Py.upper parsed) = Some i ->
  Py.find_from "FROM" (Py.upper parsed) i = Some j ->
  Py.stake (j + 4) parsed' = Py.stake (j + 4) parsed ->
  Py.contains "GROUP BY" (Py.upper query_text) = true ->
  Py.contains "GROUP BY" (Py.upper query_text') = true ->
  check_missing_aggregate_with_group_by parsed' query_text'
  = check_missing_aggregate_with_group_by parsed query_text.
Proof.
  intros Hsel Hfrom Hagree Hg Hg'.
  unfold check_missing_aggregate_with_group_by. cbv zeta.
  now rewrite Hg, Hg', (_extract_select_clause_prefix parsed parsed' i j).
Qed.

Lemma missing_aggregate_with_group_by_tail_witness :
  check_missing_aggregate_with_group_by
    "SELECT department FROM employees GROUP BY department HAVING COUNT(*) > 1"
    "SELECT department FROM employees GROUP BY department HAVING COUNT(*) > 1"
  = check_missing_aggregate_with_group_by
      "SELECT department FROM employees GROUP BY department"
      "SELECT department FROM employees GROUP BY department".
Proof.
  apply (missing_aggregate_with_group_by_ignores_tail
           "SELECT department FROM employees GROUP BY department"
           "SELECT department FROM employees GROUP BY department HAVING COUNT(*) > 1"
           "SELECT department FROM employees GROUP BY department"
           "SELECT department FROM employees GROUP BY department HAVING COUNT(*) > 1"
           0 18); vm_compute; reflexivity.
Defined.

(** ** The learning path *)

Section LearningPath.

Variable self : OntologyManager.

Global Instance by_difficulty_total : Total (by_difficulty self).
Proof. intros a b. unfold by_difficulty. lia. Qed.

Global Instance by_difficulty_trans : Transitive (by_difficulty self).
Proof. intros a b c. unfold by_difficulty. lia. Qed.

(** More fuel does not change the result of a walk that ended. *)
Lemma get_concept_prerequisites_mono fuel fuel' c l :
  get_concept_prerequisites fuel self c = Some l ->
  fuel <= fuel' ->
  get_concept_prerequisites fuel' self c = Some l.
Proof.
  revert fuel' c l. induction fuel as [|fuel IH]; intros fuel' c l H Hle.
  - discriminate.
  - destruct fuel' as [|fuel']; [lia|]. simpl in *.
    destruct (sql_concepts self !! c) as [k|]; [|assumption].
    destruct (truthy (prerequisite k)) as [p|]; [|assumption].
    destruct (decide (is_Some (sql_concepts self !! p))); [|assumption].
    destruct (get_concept_prerequisites fuel self p) as [l'|] eqn:E;
      [|discriminate].
    rewrite (IH fuel' p l' E); [assumption|lia].
Qed.

(** On a table without cycles the walk ends within [rank c + 1]
    iterations. *)
Lemma get_concept_prerequisites_terminates rank :
  acyclic self rank ->
  forall fuel c, rank c < fuel ->
    is_Some (get_concept_prerequisites fuel self c).
Proof.
  intros Hacyclic. induction fuel as [|fuel IH]; intros c Hc; [lia|].
  simpl. destruct (sql_concepts self !! c) as [k|] eqn:Hk; [|by eexists].
  destruct (truthy (prerequisite k)) as [p|] eqn:Hp; [|by eexists].
  destruct (decide (is_Some (sql_concepts self !! p))) as [Hin|]; [|by eexists].
  pose proof (Hacyclic c k p Hk Hp Hin) as Hrank.
  destruct (IH p) as [l Hl]; [lia|]. rewrite Hl. by eexists.
Qed.

(** Whatever [suggest_learning_path] returns has no duplicate and is sorted
    by ascending difficulty. *)
Lemma suggest_learning_path_sorted fuel current_errors path :
  suggest_learning_path fuel self current_errors = Some path ->
  NoDup path /\ Sorted (by_difficulty self) path.
Proof.
  unfold suggest_learning_path. cbv zeta.
  destruct (mapM _ _) as [prereqs|]; [|discriminate].
  intros [= <-]. split.
  - rewrite merge_sort_Permutation. apply NoDup_elements.
  - apply Sorted_merge_sort. apply _.
Qed.

Lemma suggest_learning_path_terminates rank current_errors :
  acyclic self rank ->
  exists fuel, is_Some (suggest_learning_path fuel self current_errors).
Proof.
  intros Hacyclic.
  set (needed := elements (concepts_needed current_errors)).
  exists (S (foldr Nat.max 0 (rank <$> needed))).
  unfold suggest_learning_path. cbv zeta. fold needed.
  assert (is_Some (mapM (get_concept_prerequisites
                           (S (foldr Nat.max 0 (rank <$> needed))) self)
                        needed)) as [prereqs ->]; [|by eexists].
  apply mapM_is_Some, Forall_forall. intros c Hc.
  apply (get_concept_prerequisites_terminates rank Hacyclic).
  enough (rank c <= foldr Nat.max 0 (rank <$> needed)) by lia.
  clear -Hc. induction Hc as [c l|c d l Hc IH]; csimpl; lia.
Qed.

End LearningPath.

(** The prerequisite walk on the cyclic table: no amount of fuel ends it. *)
Lemma cyclic_walk_unfinished fuel :
  get_concept_prerequisites fuel cyclic_ontology "group_by_concept" = None
  /\ get_concept_prerequisites fuel cyclic_ontology "having_clause_concept" = None.
Proof.
  induction fuel as [|fuel [IH1 IH2]]; [split; reflexivity|].
  split; cbn [get_concept_prerequisites].
  - change (sql_concepts cyclic_ontology !! "group_by_concept")
      with (Some (SqlConcept "GROUP BY" 2 (Some "having_clause_concept"))).
    cbn [prerequisite truthy].
    destruct (decide _) as [_|Hn]; [now rewrite IH2|].
    exfalso. apply Hn. vm_compute. eauto.
  - change (sql_concepts cyclic_ontology !! "having_clause_concept")
      with (Some (SqlConcept "HAVING" 3 (Some "group_by_concept"))).
    cbn [prerequisite truthy].
    destruct (decide _) as [_|Hn]; [now rewrite IH1|].
    exfalso. apply Hn. vm_compute. eauto.
Qed.

(** C6, the counterexample: on the table in which [group_by_concept] and
    [having_clause_concept] are each other's prerequisite, the walk of
    [get_concept_prerequisites] does not terminate, and neither does
    [suggest_learning_path] for an error about grouping. *)
Lemma C6_cyclic_prerequisites_never_terminate :
  (prerequisite <$> sql_concepts cyclic_ontology !! "group_by_concept"
   = Some (Some "having_clause_concept")
   /\ prerequisite <$> sql_concepts cyclic_ontology !! "having_clause_concept"
      = Some (Some "group_by_concept"))
  /\ (forall fuel,
        get_concept_prerequisites fuel cyclic_ontology "group_by_concept" = None)
  /\ (forall fuel,
        suggest_learning_path fuel cyclic_ontology ["GROUP_ERROR"] = None).
Proof.
  split; [split; vm_compute; reflexivity|]. split.
  - intros fuel. apply cyclic_walk_unfinished.
  - intros fuel. unfold suggest_learning_path. cbv zeta.
    replace (elements (concepts_needed ["GROUP_ERROR"]))
      with ["group_by_concept"; "having_clause_concept"]
      by (vm_compute; reflexivity).
    cbn [mapM]. now rewrite (proj1 (cyclic_walk_unfinished fuel)).
Qed.

(** C6, as the code has it: for a concept table without prerequisite cycles
    the walks terminate (enough fuel gives a learning path), and the learning
    path has no duplicate and is sorted by ascending difficulty. *)
Theorem C6_learning_path_on_acyclic_table
    (self : OntologyManager) (rank : string -> nat)
    (current_errors : list string) :
  acyclic self rank ->
  exists fuel path,
    suggest_learning_path fuel self current_errors = Some path
    /\ NoDup path
    /\ Sorted (by_difficulty self) path.
Proof.
  intros Hacyclic.
  destruct (suggest_learning_path_terminates self rank current_errors Hacyclic)
    as [fuel [path Hpath]].
  exists fuel, path. split; [assumption|].
  apply (suggest_learning_path_sorted self fuel current_errors path Hpath).
Qed.

Lemma chain_ontology_acyclic : acyclic chain_ontology chain_rank.
Proof.
  intros k c p Hk Hp Hin. cbn [sql_concepts chain_ontology] in Hk.
  rewrite !lookup_insert in Hk.
  repeat case_decide; simplify_eq; cbn in Hp; simplify_eq;
    try (vm_compute; lia).
Qed.

Lemma C6_learning_path_witness :
  exists fuel path,
    suggest_learning_path fuel chain_ontology ["SEMANTIC_ERROR aggregate"]
    = Some path
    /\ NoDup path
    /\ Sorted (by_difficulty chain_ontology) path.
Proof.
  apply (C6_learning_path_on_acyclic_table chain_ontology chain_rank
           ["SEMANTIC_ERROR aggregate"] chain_ontology_acyclic).
Defined.

(** ** The analysis pipeline *)

Lemma rstrip_upper s : Py.rstrip (Py.upper s) = Py.upper (Py.rstrip s).
Proof.
  induction s as [|c s IH]; [reflexivity|].
  change (Py.upper (String c s)) with (String (Py.upper_char c) (Py.upper s)).
  rewrite !rstrip_cons, IH, upper_char_space.
  destruct (Py.rstrip s); simpl; [|reflexivity].
  now destruct (Py.isspace c).
Qed.

Lemma strip_upper s : Py.strip (Py.upper s) = Py.upper (Py.strip s).
Proof. unfold Py.strip. now rewrite lstrip_upper, rstrip_upper. Qed.

Lemma destructive_strip s :
  existsb (fun keyword => Py.contains keyword (Py.strip s)) destructive_keywords
  = existsb (fun keyword => Py.contains keyword s) destructive_keywords.
Proof.
  unfold destructive_keywords. cbn [existsb].
  now rewrite !contains_strip by (reflexivity || discriminate).
Qed.

Lemma destructive_not_blank query_text :
  destructive query_text = true -> String.eqb (Py.strip query_text) "" = false.
Proof.
  intros H. destruct (String.eqb (Py.strip query_text) "") eqn:E; [|reflexivity].
  apply String.eqb_eq in E.
  unfold destructive in H. rewrite <- destructive_strip, strip_upper, E in H.
  discriminate.
Qed.

Section Analysis.

Context {Value : Type}.
Variable ontology : OntologyManager.
Variable sqlparse_parse : string -> string + string.
Variable cursor_execute : string -> sqlite_outcome Value.

(** The execution gate: a destructive query gets the SECURITY_ERROR and the
    cursor is not called. *)
Lemma _try_execute_query_destructive query_text parsed executed :
  destructive query_text = true ->
  _try_execute_query cursor_execute query_text parsed executed
  = (Ret (ExecError security_error), executed).
Proof.
  intros H. unfold destructive in H. unfold _try_execute_query. cbv zeta.
  now rewrite destructive_strip, H.
Qed.

Lemma _try_execute_query_returns query_text parsed executed :
  destructive query_text = true \/ cursor_answers cursor_execute query_text ->
  exists execution_feedback,
    _try_execute_query cursor_execute query_text parsed executed
    = (Ret execution_feedback,
       snd (_try_execute_query cursor_execute query_text parsed executed)).
Proof.
  intros [H|H].
  - rewrite _try_execute_query_destructive by assumption. by eexists.
  - unfold _try_execute_query. cbv zeta.
    destruct (existsb _ destructive_keywords); [by eexists|].
    destruct (cursor_execute query_text) as [msg|d r|e] eqn:E;
      [by eexists..|].
    now destruct (H e).
Qed.

(** Otherwise the cursor is called, once, with the text of the query. *)
Lemma _try_execute_query_harmless query_text parsed executed :
  destructive query_text = false ->
  snd (_try_execute_query cursor_execute query_text parsed executed)
  = executed ++ [query_text].
Proof.
  intros H. unfold destructive in H. unfold _try_execute_query. cbv zeta.
  rewrite destructive_strip, H. now destruct (cursor_execute query_text).
Qed.

(** The two early returns. *)
Lemma analyze_query_blank fuel query_text executed :
  Py.strip query_text = "" ->
  analyze_query ontology sqlparse_parse cursor_execute fuel query_text executed
  = (Ret (early_feedback empty_input_error), executed).
Proof. intros H. unfold analyze_query. now rewrite H. Qed.


(** What a report of the main path is made of. *)
Lemma analyze_query_parsed fuel query_text executed parsed fb executed' :
  Py.strip query_text <> "" ->
  sqlparse_parse query_text = inr parsed ->
  analyze_query ontology sqlparse_parse cursor_execute fuel query_text executed
  = (Ret fb, executed') ->
  exists errors0 execution_feedback,
    validate ontology query_text parsed = Ret errors0
    /\ _try_execute_query cursor_execute query_text parsed executed
       = (Ret execution_feedback, executed')
    /\ errors fb
       = match execution_feedback with
         | ExecError error => errors0 ++ [error]
         | ExecResult _ => errors0
         end
    /\ execution_result fb
       = match execution_feedback with
         | ExecError _ => None
         | ExecResult result => Some result
         end
    /\ correctness fb
       = match errors fb with
         | [] => "CORRECT"
         | _ :: _ =>
             if existsb (fun e => String.eqb (severity e) "HIGH") (errors fb)
             then "INCORRECT" else "PARTIAL"
         end.
Proof.
  intros H Hp. unfold analyze_query.
  apply String.eqb_neq in H. rewrite H, Hp.
  destruct (validate ontology query_text parsed) as [errors0| |];
    [|discriminate..].
  destruct (_try_execute_query cursor_execute query_text parsed executed)
    as [[ef| |] ex] eqn:Hex; cbn [mbind exc_bind]; [|discriminate..].
  unfold conclude. cbv zeta.
  destruct (_generate_ontology_suggestions _ _ _ _) as [sugg| |];
    cbn [mbind exc_bind]; [|discriminate..].
  destruct (suggest_learning_path _ _ _) as [lp|];
    cbn [of_fuel mbind exc_bind]; [|discriminate].
  intros [= <- <-]. exists errors0, ef.
  split; [reflexivity|]. split; [reflexivity|].
  destruct ef as [e|r].
  - destruct (errors0 ++ [e]); repeat split; reflexivity.
  - destruct errors0; repeat split; reflexivity.
Qed.

(** The database sees at most the query itself, and nothing when the query
    is destructive, whatever the outcome of the analysis. *)
Lemma analyze_query_executed fuel query_text executed :
  snd (analyze_query ontology sqlparse_parse cursor_execute fuel query_text
         executed) = executed
  \/ exists parsed,
       snd (analyze_query ontology sqlparse_parse cursor_execute fuel
              query_text executed)
       = snd (_try_execute_query cursor_execute query_text parsed executed).
Proof.
  unfold analyze_query.
  destruct (String.eqb _ ""); [now left|].
  destruct (sqlparse_parse query_text) as [e|parsed]; [now left|].
  destruct (validate ontology query_text parsed); [|now left..].
  right. exists parsed.
  now destruct (_try_execute_query cursor_execute query_text parsed executed).
Qed.

Lemma analyze_query_destructive_not_executed fuel query_text executed :
  destructive query_text = true ->
  snd (analyze_query ontology sqlparse_parse cursor_execute fuel query_text
         executed) = executed.
Proof.
  intros H.
  destruct (analyze_query_executed fuel query_text executed)
    as [E|[parsed E]]; [assumption|].
  now rewrite E, _try_execute_query_destructive.
Qed.

End Analysis.

(** ** Verdict *)

Lemma existsb_high findings :
  existsb (fun e => String.eqb (severity e) "HIGH") findings = true
  <-> has_high findings.
Proof.
  unfold has_high. rewrite existsb_exists, Exists_exists.
  split; intros (e & He & Hs); exists e; (split; [now apply list_elem_of_In|]).
  - now apply String.eqb_eq.
  - now apply String.eqb_eq.
Qed.






(** ** The early returns *)

(** C8, as the code has it: on an empty or blank input [analyze_query]
    returns at once; the report holds the single finding EMPTY_INPUT of
    severity LOW, no suggestion, no learning path, no execution result, and
    the verdict it was initialised with, UNKNOWN; nothing is executed. *)
Theorem C8_blank_input_report {Value : Type}
    (ontology : OntologyManager) (sqlparse_parse : string -> string + string)
    (cursor_execute : string -> sqlite_outcome Value)
    (fuel : nat) (query_text : string) (executed : list string) :
  Py.strip query_text = "" ->
  analyze_query ontology sqlparse_parse cursor_execute fuel query_text executed
  = (Ret {| errors :=
              [{| message := "Please enter a SQL query.";
                  type := "EMPTY_INPUT"; severity := "LOW";
                  explanation := None; source := None;
                  available_tables := None |}];
            warnings := [];
            suggestions := [];
            learning_path := [];
            correctness := "UNKNOWN";
            execution_result := None |},
     executed).
Proof. apply analyze_query_blank. Qed.

Lemma C8_blank_input_witness :
  Py.strip "   " = ""
  /\ analyze_query empty_ontology accepting_parser no_rows 0 "   " []
     = (Ret {| errors :=
                 [{| message := "Please enter a SQL query.";
                     type := "EMPTY_INPUT"; severity := "LOW";
                     explanation := None; source := None;
                     available_tables := None |}];
               warnings := [];
               suggestions := [];
               learning_path := [];
               correctness := "UNKNOWN";
               execution_result := None |},
        []).
Proof.
  split; [reflexivity|].
  apply (C8_blank_input_report empty_ontology accepting_parser no_rows 0 "   " []).
  reflexivity.
Defined.

(** C8, the counterexample: the verdict of the report for the empty input is
    UNKNOWN, none of CORRECT, INCORRECT and PARTIAL. *)
Lemma C8_blank_input_verdict_unknown :
  exists fb,
    analyze_query empty_ontology accepting_parser no_rows 0 "" [] = (Ret fb, [])
    /\ correctness fb = "UNKNOWN"
    /\ correctness fb ∉ ["CORRECT"; "INCORRECT"; "PARTIAL"].
Proof.
  eexists. split; [vm_compute; reflexivity|].
  split; [reflexivity|].
  cbn [correctness]. rewrite !elem_of_cons, elem_of_nil.
  intros [H|[H|[H|[]]]]; discriminate.
Qed.




(** ** Suggestion synthesis *)

(** The third trigger of [suggestions_for] looks for the lower-case names
    [employees] and [departments] in the upper-cased query: it never holds. *)
Lemma lower_case_name_not_in_upper query_text :
  Py.contains "employees" (Py.upper query_text) = false.
Proof. apply (contains_upper_lower "e" "mployees"). reflexivity. Qed.

Lemma suggestions_for_untagged query_text parsed sugg_key sugg_info :
  Py.contains "order_by" (Py.lower sugg_key) = false ->
  Py.contains "select_star" (Py.lower sugg_key) = false ->
  Py.contains "group_by_aggregate" (Py.lower sugg_key) = false ->
  Py.contains "group_by_select" (Py.lower sugg_key) = false ->
  suggestions_for query_text parsed (sugg_key, sugg_info) = Ret [].
Proof.
  intros H1 H2 H3 H4. unfold suggestions_for. cbv zeta.
  rewrite H1, H2, H3, H4, lower_case_name_not_in_upper.
  now rewrite !andb_false_r.
Qed.

(** C9, as the code has it: the trigger of the join suggestion is keyed on
    the two table names [employees] and [departments] (and the absence of
    [JOIN]), not on the shape of the query: a query that does not name both
    gets no suggestion from a join template, whatever tables it references. *)
Theorem C9_join_suggestion_keyed_on_table_names
    (query_text parsed sugg_key : string) (sugg_info : feedback_message) :
  Py.contains "join" (Py.lower sugg_key) = true ->
  Py.contains "order_by" (Py.lower sugg_key) = false ->
  Py.contains "select_star" (Py.lower sugg_key) = false ->
  Py.contains "group_by_aggregate" (Py.lower sugg_key) = false ->
  Py.contains "group_by_select" (Py.lower sugg_key) = false ->
  Py.contains "EMPLOYEES" (Py.upper query_text)
  && Py.contains "DEPARTMENTS" (Py.upper query_text) = false ->
  suggestions_for query_text parsed (sugg_key, sugg_info) = Ret [].
Proof.
  intros _ H1 H2 H3 H4 _. now apply suggestions_for_untagged.
Qed.

Lemma C9_join_suggestion_witness :
  let q := "SELECT project_name FROM projects, departments" in
  (Py.contains "join" (Py.lower "join_suggestion") = true
   /\ Py.contains "EMPLOYEES" (Py.upper q)
      && Py.contains "DEPARTMENTS" (Py.upper q) = false)
  /\ suggestions_for q q
       ("join_suggestion", FeedbackMessage "Use an explicit JOIN." "SUGGESTION")
     = Ret [].
Proof.
  split; [split; vm_compute; reflexivity|].
  apply (C9_join_suggestion_keyed_on_table_names
           "SELECT project_name FROM projects, departments"
           "SELECT project_name FROM projects, departments"
           "join_suggestion"
           (FeedbackMessage "Use an explicit JOIN." "SUGGESTION"));
    vm_compute; reflexivity.
Defined.

(** C9, the counterexample: a query over two tables of the schema, without
    [JOIN], and a knowledge base with a join template; no suggestion is
    emitted, by the synthesizer or in the report. *)
Lemma C9_two_tables_without_join_no_suggestion :
  let q := "SELECT project_name FROM projects, departments" in
  _extract_table_names q = Ret ["PROJECTS"; "DEPARTMENTS"]
  /\ Py.contains "JOIN" (Py.upper q) = false
  /\ List.map fst (feedback_messages join_ontology) = ["join_suggestion"]
  /\ _generate_ontology_suggestions join_ontology q q [] = Ret []
  /\ (exists fb executed',
        analyze_query join_ontology accepting_parser no_rows 0 q []
        = (Ret fb, executed')
        /\ errors fb = []
        /\ suggestions fb = [success_suggestion]).
Proof.
  repeat split; try (vm_compute; reflexivity).
  eexists. eexists. split; [vm_compute; reflexivity|].
  split; reflexivity.
Qed.

(** A template whose key carries none of the tags [order_by], [select_star],
    [group_by_aggregate], [group_by_select] yields no suggestion: the only
    trigger left is the one about joins, which never holds. *)
Theorem join_template_never_fires
    (query_text parsed sugg_key : string) (sugg_info : feedback_message) :
  Py.contains "order_by" (Py.lower sugg_key) = false ->
  Py.contains "select_star" (Py.lower sugg_key) = false ->
  Py.contains "group_by_aggregate" (Py.lower sugg_key) = false ->
  Py.contains "group_by_select" (Py.lower sugg_key) = false ->
  suggestions_for query_text parsed (sugg_key, sugg_info) = Ret [].
Proof. apply suggestions_for_untagged. Qed.

(** The join template on a query that names both tables, without [JOIN]:
    still no suggestion, since the names are looked for in lower case. *)
Lemma join_template_on_employees_departments :
  let q := "SELECT * FROM employees, departments" in
  (Py.contains "order_by" (Py.lower "join_suggestion") = false
   /\ Py.contains "select_star" (Py.lower "join_suggestion") = false
   /\ Py.contains "group_by_aggregate" (Py.lower "join_suggestion") = false
   /\ Py.contains "group_by_select" (Py.lower "join_suggestion") = false)
  /\ _extract_table_names q = Ret ["EMPLOYEES"; "DEPARTMENTS"]
  /\ Py.contains "JOIN" (Py.upper q) = false
  /\ suggestions_for q q
       ("join_suggestion", FeedbackMessage "Use an explicit JOIN." "SUGGESTION")
     = Ret [].
Proof.
  split; [repeat split; vm_compute; reflexivity|].
  split; [vm_compute; reflexivity|]. split; [vm_compute; reflexivity|].
  apply (join_template_never_fires "SELECT * FROM employees, departments"
           "SELECT * FROM employees, departments" "join_suggestion"
           (FeedbackMessage "Use an explicit JOIN." "SUGGESTION"));
    vm_compute; reflexivity.
Defined.

(** ** Running the analysis on a given query *)

Lemma check_function_enhance ontology key check ty sev :
  check_function (enhance_pattern ontology key check ty sev) = check.
Proof. unfold enhance_pattern. now destruct (error_patterns ontology !! key). Qed.

(** Evaluates [_check_semantics] on a given text, for any knowledge base
    when the outcome of the checks does not depend on it. *)
Ltac run_check_semantics :=
  unfold _check_semantics, engine_error_patterns, _initialize_error_patterns,
    builtin_patterns;
  cbn [List.map mapM];
  rewrite !check_function_enhance;
  vm_compute; reflexivity.

(** Errors that map to no concept give the empty learning path, with any
    fuel. *)
Lemma suggest_learning_path_no_concept fuel self current_errors :
  concepts_needed current_errors = ∅ ->
  suggest_learning_path fuel self current_errors = Some [].
Proof.
  intros H. unfold suggest_learning_path. cbv zeta.
  rewrite H, elements_empty. cbn [mapM mbind mret option_bind option_ret].
  cbn [fmap list_fmap union_list foldr].
  now rewrite (right_id_L ∅ (∪)), elements_empty.
Qed.

(** Suggestion synthesis raises nothing when the GROUP BY columns can be
    extracted; without [GROUP BY] in the query it does not look for them. *)
Lemma suggestions_for_returns query_text parsed entry :
  (Py.contains "GROUP BY" (Py.upper query_text) = true ->
   exists cols, _extract_group_by_columns parsed = Ret cols) ->
  exists l, suggestions_for query_text parsed entry = Ret l.
Proof.
  intros Hgroup. destruct entry as [sugg_key sugg_info].
  unfold suggestions_for. cbv zeta.
  destruct (Py.contains "GROUP BY" (Py.upper query_text)).
  - destruct Hgroup as [cols ->]; [reflexivity|]. cbn [mbind exc_bind].
    repeat match goal with
           | |- context [if ?b then _ else _] => destruct b
           end; eauto.
  - cbn [andb negb].
    repeat match goal with
           | |- context [if ?b then _ else _] => destruct b
           end; eauto.
Qed.

Lemma _generate_ontology_suggestions_returns ontology query_text parsed errs :
  (Py.contains "GROUP BY" (Py.upper query_text) = true ->
   exists cols, _extract_group_by_columns parsed = Ret cols) ->
  exists l, _generate_ontology_suggestions ontology query_text parsed errs = Ret l.
Proof.
  intros H. unfold _generate_ontology_suggestions.
  induction (feedback_messages ontology) as [|entry l IH].
  - by eexists.
  - cbn [mapM]. destruct (suggestions_for_returns query_text parsed entry H) as [x ->].
    cbn [mbind exc_bind].
    destruct (mapM _ l) as [found| |]; cbn [mbind exc_bind] in *;
      try (destruct IH; discriminate).
    by eexists.
Qed.

Lemma _generate_ontology_suggestions_total ontology query_text parsed errs :
  Py.contains "GROUP BY" (Py.upper query_text) = false ->
  exists l, _generate_ontology_suggestions ontology query_text parsed errs = Ret l.
Proof.
  intros H. apply _generate_ontology_suggestions_returns.
  rewrite H. discriminate.
Qed.

(** The checks of [_check_semantics] raise nothing when the table names and
    the GROUP BY columns can be extracted. *)
Lemma _check_semantics_returns ontology query_text parsed tables :
  _extract_table_names parsed = Ret tables ->
  (Py.contains "GROUP BY" (Py.upper query_text) = true ->
   exists cols, _extract_group_by_columns parsed = Ret cols) ->
  exists found, _check_semantics ontology query_text parsed = Ret found.
Proof.
  intros Htables Hgroup.
  assert (exists b, check_ambiguous_columns ontology parsed query_text = Ret b)
    as [b1 H1].
  { unfold check_ambiguous_columns, _find_ambiguous_columns. rewrite Htables.
    cbn [mbind exc_bind]. destruct (length tables <? 2); by eexists. }
  assert (exists b, check_group_by_column_not_in_select parsed query_text = Ret b)
    as [b2 H2].
  { unfold check_group_by_column_not_in_select. cbv zeta.
    destruct (Py.contains "GROUP BY" _); [|by eexists].
    destruct Hgroup as [cols ->]; [reflexivity|]. by eexists. }
  unfold _check_semantics, engine_error_patterns, _initialize_error_patterns,
    builtin_patterns.
  cbn [List.map mapM].
  rewrite !check_function_enhance.
  change (getattr ontology "check_missing_from")
    with (Some (fun p q => @Ret bool (check_missing_from p q))).
  change (getattr ontology "check_aggregate_in_where")
    with (Some (fun p q => @Ret bool (check_aggregate_in_where p q))).
  change (getattr ontology "check_missing_group_by")
    with (Some (fun p q => @Ret bool (check_missing_group_by p q))).
  change (getattr ontology "check_having_without_group")
    with (Some (fun p q => @Ret bool (check_having_without_group p q))).
  change (getattr ontology "check_ambiguous_columns")
    with (Some (check_ambiguous_columns ontology)).
  change (getattr ontology "check_group_by_column_not_in_select")
    with (Some check_group_by_column_not_in_select).
  change (getattr ontology "check_missing_aggregate_with_group_by")
    with (Some (fun p q => @Ret bool (check_missing_aggregate_with_group_by p q))).
  cbv beta iota. rewrite H1, H2. cbn [mbind exc_bind mret exc_ret].
  by eexists.
Qed.

(** Every stage of the analysis returns under the conditions below. *)
Lemma analyze_query_total {Value : Type}
    (ontology : OntologyManager) (sqlparse_parse : string -> string + string)
    (cursor_execute : string -> sqlite_outcome Value)
    (rank : string -> nat)
    (query_text parsed : string) (tables : list string)
    (executed : list string) :
  Py.strip query_text <> "" ->
  sqlparse_parse query_text = inr parsed ->
  _extract_table_names parsed = Ret tables ->
  (Py.contains "GROUP BY" (Py.upper query_text) = true ->
   exists cols, _extract_group_by_columns parsed = Ret cols) ->
  destructive query_text = true \/ cursor_answers cursor_execute query_text ->
  acyclic ontology rank ->
  exists fuel fb,
    analyze_query ontology sqlparse_parse cursor_execute fuel query_text
      executed
    = (Ret fb,
       snd (_try_execute_query cursor_execute query_text parsed executed)).
Proof.
  intros Hblank Hparse Htables Hgroup Hcursor Hacyclic.
  destruct (_check_semantics_returns ontology query_text parsed tables
              Htables Hgroup) as [semantic Hsem].
  assert (exists errors0, validate ontology query_text parsed = Ret errors0)
    as [errors0 Hval].
  { unfold validate, _check_schema_constraints.
    rewrite Hsem, Htables. cbn [mbind exc_bind]. by eexists. }
  destruct (_try_execute_query_returns cursor_execute query_text parsed
              executed Hcursor) as [ef Hexec].
  set (errors1 := match ef with
                  | ExecError error => errors0 ++ [error]
                  | ExecResult _ => errors0
                  end).
  destruct (_generate_ontology_suggestions_returns ontology query_text parsed
              errors1 Hgroup) as [sugg Hsugg].
  destruct (suggest_learning_path_terminates ontology rank
              (List.map type errors1) Hacyclic) as [fuel [path Hpath]].
  exists fuel. unfold analyze_query.
  apply String.eqb_neq in Hblank. rewrite Hblank, Hparse, Hval, Hexec.
  cbn [mbind exc_bind snd]. unfold conclude. cbv zeta.
  fold errors1. rewrite Hsugg. cbn [mbind exc_bind].
  rewrite Hpath. cbn [of_fuel mbind exc_bind].
  by eexists.
Qed.


Lemma empty_ontology_acyclic : acyclic empty_ontology (fun _ => 0).
Proof. intros k c p Hk. cbn in Hk. rewrite lookup_empty in Hk. discriminate. Qed.


(** C10: the query [SELECT last_update FROM employees] is a SELECT statement
    none of whose words is a destructive keyword; the identifier
    [LAST_UPDATE] contains [UPDATE], and the gate is a substring test on the
    whole upper-cased text: whatever the knowledge base and the database, the
    report holds the SECURITY_ERROR finding of severity HIGH, no execution
    result, the verdict INCORRECT, and the query is not executed. *)
Theorem C10_keyword_inside_identifier_is_rejected {Value : Type}
    (ontology : OntologyManager) (sqlparse_parse : string -> string + string)
    (cursor_execute : string -> sqlite_outcome Value)
    (fuel : nat) (executed : list string) :
  let q := "SELECT last_update FROM employees" in
  sqlparse_parse q = inr q ->
  (Py.startswith "SELECT" (Py.upper q) = true
   /\ Re.findall identifier_pattern (Py.upper q)
      = ["SELECT"; "LAST_UPDATE"; "FROM"; "EMPLOYEES"]
   /\ forallb (fun w => negb (Py.mem w destructive_keywords))
              (Re.findall identifier_pattern (Py.upper q)) = true
   /\ Py.contains "UPDATE" "LAST_UPDATE" = true)
  /\ exists fb,
       analyze_query ontology sqlparse_parse cursor_execute fuel q executed
       = (Ret fb, executed)
       /\ security_error ∈ errors fb
       /\ type security_error = "SECURITY_ERROR"
       /\ severity security_error = "HIGH"
       /\ execution_result fb = None
       /\ correctness fb = "INCORRECT".
Proof.
  intros q Hparse.
  split; [repeat split; vm_compute; reflexivity|].
  assert (validate ontology q q
          = Ret (if negb (has_key "employees" (schema ontology))
                 then [missing_table_error ontology "EMPLOYEES"]
                 else [])) as Hvalidate.
  { unfold validate.
    rewrite _check_syntax_starts_with_select by (vm_compute; reflexivity).
    replace (_check_semantics ontology q q) with (@Ret (list item) [])
      by (symmetry; run_check_semantics).
    unfold _check_schema_constraints.
    replace (_extract_table_names q) with (Ret ["EMPLOYEES"])
      by (vm_compute; reflexivity).
    cbn [mbind exc_bind List.map concat].
    now destruct (negb _). }
  unfold analyze_query.
  replace (String.eqb (Py.strip q) "") with false by (vm_compute; reflexivity).
  rewrite Hparse, Hvalidate.
  rewrite _try_execute_query_destructive by (vm_compute; reflexivity).
  cbn [mbind exc_bind]. unfold conclude. cbv zeta.
  set (errors1 := (_ ++ [security_error])).
  destruct (_generate_ontology_suggestions_total ontology q q errors1)
    as [sugg ->]; [vm_compute; reflexivity|].
  cbn [mbind exc_bind].
  assert (suggest_learning_path fuel ontology (List.map type errors1) = Some [])
    as ->.
  { apply suggest_learning_path_no_concept. subst errors1.
    destruct (negb _); vm_compute; reflexivity. }
  cbn [of_fuel mbind exc_bind].
  assert (exists e l, errors1 = e :: l
                      /\ existsb (fun e => String.eqb (severity e) "HIGH") errors1
                         = true
                      /\ security_error ∈ errors1) as (e & l & E & Hhigh & Hin).
  { subst errors1. destruct (negb _); cbn [app]; do 2 eexists;
      (split; [reflexivity|split; [reflexivity|]]);
      rewrite ?elem_of_cons; auto. }
  rewrite Hhigh. clearbody errors1. subst errors1.
  eexists. split; [reflexivity|]. cbn [errors execution_result correctness].
  repeat split; assumption.
Qed.

Lemma C10_keyword_inside_identifier_witness :
  let q := "SELECT last_update FROM employees" in
  accepting_parser q = inr q
  /\ exists fb,
       analyze_query join_ontology accepting_parser no_rows 0 q []
       = (Ret fb, [])
       /\ security_error ∈ errors fb
       /\ execution_result fb = None
       /\ correctness fb = "INCORRECT".
Proof.
  split; [reflexivity|].
  destruct (C10_keyword_inside_identifier_is_rejected join_ontology
              accepting_parser no_rows 0 [] eq_refl)
    as (_ & fb & Hrun & Hin & _ & _ & Hexec & Hverdict).
  exists fb. repeat split; assumption.
Defined.

(** ** The execution gate *)

(** Reports for destructive queries. *)
Lemma analyze_query_destructive {Value : Type}
    (ontology : OntologyManager) (sqlparse_parse : string -> string + string)
    (cursor_execute : string -> sqlite_outcome Value)
    (fuel : nat) (query_text : string) (executed : list string) :
  destructive query_text = true ->
  snd (analyze_query ontology sqlparse_parse cursor_execute fuel query_text
         executed) = executed
  /\ forall parsed fb,
       sqlparse_parse query_text = inr parsed ->
       fst (analyze_query ontology sqlparse_parse cursor_execute fuel
              query_text executed) = Ret fb ->
       security_error ∈ errors fb
       /\ execution_result fb = None
       /\ correctness fb = "INCORRECT".
Proof.
  intros Hd. split; [now apply analyze_query_destructive_not_executed|].
  intros parsed fb Hparse Hrun.
  destruct (analyze_query _ _ _ _ _ _) as [out executed'] eqn:E.
  cbn [fst] in Hrun. subst out.
  pose proof (destructive_not_blank _ Hd) as Hblank.
  apply String.eqb_neq in Hblank.
  destruct (analyze_query_parsed _ _ _ _ _ _ _ _ _ Hblank Hparse E)
    as (errors0 & ef & _ & Hgate & Herr & Hexec & Hverdict).
  rewrite _try_execute_query_destructive in Hgate by assumption.
  injection Hgate as <- _.
  assert (security_error ∈ errors fb) as Hin
    by (rewrite Herr, elem_of_app, list_elem_of_singleton; now right).
  split; [assumption|]. split; [assumption|].
  rewrite Hverdict.
  assert (has_high (errors fb)) as Hhigh
    by (apply Exists_exists; exists security_error; now split).
  apply existsb_high in Hhigh. rewrite Hhigh.
  destruct (errors fb); [inversion Hin|reflexivity].
Qed.

(** The gate in the pipeline: a destructive query is never handed to the
    database, whatever the outcome of the analysis; and when the parser
    accepts it, every report the analysis returns holds the SECURITY_ERROR
    finding of severity HIGH, no execution result, and the verdict
    INCORRECT. *)
Theorem destructive_query_is_rejected {Value : Type}
    (ontology : OntologyManager) (sqlparse_parse : string -> string + string)
    (cursor_execute : string -> sqlite_outcome Value)
    (fuel : nat) (query_text : string) (executed : list string) :
  destructive query_text = true ->
  snd (analyze_query ontology sqlparse_parse cursor_execute fuel query_text
         executed) = executed
  /\ forall parsed fb,
       sqlparse_parse query_text = inr parsed ->
       fst (analyze_query ontology sqlparse_parse cursor_execute fuel
              query_text executed) = Ret fb ->
       security_error ∈ errors fb
       /\ execution_result fb = None
       /\ correctness fb = "INCORRECT".
Proof. apply analyze_query_destructive. Qed.

Lemma destructive_query_witness :
  destructive "DELETE FROM employees" = true
  /\ exists fb,
       analyze_query empty_ontology accepting_parser no_rows 0
         "DELETE FROM employees" [] = (Ret fb, [])
       /\ security_error ∈ errors fb
       /\ execution_result fb = None
       /\ correctness fb = "INCORRECT".
Proof.
  split; [vm_compute; reflexivity|].
  eexists. split; [vm_compute; reflexivity|].
  apply (proj2 (destructive_query_is_rejected empty_ontology accepting_parser
                  no_rows 0 "DELETE FROM employees" [] eq_refl)
           "DELETE FROM employees");
    [reflexivity|vm_compute; reflexivity].
Defined.

(** The gate produces its report: for a destructive query that the parser
    accepts, whose table names and GROUP BY columns can be extracted, and a
    concept table without cycles, enough fuel gives a report, which holds the
    SECURITY_ERROR finding, no execution result and the verdict INCORRECT;
    the query is not executed. *)
Theorem destructive_query_gets_security_report {Value : Type}
    (ontology : OntologyManager) (sqlparse_parse : string -> string + string)
    (cursor_execute : string -> sqlite_outcome Value)
    (rank : string -> nat)
    (query_text parsed : string) (tables : list string)
    (executed : list string) :
  destructive query_text = true ->
  sqlparse_parse query_text = inr parsed ->
  _extract_table_names parsed = Ret tables ->
  (Py.contains "GROUP BY" (Py.upper query_text) = true ->
   exists cols, _extract_group_by_columns parsed = Ret cols) ->
  acyclic ontology rank ->
  exists fuel fb,
    analyze_query ontology sqlparse_parse cursor_execute fuel query_text
      executed = (Ret fb, executed)
    /\ security_error ∈ errors fb
    /\ execution_result fb = None
    /\ correctness fb = "INCORRECT".
Proof.
  intros Hd Hparse Htables Hgroup Hacyclic.
  pose proof (destructive_not_blank _ Hd) as Hblank.
  apply String.eqb_neq in Hblank.
  destruct (analyze_query_total ontology sqlparse_parse cursor_execute rank
              query_text parsed tables executed Hblank Hparse Htables Hgroup
              (or_introl Hd) Hacyclic) as (fuel & fb & Hrun).
  rewrite _try_execute_query_destructive in Hrun by assumption.
  cbn [snd] in Hrun.
  exists fuel, fb. split; [assumption|].
  apply (proj2 (analyze_query_destructive ontology sqlparse_parse
                  cursor_execute fuel query_text executed Hd) parsed fb Hparse).
  now rewrite Hrun.
Qed.

Lemma destructive_query_report_witness :
  exists fuel fb,
    analyze_query empty_ontology accepting_parser no_rows fuel
      "DELETE FROM employees" [] = (Ret fb, [])
    /\ security_error ∈ errors fb
    /\ execution_result fb = None
    /\ correctness fb = "INCORRECT".
Proof.
  apply (destructive_query_gets_security_report empty_ontology accepting_parser
           no_rows (fun _ => 0) "DELETE FROM employees" "DELETE FROM employees"
           ["EMPLOYEES"]);
    [vm_compute; reflexivity|reflexivity|vm_compute; reflexivity
    |vm_compute; discriminate|exact empty_ontology_acyclic].
Defined.

(** C3, at the input [DELETE FROM]: the text contains the destructive keyword
    [DELETE]; its FROM clause is empty, [_extract_table_names] takes the
    first word of an empty text and raises IndexError inside the check for
    ambiguous columns, and [analyze_query] ends with that exception: no
    report, hence no SECURITY_ERROR finding and no verdict (the query is not
    executed either). *)
Theorem C3_destructive_query_with_empty_from_raises {Value : Type}
    (ontology : OntologyManager) (sqlparse_parse : string -> string + string)
    (cursor_execute : string -> sqlite_outcome Value)
    (fuel : nat) (executed : list string) :
  sqlparse_parse "DELETE FROM" = inr "DELETE FROM" ->
  destructive "DELETE FROM" = true
  /\ _extract_table_names "DELETE FROM" = Raise IndexError
  /\ analyze_query ontology sqlparse_parse cursor_execute fuel "DELETE FROM"
       executed = (Raise IndexError, executed).
Proof.
  intros Hparse. split; [vm_compute; reflexivity|].
  split; [vm_compute; reflexivity|].
  unfold analyze_query.
  replace (String.eqb (Py.strip "DELETE FROM") "") with false
    by (vm_compute; reflexivity).
  rewrite Hparse. unfold validate.
  replace (_check_semantics ontology "DELETE FROM" "DELETE FROM")
    with (@Raise (list item) IndexError)
    by (symmetry; run_check_semantics).
  reflexivity.
Qed.

Lemma C3_empty_from_witness :
  accepting_parser "DELETE FROM" = inr "DELETE FROM"
  /\ analyze_query empty_ontology accepting_parser no_rows 0 "DELETE FROM" []
     = (Raise IndexError, []).
Proof.
  split; [reflexivity|].
  apply (C3_destructive_query_with_empty_from_raises empty_ontology
           accepting_parser no_rows 0 [] eq_refl).
Defined.

(** * Further properties of the engine *)

(** ** The shape of a report *)

Section Reports.

Context {Value : Type}.
Variable ontology : OntologyManager.
Variable sqlparse_parse : string -> string + string.
Variable cursor_execute : string -> sqlite_outcome Value.

(** What [conclude] returns is an instance of the report it builds. *)
Lemma conclude_inv fuel query_text parsed errors0 ef (fb : feedback Value) :
  conclude ontology fuel query_text parsed errors0 ef = Ret fb ->
  exists sugg path,
    _generate_ontology_suggestions ontology query_text parsed
      (match ef with ExecError error => errors0 ++ [error] | ExecResult _ => errors0 end)
    = Ret sugg
    /\ suggest_learning_path fuel ontology
         (List.map type
            (match ef with ExecError error => errors0 ++ [error] | ExecResult _ => errors0 end))
       = Some path
    /\ errors fb
       = match ef with ExecError error => errors0 ++ [error] | ExecResult _ => errors0 end
    /\ warnings fb = []
    /\ learning_path fb = path
    /\ execution_result fb
       = match ef with ExecError _ => None | ExecResult result => Some result end
    /\ suggestions fb
       = match errors fb with [] => success_suggestion :: sugg | _ :: _ => sugg end
    /\ correctness fb
       = match errors fb with
         | [] => "CORRECT"
         | _ :: _ =>
             if existsb (fun e => String.eqb (severity e) "HIGH") (errors fb)
             then "INCORRECT" else "PARTIAL"
         end.
Proof.
  unfold conclude. cbv zeta.
  set (errors1 := match ef with
                  | ExecError error => errors0 ++ [error]
                  | ExecResult _ => errors0
                  end).
  destruct (_generate_ontology_suggestions _ _ _ _) as [sugg| |];
    cbn [mbind exc_bind]; [|discriminate..].
  destruct (suggest_learning_path _ _ _) as [path|];
    cbn [of_fuel mbind exc_bind]; [|discriminate].
  intros [= <-]. exists sugg, path. clearbody errors1.
  destruct errors1; repeat split; reflexivity.
Qed.

(** The three ways [analyze_query] returns a report. *)
Lemma analyze_query_inv fuel query_text executed (fb : feedback Value) executed' :
  analyze_query ontology sqlparse_parse cursor_execute fuel query_text executed
  = (Ret fb, executed') ->
  (Py.strip query_text = ""
   /\ fb = early_feedback empty_input_error /\ executed' = executed)
  \/ (exists e,
        Py.strip query_text <> "" /\ sqlparse_parse query_text = inl e
        /\ fb = early_feedback (parse_error e) /\ executed' = executed)
  \/ (exists parsed errors0 ef,
        Py.strip query_text <> "" /\ sqlparse_parse query_text = inr parsed
        /\ validate ontology query_text parsed = Ret errors0
        /\ _try_execute_query cursor_execute query_text parsed executed
           = (Ret ef, executed')
        /\ conclude ontology fuel query_text parsed errors0 ef = Ret fb).
Proof.
  unfold analyze_query.
  destruct (String.eqb (Py.strip query_text) "") eqn:Hblank.
  - apply String.eqb_eq in Hblank. intros [= <- <-]. now left.
  - apply String.eqb_neq in Hblank.
    destruct (sqlparse_parse query_text) as [e|parsed] eqn:Hparse.
    + intros [= <- <-]. right. left. now exists e.
    + destruct (validate ontology query_text parsed) as [errors0| |] eqn:Hval;
        [|discriminate..].
      destruct (_try_execute_query cursor_execute query_text parsed executed)
        as [[ef| |] ex] eqn:Hexec; cbn [mbind exc_bind]; [|discriminate..].
      intros [= Hfb <-]. right. right. exists parsed, errors0, ef.
      repeat split; try reflexivity; assumption.
Qed.

(** The outcome of the gate, by cases. *)
Lemma _try_execute_query_inv query_text parsed executed ef executed' :
  _try_execute_query cursor_execute query_text parsed executed
  = (Ret ef, executed') ->
  (destructive query_text = true
   /\ ef = ExecError security_error /\ executed' = executed)
  \/ (destructive query_text = false /\ executed' = executed ++ [query_text]
      /\ ((exists description results,
             cursor_execute query_text = Rows description results
             /\ ef = ExecResult {| result_columns := description;
                                   data := take 10 results;
                                   row_count := length results |})
          \/ (exists msg,
                cursor_execute query_text = SqliteError msg
                /\ ef = ExecError
                          {| message := "Execution error: " +:+ msg;
                             type := "EXECUTION_ERROR"; severity := "HIGH";
                             explanation :=
                               Some "The query failed to execute against the sample database.";
                             source := None; available_tables := None |}))).
Proof.
  unfold _try_execute_query. cbv zeta. rewrite destructive_strip.
  fold (destructive query_text).
  destruct (destructive query_text).
  - intros [= <- <-]. now left.
  - destruct (cursor_execute query_text) as [msg|d results|e];
      [| |discriminate]; intros [= <- <-]; right;
      (split; [reflexivity|split; [reflexivity|]]).
    + right. now exists msg.
    + left. now exists d, results.
Qed.

End Reports.

(** Every report has an empty list of warnings and one of four verdicts;
    the verdict UNKNOWN is that of the two early returns, whose report has
    one finding and nothing else. *)
Theorem report_invariants {Value : Type}
    (ontology : OntologyManager) (sqlparse_parse : string -> string + string)
    (cursor_execute : string -> sqlite_outcome Value)
    (fuel : nat) (query_text : string) (executed executed' : list string)
    (fb : feedback Value) :
  analyze_query ontology sqlparse_parse cursor_execute fuel query_text executed
  = (Ret fb, executed') ->
  warnings fb = []
  /\ correctness fb ∈ ["UNKNOWN"; "CORRECT"; "INCORRECT"; "PARTIAL"]
  /\ (correctness fb = "UNKNOWN" ->
      length (errors fb) = 1 /\ suggestions fb = [] /\ learning_path fb = []
      /\ execution_result fb = None /\ executed' = executed).
Proof.
  intros Hrun.
  destruct (analyze_query_inv _ _ _ _ _ _ _ _ Hrun)
    as [(_ & -> & ->)|[(e & _ & _ & -> & ->)|
        (parsed & errors0 & ef & _ & _ & _ & _ & Hfb)]].
  - split; [reflexivity|]. split; [set_solver|]. intros _. now repeat split.
  - split; [reflexivity|]. split; [set_solver|]. intros _. now repeat split.
  - destruct (conclude_inv _ _ _ _ _ _ _ Hfb)
      as (sugg & path & _ & _ & _ & Hw & _ & _ & _ & Hverdict).
    split; [assumption|]. rewrite Hverdict.
    destruct (errors fb); [|destruct (existsb _ _)];
      (split; [set_solver|discriminate]).
Qed.

Lemma report_invariants_witness :
  exists fb executed',
    analyze_query advisory_ontology accepting_parser no_rows 0
      "SELECT name FROM employees" [] = (Ret fb, executed')
    /\ warnings fb = []
    /\ correctness fb ∈ ["UNKNOWN"; "CORRECT"; "INCORRECT"; "PARTIAL"]
    /\ (correctness fb = "UNKNOWN" ->
        length (errors fb) = 1 /\ suggestions fb = [] /\ learning_path fb = []
        /\ execution_result fb = None /\ executed' = []).
Proof.
  eexists. eexists. split; [vm_compute; reflexivity|].
  apply (report_invariants advisory_ontology accepting_parser no_rows 0
           "SELECT name FROM employees" []).
  vm_compute. reflexivity.
Defined.

(** The verdict CORRECT is only given to a query that was executed: the
    report then has no finding, carries the execution result, starts its
    suggestions with the success message, and the database was called once,
    with the text of the query. *)
Theorem correct_verdict_means_executed {Value : Type}
    (ontology : OntologyManager) (sqlparse_parse : string -> string + string)
    (cursor_execute : string -> sqlite_outcome Value)
    (fuel : nat) (query_text : string) (executed executed' : list string)
    (fb : feedback Value) :
  analyze_query ontology sqlparse_parse cursor_execute fuel query_text executed
  = (Ret fb, executed') ->
  correctness fb = "CORRECT" ->
  errors fb = []
  /\ (exists description results,
        cursor_execute query_text = Rows description results
        /\ execution_result fb
           = Some {| result_columns := description;
                     data := take 10 results;
                     row_count := length results |})
  /\ (exists rest, suggestions fb = success_suggestion :: rest)
  /\ executed' = executed ++ [query_text].
Proof.
  intros Hrun Hcorrect.
  destruct (analyze_query_inv _ _ _ _ _ _ _ _ Hrun)
    as [(_ & -> & ->)|[(e & _ & _ & -> & ->)|
        (parsed & errors0 & ef & _ & _ & _ & Hexec & Hfb)]];
    [discriminate..|].
  destruct (conclude_inv _ _ _ _ _ _ _ Hfb)
    as (sugg & path & _ & _ & Herr & _ & _ & Hres & Hsugg & Hverdict).
  rewrite Hverdict in Hcorrect.
  destruct (errors fb) as [|e l] eqn:E;
    [|destruct (existsb _ _); discriminate].
  destruct ef as [error|result];
    [symmetry in Herr; now apply app_eq_nil in Herr as [_ ?]|].
  destruct (_try_execute_query_inv _ _ _ _ _ _ Hexec)
    as [(_ & ? & _)|(_ & -> & [(d & results & Hrows & Hef)|(msg & _ & ?)])];
    [discriminate| |discriminate].
  injection Hef as ->.
  split; [reflexivity|]. split; [now exists d, results|].
  split; [now exists sugg|reflexivity].
Qed.

Lemma correct_verdict_witness :
  exists fb executed',
    analyze_query join_ontology accepting_parser no_rows 0
      "SELECT emp_id FROM employees" [] = (Ret fb, executed')
    /\ correctness fb = "CORRECT"
    /\ errors fb = []
    /\ (exists rest, suggestions fb = success_suggestion :: rest)
    /\ executed' = ["SELECT emp_id FROM employees"].
Proof.
  eexists. eexists. split; [vm_compute; reflexivity|].
  split; [reflexivity|].
  destruct (correct_verdict_means_executed join_ontology accepting_parser
              no_rows 0 "SELECT emp_id FROM employees" [] _ _
              ltac:(vm_compute; reflexivity) eq_refl)
    as (He & _ & Hs & Hx).
  repeat split; assumption.
Defined.

(** The execution result of a report: present exactly for a query that
    passed the gate and that the database answered with rows; it holds the
    column names, the first ten rows at most, and the total number of rows. *)
Theorem execution_result_is_capped {Value : Type}
    (ontology : OntologyManager) (sqlparse_parse : string -> string + string)
    (cursor_execute : string -> sqlite_outcome Value)
    (fuel : nat) (query_text : string) (executed executed' : list string)
    (fb : feedback Value) (result : query_result Value) :
  analyze_query ontology sqlparse_parse cursor_execute fuel query_text executed
  = (Ret fb, executed') ->
  execution_result fb = Some result ->
  destructive query_text = false
  /\ executed' = executed ++ [query_text]
  /\ exists description results,
       cursor_execute query_text = Rows description results
       /\ result_columns result = description
       /\ data result = take 10 results
       /\ length (data result) = Nat.min 10 (length results)
       /\ row_count result = length results.
Proof.
  intros Hrun Hres.
  destruct (analyze_query_inv _ _ _ _ _ _ _ _ Hrun)
    as [(_ & -> & ->)|[(e & _ & _ & -> & ->)|
        (parsed & errors0 & ef & _ & _ & _ & Hexec & Hfb)]];
    [discriminate..|].
  destruct (conclude_inv _ _ _ _ _ _ _ Hfb)
    as (sugg & path & _ & _ & _ & _ & _ & Hres' & _).
  rewrite Hres in Hres'.
  destruct (_try_execute_query_inv _ _ _ _ _ _ Hexec)
    as [(_ & -> & _)|(Hd & -> & [(d & results & Hrows & ->)|(msg & _ & ->)])];
    [discriminate| |discriminate].
  injection Hres' as ->.
  split; [assumption|]. split; [reflexivity|].
  exists d, results. cbn [result_columns data row_count].
  repeat split; try assumption. apply length_take.
Qed.

Lemma execution_result_witness :
  exists fb executed' result,
    analyze_query join_ontology accepting_parser twelve_rows 0
      "SELECT emp_id FROM employees" [] = (Ret fb, executed')
    /\ execution_result fb = Some result
    /\ length (data result) = 10
    /\ row_count result = 12.
Proof.
  eexists. eexists. eexists. split; [vm_compute; reflexivity|].
  split; [reflexivity|].
  destruct (execution_result_is_capped join_ontology accepting_parser
              twelve_rows 0 "SELECT emp_id FROM employees" [] _ _ _
              ltac:(vm_compute; reflexivity) eq_refl)
    as (_ & _ & d & results & Hrows & _ & _ & Hlen & Hcount).
  injection Hrows as <- <-. split; assumption.
Defined.



(** A report without execution result has the verdict UNKNOWN (one of the
    two early returns) or INCORRECT: its last finding is then the refusal of
    the gate or the error of the database, of severity HIGH.  So the
    verdicts CORRECT and PARTIAL are only given to queries that ran. *)
Theorem report_without_result_is_not_passed {Value : Type}
    (ontology : OntologyManager) (sqlparse_parse : string -> string + string)
    (cursor_execute : string -> sqlite_outcome Value)
    (fuel : nat) (query_text : string) (executed executed' : list string)
    (fb : feedback Value) :
  analyze_query ontology sqlparse_parse cursor_execute fuel query_text executed
  = (Ret fb, executed') ->
  execution_result fb = None ->
  correctness fb = "UNKNOWN"
  \/ (correctness fb = "INCORRECT"
      /\ exists e, last (errors fb) = Some e
           /\ severity e = "HIGH"
           /\ (type e = "SECURITY_ERROR" \/ type e = "EXECUTION_ERROR")).
Proof.
  intros Hrun Hres.
  destruct (analyze_query_inv _ _ _ _ _ _ _ _ Hrun)
    as [(_ & -> & ->)|[(e & _ & _ & -> & ->)|
        (parsed & errors0 & ef & _ & _ & _ & Hexec & Hfb)]];
    [now left..|].
  right.
  destruct (conclude_inv _ _ _ _ _ _ _ Hfb)
    as (sugg & path & _ & _ & Herr & _ & _ & Hres' & _ & Hverdict).
  rewrite Hres in Hres'. destruct ef as [error|result]; [|discriminate].
  assert (severity error = "HIGH"
          /\ (type error = "SECURITY_ERROR" \/ type error = "EXECUTION_ERROR"))
    as [Hsev Hty].
  { destruct (_try_execute_query_inv _ _ _ _ _ _ Hexec)
      as [(_ & [= ->] & _)|(_ & _ & [(d & r & _ & ?)|(msg & _ & [= ->])])];
      [|discriminate|]; split; auto. }
  split.
  - rewrite Hverdict, Herr.
    assert (existsb (fun e => String.eqb (severity e) "HIGH")
              (errors0 ++ [error]) = true) as ->.
    { rewrite existsb_app. cbn. rewrite Hsev. apply orb_true_r. }
    now destruct errors0.
  - exists error. rewrite Herr. split; [apply last_snoc|]. now split.
Qed.

Lemma report_without_result_witness :
  exists fb executed',
    analyze_query join_ontology accepting_parser no_such_table 0
      "SELECT emp_id FROM employees" [] = (Ret fb, executed')
    /\ execution_result fb = None
    /\ correctness fb = "INCORRECT".
Proof.
  eexists. eexists. split; [vm_compute; reflexivity|].
  split; [reflexivity|].
  destruct (report_without_result_is_not_passed join_ontology accepting_parser
              no_such_table 0 "SELECT emp_id FROM employees" [] _ _
              ltac:(vm_compute; reflexivity) eq_refl)
    as [H|[H _]]; [discriminate H|exact H].
Defined.

(** ** The learning path, member by member *)

Lemma elem_of_concepts_needed c current_errors :
  c ∈ concepts_needed current_errors
  <-> exists e, e ∈ current_errors /\ c ∈ concepts_of_error e.
Proof.
  unfold concepts_needed. rewrite elem_of_union_list. split.
  - intros (X & HX & Hc). apply list_elem_of_fmap in HX as (e & -> & He). eauto.
  - intros (e & He & Hc). exists (concepts_of_error e). split; [|assumption].
    apply list_elem_of_fmap. eauto.
Qed.

(** The learning path holds the concepts the error types map to and the
    concepts met on the prerequisite walks from them, and nothing else; it
    is empty exactly when no error type maps to a concept. *)
Theorem learning_path_members (fuel : nat) (self : OntologyManager)
    (current_errors : list string) (path : list string) :
  suggest_learning_path fuel self current_errors = Some path ->
  (forall c,
     c ∈ path
     <-> c ∈ concepts_needed current_errors
         \/ exists k ps,
              k ∈ concepts_needed current_errors
              /\ get_concept_prerequisites fuel self k = Some ps
              /\ c ∈ ps)
  /\ (path = [] <-> forall e, e ∈ current_errors -> concepts_of_error e = ∅).
Proof.
  unfold suggest_learning_path. cbv zeta.
  destruct (mapM _ _) as [prereqs|] eqn:Hm; [|discriminate].
  cbn [mbind option_bind]. intros [= <-].
  apply mapM_Some in Hm.
  assert (forall c,
     c ∈ merge_sort (by_difficulty self)
           (elements (concepts_needed current_errors
                      ∪ ⋃ (list_to_set <$> prereqs)))
     <-> c ∈ concepts_needed current_errors
         \/ exists k ps,
              k ∈ concepts_needed current_errors
              /\ get_concept_prerequisites fuel self k = Some ps
              /\ c ∈ ps) as Hmem.
  { intros c. rewrite merge_sort_Permutation, elem_of_elements, elem_of_union.
    apply or_iff_compat_l. rewrite elem_of_union_list. split.
    - intros (X & HX & Hc). apply list_elem_of_fmap in HX as (ps & -> & Hps).
      apply list_elem_of_lookup in Hps as [i Hi].
      destruct (Forall2_lookup_r _ _ _ _ _ Hm Hi) as (k & Hk & Hwalk).
      exists k, ps. split; [|split; [assumption|]].
      + apply elem_of_elements, list_elem_of_lookup. eauto.
      + now apply elem_of_list_to_set in Hc.
    - intros (k & ps & Hk & Hwalk & Hc).
      apply elem_of_elements, list_elem_of_lookup in Hk as [i Hi].
      destruct (Forall2_lookup_l _ _ _ _ _ Hm Hi) as (ps' & Hps' & Hwalk').
      assert (ps' = ps) as -> by congruence.
      exists (list_to_set ps). split; [|now apply elem_of_list_to_set].
      apply list_elem_of_fmap. exists ps. split; [reflexivity|].
      apply list_elem_of_lookup. eauto. }
  split; [exact Hmem|]. split.
  - intros Hnil e He. apply set_eq. intros c. split; [|set_solver].
    intros Hc. exfalso.
    assert (c ∈ merge_sort (by_difficulty self)
              (elements (concepts_needed current_errors
                         ∪ ⋃ (list_to_set <$> prereqs)))) as Hin.
    { apply Hmem. left. apply elem_of_concepts_needed. eauto. }
    rewrite Hnil in Hin. inversion Hin.
  - intros Hnone.
    destruct (merge_sort _ _) as [|c l] eqn:E; [reflexivity|]. exfalso.
    assert (c ∈ c :: l) as Hin by left.
    apply Hmem in Hin as [Hc|(k & ps & Hk & _)].
    + apply elem_of_concepts_needed in Hc as (e & He & Hc).
      rewrite (Hnone e He) in Hc. set_solver.
    + apply elem_of_concepts_needed in Hk as (e & He & Hc).
      rewrite (Hnone e He) in Hc. set_solver.
Qed.

Lemma learning_path_members_witness :
  exists path,
    suggest_learning_path 3 chain_ontology ["SEMANTIC_ERROR aggregate"]
    = Some path
    /\ (forall c,
          c ∈ path
          <-> c ∈ concepts_needed ["SEMANTIC_ERROR aggregate"]
              \/ exists k ps,
                   k ∈ concepts_needed ["SEMANTIC_ERROR aggregate"]
                   /\ get_concept_prerequisites 3 chain_ontology k = Some ps
                   /\ c ∈ ps)
    /\ (path = []
        <-> forall e, e ∈ ["SEMANTIC_ERROR aggregate"] ->
              concepts_of_error e = ∅).
Proof.
  eexists. split; [vm_compute; reflexivity|].
  apply (learning_path_members 3 chain_ontology ["SEMANTIC_ERROR aggregate"]).
  vm_compute. reflexivity.
Defined.

Lemma get_concept_prerequisites_step fuel self c p ps :
  get_concept_prerequisites fuel self c = Some (p :: ps) ->
  exists fuel' k,
    fuel = S fuel'
    /\ sql_concepts self !! c = Some k
    /\ prerequisite k = Some p
    /\ is_Some (sql_concepts self !! p)
    /\ get_concept_prerequisites fuel' self p = Some ps.
Proof.
  destruct fuel as [|fuel]; [discriminate|]. cbn [get_concept_prerequisites].
  destruct (sql_concepts self !! c) as [k|] eqn:Hk; [|discriminate].
  destruct (truthy (prerequisite k)) as [q|] eqn:Hq; [|discriminate].
  destruct (decide _) as [Hin|]; [|discriminate].
  destruct (get_concept_prerequisites fuel self q) as [l|] eqn:Hl;
    [|discriminate].
  intros [= -> ->]. exists fuel, k.
  assert (prerequisite k = Some p) as Hp.
  { unfold truthy in Hq. destruct (prerequisite k) as [[|]|]; congruence. }
  repeat split; assumption.
Qed.

Lemma get_concept_prerequisites_suffix fuel self c l1 p l2 :
  get_concept_prerequisites fuel self c = Some (l1 ++ p :: l2) ->
  get_concept_prerequisites fuel self p = Some l2.
Proof.
  revert fuel c. induction l1 as [|q l1 IH]; intros fuel c H.
  - apply get_concept_prerequisites_step in H
      as (fuel' & k & -> & _ & _ & _ & H).
    apply (get_concept_prerequisites_mono self fuel'); [assumption|lia].
  - apply get_concept_prerequisites_step in H
      as (fuel' & k & -> & _ & _ & _ & H).
    apply (get_concept_prerequisites_mono self fuel'); [|lia].
    now apply (IH fuel' q).
Qed.

Lemma get_concept_prerequisites_fresh fuel self c ps :
  get_concept_prerequisites fuel self c = Some ps -> c ∉ ps.
Proof.
  intros H Hin. apply list_elem_of_split in Hin as (l1 & l2 & ->).
  pose proof (get_concept_prerequisites_suffix _ _ _ _ _ _ H) as H'.
  rewrite H in H'. injection H' as H'.
  apply (f_equal length) in H'. rewrite length_app in H'. cbn in H'. lia.
Qed.

(** What [get_concept_prerequisites] returns is the chain of prerequisites
    from the concept: each element is the prerequisite of the one before
    (of the concept, for the first) and a concept of the table; no concept
    comes twice, the start included; and the chain is complete: the last
    concept has no prerequisite that is in the table. *)
Theorem prerequisite_walk (fuel : nat) (self : OntologyManager)
    (c : string) (ps : list string) :
  get_concept_prerequisites fuel self c = Some ps ->
  (forall i a b,
     (c :: ps) !! i = Some a -> ps !! i = Some b ->
     exists k,
       sql_concepts self !! a = Some k /\ prerequisite k = Some b
       /\ is_Some (sql_concepts self !! b))
  /\ NoDup (c :: ps)
  /\ (forall l k p,
        last (c :: ps) = Some l ->
        sql_concepts self !! l = Some k -> prerequisite k = Some p ->
        p = "" \/ sql_concepts self !! p = None).
Proof.
  revert fuel c. induction ps as [|q ps IH]; intros fuel c H.
  - split; [intros i a b _ Hb; now rewrite lookup_nil in Hb|].
    split; [apply NoDup_singleton|].
    intros l k p [= <-] Hk Hp.
    destruct fuel as [|fuel]; [discriminate|].
    cbn [get_concept_prerequisites] in H. rewrite Hk, Hp in H.
    destruct p as [|a p]; [now left|]. right. cbn [truthy] in H.
    destruct (decide _) as [Hin|Hn].
    + destruct (get_concept_prerequisites fuel self _); discriminate.
    + destruct (sql_concepts self !! String a p) eqn:E; [|reflexivity].
      exfalso. apply Hn. eauto.
  - pose proof (get_concept_prerequisites_fresh _ _ _ _ H) as Hfresh.
    apply get_concept_prerequisites_step in H
      as (fuel' & k & -> & Hk & Hp & Hin & H).
    destruct (IH _ _ H) as (Hlink & Hnodup & Hlast).
    split; [|split].
    + intros [|i] a b Ha Hb.
      * injection Ha as <-. injection Hb as <-. exists k. now repeat split.
      * apply (Hlink i a b); assumption.
    + apply NoDup_cons. split; assumption.
    + intros l k' p Hl. apply Hlast. exact Hl.
Qed.

Lemma prerequisite_walk_witness :
  get_concept_prerequisites 3 chain_ontology "aggregate_functions_concept"
  = Some ["group_by_concept"; "where_clause_concept"]
  /\ NoDup ["aggregate_functions_concept"; "group_by_concept";
            "where_clause_concept"].
Proof.
  split; [vm_compute; reflexivity|].
  apply (prerequisite_walk 3 chain_ontology "aggregate_functions_concept"
           ["group_by_concept"; "where_clause_concept"]).
  vm_compute. reflexivity.
Defined.

(** ** The findings of a report *)

Lemma mapM_exc_Ret {A B : Type} (f : A -> exc B) (l : list A) (found : list B) :
  mapM f l = Ret found -> Forall2 (fun x y => f x = Ret y) l found.
Proof.
  revert found. induction l as [|x l IH]; intros found H.
  - injection H as <-. constructor.
  - cbn [mapM] in H. destruct (f x) as [y| |] eqn:Hy; [|discriminate..].
    cbn [mbind exc_bind] in H.
    destruct (mapM f l) as [ys| |]; [|discriminate..].
    injection H as <-. constructor; [assumption|now apply IH].
Qed.

Lemma elem_of_concat_mapM {A B : Type} (f : A -> exc (list B)) (l : list A)
    (found : list (list B)) (y : B) :
  mapM f l = Ret found -> y ∈ concat found ->
  exists x ys, x ∈ l /\ f x = Ret ys /\ y ∈ ys.
Proof.
  intros H Hy. apply mapM_exc_Ret in H.
  apply list_elem_of_In, in_concat in Hy as (ys & Hys & Hy).
  apply list_elem_of_In, list_elem_of_lookup in Hys as [i Hi].
  destruct (Forall2_lookup_r _ _ _ _ _ H Hi) as (x & Hx & Hfx).
  exists x, ys. split; [apply list_elem_of_lookup; eauto|].
  split; [assumption|now apply list_elem_of_In].
Qed.

Lemma _check_semantics_findings ontology query_text parsed found e :
  _check_semantics ontology query_text parsed = Ret found ->
  e ∈ found ->
  exists key pattern,
    (key, pattern) ∈ engine_error_patterns ontology
    /\ is_Some (check_function pattern)
    /\ e = pattern_finding pattern.
Proof.
  unfold _check_semantics. intros H He.
  destruct (mapM _ _) as [l| |] eqn:Hm; [|discriminate..].
  injection H as <-.
  destruct (elem_of_concat_mapM _ _ _ _ Hm He) as ([key pattern] & ys & Hin & Hf & Hy).
  exists key, pattern. split; [assumption|].
  destruct (check_function pattern) as [name|];
    [|injection Hf as <-; inversion Hy].
  split; [eauto|].
  destruct (getattr ontology name) as [check_method|];
    [|injection Hf as <-; inversion Hy].
  destruct (check_method parsed query_text) as [[|]| |];
    cbn [mbind exc_bind] in Hf; try discriminate; injection Hf as <-.
  - apply list_elem_of_singleton in Hy. exact Hy.
  - inversion Hy.
Qed.

Lemma _check_syntax_findings ontology query_text parsed e :
  e ∈ _check_syntax ontology query_text parsed ->
  Py.startswith "SELECT" (Py.strip (Py.upper query_text)) = false
  /\ exists pattern,
       ("missing_select", pattern) ∈ engine_error_patterns ontology
       /\ e = pattern_finding pattern.
Proof.
  unfold _check_syntax. rewrite _check_clause_order_None, app_nil_r.
  destruct (Py.startswith _ _); cbn [negb]; [intros H; inversion H|].
  intros He. split; [reflexivity|].
  unfold engine_error_patterns, _initialize_error_patterns, builtin_patterns in *.
  cbn [List.map assoc String.eqb] in He.
  change (String.eqb "missing_select" "missing_select") with true in He.
  cbv iota in He. apply list_elem_of_singleton in He.
  eexists. split; [|exact He]. cbn [List.map]. left.
Qed.

Lemma _check_schema_constraints_findings ontology query_text parsed found e :
  _check_schema_constraints ontology query_text parsed = Ret found ->
  e ∈ found ->
  exists tables table_name,
    _extract_table_names parsed = Ret tables
    /\ table_name ∈ tables
    /\ has_key (Py.lower table_name) (schema ontology) = false
    /\ e = missing_table_error ontology table_name.
Proof.
  unfold _check_schema_constraints.
  destruct (_extract_table_names parsed) as [tables| |]; [|discriminate..].
  cbn [mbind exc_bind]. intros [= <-] He.
  apply list_elem_of_In, in_concat in He as (l & Hl & He).
  apply in_map_iff in Hl as (table_name & <- & Ht).
  exists tables, table_name. split; [reflexivity|].
  split; [now apply list_elem_of_In|].
  destruct (has_key _ _); cbn [negb] in He; [destruct He|].
  destruct He as [<-|[]]. now split.
Qed.

Lemma validate_findings ontology query_text parsed errors0 e :
  validate ontology query_text parsed = Ret errors0 ->
  e ∈ errors0 -> finding_of ontology parsed e.
Proof.
  unfold validate. cbv zeta.
  destruct (_check_semantics _ _ _) as [semantic| |] eqn:Hsem; [|discriminate..].
  destruct (_check_schema_constraints _ _ _) as [sch| |] eqn:Hsch;
    [|discriminate..].
  cbn [mbind exc_bind]. intros [= <-] He.
  rewrite !elem_of_app in He. destruct He as [He|[He|He]].
  - apply _check_syntax_findings in He as (_ & pattern & Hin & ->).
    now apply (finding_pattern _ _ "missing_select").
  - destruct (_check_semantics_findings _ _ _ _ _ Hsem He)
      as (key & pattern & Hin & _ & ->).
    now apply (finding_pattern _ _ key).
  - destruct (_check_schema_constraints_findings _ _ _ _ _ Hsch He)
      as (tables & table_name & Ht & Hin & Hkey & ->).
    now apply (finding_table _ _ tables).
Qed.

Lemma report_findings {Value : Type}
    (ontology : OntologyManager) (sqlparse_parse : string -> string + string)
    (cursor_execute : string -> sqlite_outcome Value)
    (fuel : nat) (query_text parsed : string)
    (executed executed' : list string) (fb : feedback Value) :
  Py.strip query_text <> "" ->
  sqlparse_parse query_text = inr parsed ->
  analyze_query ontology sqlparse_parse cursor_execute fuel query_text executed
  = (Ret fb, executed') ->
  Forall (finding_of ontology parsed) (errors fb).
Proof.
  intros Hblank Hparse Hrun.
  destruct (analyze_query_inv _ _ _ _ _ _ _ _ Hrun)
    as [(Hblank' & _)|[(e & _ & He & _)|
        (parsed' & errors0 & ef & _ & Hparse' & Hval & Hexec & Hfb)]];
    [congruence..|].
  assert (parsed' = parsed) as -> by congruence.
  destruct (conclude_inv _ _ _ _ _ _ _ Hfb)
    as (sugg & path & _ & _ & -> & _).
  apply Forall_forall. intros e He.
  destruct ef as [error|result];
    [|now apply (validate_findings _ _ _ _ _ Hval)].
  apply elem_of_app in He as [He|He];
    [now apply (validate_findings _ _ _ _ _ Hval)|].
  apply list_elem_of_singleton in He as ->.
  destruct (_try_execute_query_inv _ _ _ _ _ _ Hexec)
    as [(_ & [= ->] & _)|(_ & _ & [(d & r & _ & ?)|(msg & _ & [= ->])])];
    [constructor|discriminate|apply finding_execution].
Qed.



Lemma builtin_types_map_to_no_concept key check ty sev :
  (key, (check, ty, sev)) ∈ builtin_patterns -> concepts_of_error ty = ∅.
Proof.
  unfold builtin_patterns. intros H.
  repeat (apply elem_of_cons in H as [[= -> -> -> ->]|H];
            [vm_compute; reflexivity|]).
  inversion H.
Qed.

Lemma engine_error_patterns_inv ontology key pattern :
  (key, pattern) ∈ engine_error_patterns ontology ->
  exists check ty sev,
    (key, (check, ty, sev)) ∈ builtin_patterns
    /\ pattern = enhance_pattern ontology key check ty sev.
Proof.
  unfold engine_error_patterns, _initialize_error_patterns. intros H.
  apply list_elem_of_In, in_map_iff in H as ([k [[check ty] sev]] & E & H).
  injection E as <- <-.
  exists check, ty, sev. split; [now apply list_elem_of_In|reflexivity].
Qed.

(** The learning path of a report is computed from the types of its
    findings, and the types the engine gives on its own (SYNTAX_ERROR,
    SEMANTIC_ERROR, SCHEMA_ERROR, SECURITY_ERROR, EXECUTION_ERROR) map to no
    concept: unless the knowledge base gives one of the eight patterns a type
    that names a concept, the learning path of every report is empty. *)
Theorem learning_path_needs_concept_types {Value : Type}
    (ontology : OntologyManager) (sqlparse_parse : string -> string + string)
    (cursor_execute : string -> sqlite_outcome Value)
    (fuel : nat) (query_text : string)
    (executed executed' : list string) (fb : feedback Value) :
  (forall key ontology_error,
     key ∈ keys builtin_patterns ->
     error_patterns ontology !! key = Some ontology_error ->
     concepts_of_error (oe_type ontology_error) = ∅) ->
  analyze_query ontology sqlparse_parse cursor_execute fuel query_text executed
  = (Ret fb, executed') ->
  learning_path fb = [].
Proof.
  intros Hty Hrun.
  destruct (analyze_query_inv _ _ _ _ _ _ _ _ Hrun)
    as [(_ & -> & _)|[(e & _ & _ & -> & _)|
        (parsed & errors0 & ef & Hblank & Hparse & Hval & Hexec & Hfb)]];
    [reflexivity..|].
  pose proof (report_findings _ _ _ _ _ _ _ _ _ Hblank Hparse Hrun) as Hall.
  destruct (conclude_inv _ _ _ _ _ _ _ Hfb)
    as (sugg & path & _ & Hpath & Herr & _ & -> & _).
  rewrite <- Herr in Hpath.
  rewrite suggest_learning_path_no_concept in Hpath; [congruence|].
  apply set_eq. intros c. split; [|set_solver]. intros Hc. exfalso.
  apply elem_of_concepts_needed in Hc as (ty & Hin & Hc).
  apply list_elem_of_In, in_map_iff in Hin as (e & <- & He).
  apply list_elem_of_In in He.
  rewrite Forall_forall in Hall. specialize (Hall e He).
  assert (concepts_of_error (type e) = ∅) as E; [|rewrite E in Hc; set_solver].
  clear Hc. destruct Hall as [key pattern Hin|tables t _ _ _| |msg];
    [|vm_compute; reflexivity..].
  apply engine_error_patterns_inv in Hin as (check & ty & sev & Hin & ->).
  cbn [pattern_finding ontology_item type]. unfold enhance_pattern.
  destruct (error_patterns ontology !! key) as [oe|] eqn:E; cbn [ep_type].
  - apply (Hty key oe); [|assumption].
    apply list_elem_of_In, in_map_iff. exists (key, (check, ty, sev)).
    split; [reflexivity|now apply list_elem_of_In].
  - now apply (builtin_types_map_to_no_concept key check ty sev).
Qed.

Lemma learning_path_needs_concept_types_witness :
  exists fb executed',
    analyze_query chain_ontology accepting_parser no_rows 0
      "SELECT department, COUNT(*) FROM employees" [] = (Ret fb, executed')
    /\ errors fb <> []
    /\ learning_path fb = [].
Proof.
  eexists. eexists. split; [vm_compute; reflexivity|].
  split; [discriminate|].
  apply (learning_path_needs_concept_types chain_ontology accepting_parser
           no_rows 0 "SELECT department, COUNT(*) FROM employees" []
           ["SELECT department, COUNT(*) FROM employees"]).
  - intros key ontology_error _ H. cbn in H. rewrite lookup_empty in H.
    discriminate.
  - vm_compute. reflexivity.
Defined.

(** ** The extraction of table names and GROUP BY columns *)

Section AllChars.

Variable p : ascii -> bool.

Lemma all_chars_app a b :
  Py.all_chars p (a +:+ b) = Py.all_chars p a && Py.all_chars p b.
Proof.
  induction a as [|c a IH]; [reflexivity|].
  change (String c a +:+ b) with (String c (a +:+ b)).
  cbn [Py.all_chars]. now rewrite IH, andb_assoc.
Qed.

Lemma all_chars_sdrop n s :
  Py.all_chars p s = true -> Py.all_chars p (Py.sdrop n s) = true.
Proof.
  revert s. induction n as [|n IH]; intros [|c s] H; try assumption.
  cbn [Py.sdrop]. apply IH. cbn in H. now apply andb_true_iff in H as [_ H].
Qed.

Lemma all_chars_stake n s :
  Py.all_chars p s = true -> Py.all_chars p (Py.stake n s) = true.
Proof.
  revert s. induction n as [|n IH]; intros [|c s] H; try reflexivity.
  cbn in *. apply andb_true_iff in H as [Hc H]. now rewrite Hc, IH.
Qed.

Lemma all_chars_slice s a b :
  Py.all_chars p s = true -> Py.all_chars p (Py.slice s a b) = true.
Proof. intros H. now apply all_chars_stake, all_chars_sdrop. Qed.

Lemma all_chars_lstrip s :
  Py.all_chars p s = true -> Py.all_chars p (Py.lstrip s) = true.
Proof.
  induction s as [|c s IH]; intros H; [reflexivity|].
  cbn [Py.lstrip]. destruct (Py.isspace c); [|assumption].
  apply IH. cbn in H. now apply andb_true_iff in H as [_ H].
Qed.

Lemma all_chars_rstrip s :
  Py.all_chars p s = true -> Py.all_chars p (Py.rstrip s) = true.
Proof.
  induction s as [|c s IH]; intros H; [reflexivity|].
  cbn in H. apply andb_true_iff in H as [Hc H].
  rewrite rstrip_cons. destruct (_ && _); [reflexivity|].
  cbn. now rewrite Hc, IH.
Qed.

Lemma all_chars_strip s :
  Py.all_chars p s = true -> Py.all_chars p (Py.strip s) = true.
Proof. intros H. now apply all_chars_rstrip, all_chars_lstrip. Qed.

Lemma all_chars_split_on sep s :
  Py.all_chars p s = true -> Forall (fun part => Py.all_chars p part = true)
                              (Py.split_on sep s).
Proof.
  induction s as [|c s IH]; intros H; [now repeat constructor|].
  cbn in H. apply andb_true_iff in H as [Hc H]. specialize (IH H).
  cbn [Py.split_on]. destruct (Ascii.eqb c sep); [now constructor|].
  destruct (Py.split_on sep s) as [|part parts]; [now repeat constructor; cbn; rewrite Hc|].
  apply Forall_cons in IH as [Hpart Hparts].
  constructor; [|assumption]. cbn. now rewrite Hc.
Qed.

Lemma all_chars_split_ws_go cur s :
  Py.all_chars p cur = true -> Py.all_chars p s = true ->
  Forall (fun tok => Py.all_chars p tok = true) (Py.split_ws_go cur s).
Proof.
  revert cur. induction s as [|c s IH]; intros cur Hcur H.
  - cbn. destruct cur; now repeat constructor.
  - cbn in H. apply andb_true_iff in H as [Hc H]. cbn [Py.split_ws_go].
    destruct (Py.isspace c).
    + destruct cur; [now apply IH|]. constructor; [assumption|now apply IH].
    + apply IH; [|assumption]. rewrite all_chars_app, Hcur. cbn. now rewrite Hc.
Qed.

End AllChars.

Lemma split_ws_go_tokens cur s :
  no_space cur = true ->
  Forall (fun tok => tok <> "" /\ no_space tok = true) (Py.split_ws_go cur s).
Proof.
  revert cur. induction s as [|c s IH]; intros cur Hcur.
  - cbn. destruct cur; repeat constructor; [discriminate|assumption].
  - cbn [Py.split_ws_go]. destruct (Py.isspace c) eqn:Hc.
    + destruct cur as [|a cur]; [now apply IH|].
      constructor; [split; [discriminate|assumption]|now apply IH].
    + apply IH. unfold no_space in *. rewrite all_chars_app, Hcur. cbn.
      now rewrite Hc.
Qed.

Lemma split_ws_go_nil cur s :
  Py.split_ws_go cur s = [] <-> cur = "" /\ blank s = true.
Proof.
  revert cur. induction s as [|c s IH]; intros cur.
  - cbn. destruct cur; split; try discriminate; intuition discriminate.
  - cbn [Py.split_ws_go]. unfold blank in *. cbn [Py.all_chars].
    destruct (Py.isspace c) eqn:Hc.
    + destruct cur as [|a cur]; [apply IH|].
      split; [discriminate|intros [? _]; discriminate].
    + rewrite IH. split; [|intros [_ ?]; discriminate].
      intros [E _]. now destruct cur.
Qed.

Lemma blank_strip s : blank (Py.strip s) = blank s.
Proof.
  unfold blank, Py.strip. induction s as [|c s IH]; [reflexivity|].
  cbn [Py.lstrip Py.all_chars]. destruct (Py.isspace c) eqn:Hc; [exact IH|].
  rewrite rstrip_cons, Hc, andb_false_r. cbn. now rewrite Hc.
Qed.

Lemma first_word_blank part :
  blank part = true -> first_word part = Raise IndexError.
Proof.
  intros H. unfold first_word, Py.split_ws.
  rewrite <- blank_strip in H.
  now rewrite (proj2 (split_ws_go_nil "" (Py.strip part)) (conj eq_refl H)).
Qed.

Lemma first_word_token part :
  blank part = false ->
  exists tok,
    first_word part = Ret tok /\ tok <> "" /\ no_space tok = true
    /\ forall p, Py.all_chars p part = true -> Py.all_chars p tok = true.
Proof.
  intros H. unfold first_word, Py.split_ws.
  rewrite <- blank_strip in H.
  pose proof (split_ws_go_tokens "" (Py.strip part) eq_refl) as Htok.
  pose proof (fun p => all_chars_split_ws_go p "" (Py.strip part) eq_refl) as Hp.
  destruct (Py.split_ws_go "" (Py.strip part)) as [|tok l] eqn:E.
  - apply split_ws_go_nil in E as [_ E]. congruence.
  - exists tok. apply Forall_cons in Htok as [[Hne Hns] _].
    repeat split; try assumption.
    intros p Hall. specialize (Hp p (all_chars_strip p part Hall)).
    now apply Forall_cons in Hp as [? _].
Qed.

Lemma mapM_first_word_blank parts :
  existsb blank parts = true -> mapM first_word parts = Raise IndexError.
Proof.
  induction parts as [|part parts IH]; [discriminate|].
  cbn [existsb mapM]. destruct (blank part) eqn:Hb.
  - intros _. now rewrite first_word_blank.
  - cbn [orb]. intros H. destruct (first_word_token part Hb) as (tok & -> & _).
    cbn [mbind exc_bind]. now rewrite IH.
Qed.

Lemma mapM_first_word_tokens parts :
  existsb blank parts = false ->
  exists toks,
    mapM first_word parts = Ret toks
    /\ length toks = length parts
    /\ Forall (fun tok => tok <> "" /\ no_space tok = true) toks
    /\ forall p, Forall (fun part => Py.all_chars p part = true) parts ->
                 Forall (fun tok => Py.all_chars p tok = true) toks.
Proof.
  induction parts as [|part parts IH]; intros H.
  - exists []. repeat split; constructor.
  - cbn [existsb] in H. apply orb_false_iff in H as [Hb H].
    destruct (IH H) as (toks & Hm & Hlen & Htoks & Hp).
    destruct (first_word_token part Hb) as (tok & Ht & Hne & Hns & Hpt).
    exists (tok :: toks). cbn [mapM]. rewrite Ht. cbn [mbind exc_bind].
    rewrite Hm. cbn [mbind exc_bind mret exc_ret].
    split; [reflexivity|]. split; [cbn; now rewrite Hlen|].
    split; [now constructor|].
    intros p Hall. apply Forall_cons in Hall as [Hpart Hparts].
    constructor; [now apply Hpt|now apply Hp].
Qed.

Lemma upper_case_upper s : upper_case (Py.upper s) = true.
Proof.
  unfold upper_case, Py.upper. induction s as [|c s IH]; [reflexivity|].
  cbn. now rewrite upper_char_not_lower, IH.
Qed.

Lemma upper_case_fixed s : upper_case s = true -> Py.upper s = s.
Proof.
  unfold upper_case, Py.upper. induction s as [|c s IH]; [reflexivity|].
  cbn. intros H. apply andb_true_iff in H as [Hc H]. rewrite (IH H).
  unfold Py.upper_char. apply negb_true_iff in Hc. now rewrite Hc.
Qed.

Lemma _extract_group_by_columns_cases (parsed : string) :
  (has_blank_part (group_by_clause parsed) = true ->
   _extract_group_by_columns parsed = Raise IndexError)
  /\ (has_blank_part (group_by_clause parsed) = false ->
      exists columns,
        _extract_group_by_columns parsed = Ret columns
        /\ (group_by_clause parsed = None -> columns = [])
        /\ Forall (fun column =>
                     column <> "" /\ no_space column = true
                     /\ Py.upper column = column
                     /\ Py.mem column sql_keywords = false) columns).
Proof.
  unfold _extract_group_by_columns, group_by_clause, has_blank_part. cbv zeta.
  destruct (Py.find "GROUP BY" (Py.upper parsed)) as [group_by_start|].
  - set (clause := Py.strip _).
    change (mapM _ (Py.split_on ","%char clause))
      with (mapM first_word (Py.split_on ","%char clause)).
    split; intros H.
    + now rewrite mapM_first_word_blank.
    + destruct (mapM_first_word_tokens _ H) as (toks & -> & _ & Htoks & Hp).
      cbn [mbind exc_bind]. eexists. split; [reflexivity|].
      split; [discriminate|].
      apply Forall_forall. intros column Hin.
      apply list_elem_of_In, filter_In in Hin as [Hin Hkeep].
      apply list_elem_of_In in Hin.
      apply andb_true_iff in Hkeep as [_ Hkw]. apply negb_true_iff in Hkw.
      rewrite Forall_forall in Htoks. destruct (Htoks column Hin) as [Hne Hns].
      repeat split; try assumption.
      apply upper_case_fixed.
      assert (Forall (fun tok => upper_case tok = true) toks) as Hup.
      { apply (Hp (fun c => negb (Py.islower c))).
        apply all_chars_split_on. subst clause.
        apply all_chars_strip, all_chars_slice, upper_case_upper. }
      rewrite Forall_forall in Hup. now apply Hup.
  - split; [discriminate|]. intros _. exists []. repeat split. constructor.
Qed.


Lemma sdrop_empty n : Py.sdrop n "" = "".
Proof. now destruct n. Qed.

Lemma sdrop_S n s c s' : Py.sdrop n s = String c s' -> Py.sdrop (S n) s = s'.
Proof.
  revert s. induction n as [|n IH]; intros s H.
  - cbn in H. now subst.
  - destruct s as [|a s]; [discriminate|]. cbn [Py.sdrop] in *. now apply IH.
Qed.

Lemma sdrop_add n m s : Py.sdrop (n + m) s = Py.sdrop n (Py.sdrop m s).
Proof.
  revert s. induction m as [|m IH]; intros s.
  - now rewrite Nat.add_0_r.
  - rewrite Nat.add_succ_r. destruct s as [|c s]; cbn [Py.sdrop].
    + now rewrite sdrop_empty.
    + apply IH.
Qed.

Lemma find_at_is_Some sub s i :
  is_Some (Py.find_at sub s i) <-> Py.contains sub s = true.
Proof.
  revert i. induction s as [|c s IH]; intros i; cbn [Py.find_at Py.contains].
  - rewrite orb_false_r. destruct (Py.startswith sub ""); split; eauto;
      intros H; try discriminate; now destruct H.
  - destruct (Py.startswith sub (String c s)); [split; eauto|].
    cbn [orb]. apply IH.
Qed.

Lemma contains_sdrop sub n s :
  Py.contains sub (Py.sdrop n s) = true -> Py.contains sub s = true.
Proof.
  revert s. induction n as [|n IH]; intros s H; [exact H|].
  destruct s as [|c s]; [exact H|]. cbn [Py.sdrop] in H.
  rewrite contains_cons, (IH _ H). apply orb_true_r.
Qed.

Lemma find_from_earlier sub s j j' e :
  Py.find_from sub s j' = Some e -> j <= j' ->
  is_Some (Py.find_from sub s j).
Proof.
  unfold Py.find_from. intros H Hj.
  apply find_at_is_Some.
  apply (contains_sdrop sub (j' - j)). rewrite <- sdrop_add.
  replace (j' - j + j) with j' by lia.
  apply (find_at_is_Some sub _ j'). eauto.
Qed.

Lemma join_tables_outcome query_str s join_pos :
  s = Py.sdrop join_pos query_str ->
  (join_tables query_str s join_pos = Raise IndexError
   <-> exists j e,
         join_pos <= j
         /\ Py.startswith "JOIN" (Py.sdrop j query_str) = true
         /\ Py.find_from "ON" query_str j = Some e
         /\ blank (Py.slice query_str (j + 4) e) = true)
  /\ (join_tables query_str s join_pos = Raise IndexError
      \/ exists tables,
           join_tables query_str s join_pos = Ret tables
           /\ Forall (table_token query_str) tables).
Proof.
  revert join_pos. induction s as [|c s IH]; intros join_pos Hs.
  - cbn [join_tables]. split; [|right; exists []; split; [reflexivity|constructor]].
    split; [discriminate|]. intros (j & e & Hj & Hstart & _). exfalso.
    replace j with ((j - join_pos) + join_pos) in Hstart by lia.
    rewrite sdrop_add, <- Hs, sdrop_empty in Hstart. discriminate.
  - pose proof (sdrop_S _ _ _ _ (eq_sym Hs)) as Hs'. symmetry in Hs'.
    destruct (IH (S join_pos) Hs') as [IHiff IHout]. clear IH.
    cbn [join_tables].
    assert (forall j e,
              join_pos <= j ->
              Py.startswith "JOIN" (Py.sdrop j query_str) = true ->
              Py.find_from "ON" query_str j = Some e ->
              blank (Py.slice query_str (j + 4) e) = true ->
              j = join_pos
              \/ join_tables query_str s (S join_pos) = Raise IndexError)
      as Hlater.
    { intros j e Hj Hstart Hon Hblank.
      destruct (decide (j = join_pos)) as [|Hne]; [now left|right].
      apply IHiff. exists j, e. repeat split; try assumption. lia. }
    destruct (Py.startswith "JOIN" (String c s)) eqn:Hjoin.
    + destruct (Py.find_from "ON" query_str join_pos) as [join_end|] eqn:Hon.
      * change (first (Py.split_ws (Py.strip ?x))) with (first_word x).
        destruct (blank (Py.slice query_str (join_pos + 4) join_end)) eqn:Hb.
        -- rewrite (first_word_blank _ Hb). cbn [mbind exc_bind].
           split; [|now left]. split; [|reflexivity]. intros _.
           exists join_pos, join_end. rewrite <- Hs. now repeat split.
        -- destruct (first_word_token _ Hb) as (tok & -> & Hne & Hns & Hp).
           cbn [mbind exc_bind]. split.
           ++ split.
              ** intros H.
                 destruct IHout as [Hr|(tables & Hr & _)];
                   [|rewrite Hr in H; discriminate].
                 apply IHiff in Hr as (j & e & Hj & Hrest).
                 exists j, e. split; [lia|assumption].
              ** intros (j & e & Hj & Hstart & Hon' & Hblank).
                 destruct (Hlater j e Hj Hstart Hon' Hblank) as [E|E];
                   [subst j; congruence|now rewrite E].
           ++ destruct IHout as [->|(tables & -> & Htables)]; [now left|].
              right. exists (tok :: tables). split; [reflexivity|].
              constructor; [|assumption]. repeat split; try assumption.
              intros p Hall. apply Hp. now apply all_chars_slice.
      * split; [|right; exists []; split; [reflexivity|constructor]].
        split; [discriminate|]. intros (j & e & Hj & _ & Hon' & _). exfalso.
        destruct (find_from_earlier _ _ _ _ _ Hon' Hj) as [e' He']. congruence.
    + split; [|exact IHout]. rewrite IHiff. split.
      * intros (j & e & Hj & Hrest). exists j, e. split; [lia|assumption].
      * intros (j & e & Hj & Hstart & Hon' & Hblank).
        destruct (Hlater j e Hj Hstart Hon' Hblank) as [->|H].
        -- rewrite <- Hs in Hstart. congruence.
        -- now apply IHiff.
Qed.

Lemma _extract_table_names_cases (parsed : string) :
  (_extract_table_names parsed = Raise IndexError
   <-> has_blank_part (from_clause parsed) = true
       \/ join_without_table (Py.upper parsed))
  /\ (_extract_table_names parsed = Raise IndexError
      \/ exists tables,
           _extract_table_names parsed = Ret tables
           /\ Forall (fun tbl =>
                        tbl <> "" /\ no_space tbl = true /\ Py.upper tbl = tbl
                        /\ Py.mem tbl ["INNER"; "LEFT"; "RIGHT"; "FULL"] = false)
                     tables).
Proof.
  unfold _extract_table_names, from_clause, has_blank_part, join_without_table.
  cbv zeta. set (query_str := Py.upper parsed).
  destruct (join_tables_outcome query_str query_str 0 eq_refl) as [Hjoin Hout].
  assert ((exists j e,
             0 <= j /\ Py.startswith "JOIN" (Py.sdrop j query_str) = true
             /\ Py.find_from "ON" query_str j = Some e
             /\ blank (Py.slice query_str (j + 4) e) = true)
          <-> exists join_pos join_end,
                Py.startswith "JOIN" (Py.sdrop join_pos query_str) = true
                /\ Py.find_from "ON" query_str join_pos = Some join_end
                /\ blank (Py.slice query_str (join_pos + 4) join_end) = true)
    as Hpos.
  { split; [intros (j & e & _ & H)|intros (j & e & H)]; exists j, e;
      [assumption|split; [lia|assumption]]. }
  rewrite Hpos in Hjoin. clear Hpos.
  assert (forall from_tables : list string,
            Forall (table_token query_str) from_tables ->
            ((from_tables ← Ret from_tables;
              joined ← join_tables query_str query_str 0;
              Ret (List.filter
                     (fun tbl => negb (String.eqb tbl "")
                                 && negb (Py.mem (Py.upper tbl)
                                            ["INNER"; "LEFT"; "RIGHT"; "FULL"]))
                     (from_tables ++ joined))) = Raise IndexError
             <-> join_tables query_str query_str 0 = Raise IndexError)
            /\ ((from_tables ← Ret from_tables;
                 joined ← join_tables query_str query_str 0;
                 Ret (List.filter
                        (fun tbl => negb (String.eqb tbl "")
                                    && negb (Py.mem (Py.upper tbl)
                                               ["INNER"; "LEFT"; "RIGHT"; "FULL"]))
                        (from_tables ++ joined))) = Raise IndexError
                \/ exists tables,
                     (from_tables ← Ret from_tables;
                      joined ← join_tables query_str query_str 0;
                      Ret (List.filter
                             (fun tbl => negb (String.eqb tbl "")
                                         && negb (Py.mem (Py.upper tbl)
                                                    ["INNER"; "LEFT"; "RIGHT"; "FULL"]))
                             (from_tables ++ joined))) = Ret tables
                     /\ Forall (fun tbl =>
                                  tbl <> "" /\ no_space tbl = true
                                  /\ Py.upper tbl = tbl
                                  /\ Py.mem tbl ["INNER"; "LEFT"; "RIGHT"; "FULL"]
                                     = false) tables)) as Hrest.
  { intros from_tables Hfrom. cbn [mbind exc_bind].
    destruct Hout as [Hr|(joined & Hr & Hjoined)]; rewrite Hr;
      cbn [mbind exc_bind]; [split; [reflexivity|now left]|].
    split; [split; discriminate|]. right. eexists. split; [reflexivity|].
    apply Forall_forall. intros tbl Hin.
    apply list_elem_of_In, filter_In in Hin as [Hin Hkeep].
    apply list_elem_of_In in Hin.
    assert (table_token query_str tbl) as (Hne & Hns & Hp).
    { apply elem_of_app in Hin as [Hin|Hin];
        [rewrite Forall_forall in Hfrom|rewrite Forall_forall in Hjoined];
        auto. }
    assert (Py.upper tbl = tbl) as Hup.
    { apply upper_case_fixed. apply Hp. apply upper_case_upper. }
    rewrite Hup in Hkeep. apply andb_true_iff in Hkeep as [_ Hkw].
    apply negb_true_iff in Hkw. now repeat split. }
  destruct (Py.find "FROM" query_str) as [from_start|].
  - set (from_clause := Py.strip _).
    change (mapM _ (Py.split_on ","%char from_clause))
      with (mapM first_word (Py.split_on ","%char from_clause)).
    destruct (existsb blank (Py.split_on ","%char from_clause)) eqn:Hb.
    + rewrite (mapM_first_word_blank _ Hb). cbn [mbind exc_bind].
      split; [|now left]. split; [now left|reflexivity].
    + destruct (mapM_first_word_tokens _ Hb) as (toks & -> & _ & Htoks & Hp).
      destruct (Hrest toks) as [Hiff Hres].
      { apply Forall_forall. intros tok Hin.
        rewrite Forall_forall in Htoks. destruct (Htoks tok Hin) as [Hne Hns].
        repeat split; try assumption. intros p Hall.
        assert (Forall (fun tok => Py.all_chars p tok = true) toks) as Hq.
        { apply Hp, all_chars_split_on. subst from_clause.
          now apply all_chars_strip, all_chars_slice. }
        rewrite Forall_forall in Hq. now apply Hq. }
      split; [|exact Hres]. rewrite Hiff, Hjoin.
      split; [now right|]. now intros [?|?].
  - destruct (Hrest []) as [Hiff Hres]; [constructor|].
    split; [|exact Hres]. rewrite Hiff, Hjoin.
    split; [now right|]. now intros [?|?].
Qed.


(** ** The exceptions of the analysis *)

Lemma _check_semantics_outcome ontology query_text parsed :
  _check_semantics ontology query_text parsed
  = (ambiguous ← check_ambiguous_columns ontology parsed query_text;
     missing ← check_group_by_column_not_in_select parsed query_text;
     Ret (concat
       [[];
        if check_missing_from parsed query_text
        then [pattern_finding (enhance_pattern ontology "missing_from"
                (Some "check_missing_from") "SYNTAX_ERROR" "HIGH")] else [];
        if check_aggregate_in_where parsed query_text
        then [pattern_finding (enhance_pattern ontology "aggregate_in_where"
                (Some "check_aggregate_in_where") "SEMANTIC_ERROR" "HIGH")] else [];
        if check_missing_group_by parsed query_text
        then [pattern_finding (enhance_pattern ontology "missing_group_by"
                (Some "check_missing_group_by") "SEMANTIC_ERROR" "HIGH")] else [];
        if check_having_without_group parsed query_text
        then [pattern_finding (enhance_pattern ontology "having_without_group"
                (Some "check_having_without_group") "SEMANTIC_ERROR" "MEDIUM")] else [];
        if ambiguous : bool
        then [pattern_finding (enhance_pattern ontology "ambiguous_column"
                (Some "check_ambiguous_columns") "SEMANTIC_ERROR" "MEDIUM")] else [];
        if missing : bool
        then [pattern_finding (enhance_pattern ontology "group_by_column_not_in_select"
                (Some "check_group_by_column_not_in_select") "SEMANTIC_ERROR" "HIGH")] else [];
        if check_missing_aggregate_with_group_by parsed query_text
        then [pattern_finding (enhance_pattern ontology "missing_aggregate_with_group_by"
                (Some "check_missing_aggregate_with_group_by") "SEMANTIC_ERROR" "HIGH")] else []])).
Proof.
  unfold _check_semantics, engine_error_patterns, _initialize_error_patterns,
    builtin_patterns.
  cbn [List.map mapM].
  rewrite !check_function_enhance.
  change (getattr ontology "check_missing_from")
    with (Some (fun p q => @Ret bool (check_missing_from p q))).
  change (getattr ontology "check_aggregate_in_where")
    with (Some (fun p q => @Ret bool (check_aggregate_in_where p q))).
  change (getattr ontology "check_missing_group_by")
    with (Some (fun p q => @Ret bool (check_missing_group_by p q))).
  change (getattr ontology "check_having_without_group")
    with (Some (fun p q => @Ret bool (check_having_without_group p q))).
  change (getattr ontology "check_ambiguous_columns")
    with (Some (check_ambiguous_columns ontology)).
  change (getattr ontology "check_group_by_column_not_in_select")
    with (Some check_group_by_column_not_in_select).
  change (getattr ontology "check_missing_aggregate_with_group_by")
    with (Some (fun p q => @Ret bool (check_missing_aggregate_with_group_by p q))).
  cbv beta iota.
  destruct (check_ambiguous_columns ontology parsed query_text) as [b1| |];
    [|reflexivity..].
  destruct (check_group_by_column_not_in_select parsed query_text) as [b2| |];
    reflexivity.
Qed.

Lemma check_ambiguous_columns_outcome ontology parsed query_text :
  match _extract_table_names parsed with
  | Ret _ => exists b, check_ambiguous_columns ontology parsed query_text = Ret b
  | Raise e => check_ambiguous_columns ontology parsed query_text = Raise e
  | Unfinished => check_ambiguous_columns ontology parsed query_text = Unfinished
  end.
Proof.
  unfold check_ambiguous_columns, _find_ambiguous_columns.
  destruct (_extract_table_names parsed) as [tables| |]; [|reflexivity..].
  cbn [mbind exc_bind]. destruct (length tables <? 2); by eexists.
Qed.

Lemma validate_outcome ontology query_text parsed :
  (extraction_fails parsed query_text
   /\ validate ontology query_text parsed = Raise IndexError)
  \/ (~ extraction_fails parsed query_text
      /\ exists errors0, validate ontology query_text parsed = Ret errors0).
Proof.
  destruct (_extract_table_names_cases parsed) as [Htiff Htout].
  destruct (_extract_group_by_columns_cases parsed) as [Hgblank Hgok].
  pose proof (check_ambiguous_columns_outcome ontology parsed query_text) as Hamb.
  unfold validate, extraction_fails. cbv zeta.
  rewrite _check_semantics_outcome. unfold _check_schema_constraints.
  destruct Htout as [Hraise|(tables & Htables & _)].
  - rewrite Hraise in Hamb. rewrite Hamb. cbn [mbind exc_bind].
    left. split; [|reflexivity].
    apply Htiff in Hraise as [?|?]; auto.
  - assert (~ (has_blank_part (from_clause parsed) = true
               \/ join_without_table (Py.upper parsed))) as Hnt.
    { intros H. apply Htiff in H. congruence. }
    rewrite Htables in Hamb. destruct Hamb as [b ->]. rewrite Htables.
    cbn [mbind exc_bind].
    unfold check_group_by_column_not_in_select. cbv zeta.
    destruct (Py.contains "GROUP BY" (Py.upper query_text)).
    + destruct (has_blank_part (group_by_clause parsed)) eqn:Hb.
      * rewrite (Hgblank eq_refl). cbn [mbind exc_bind].
        left. split; [auto|reflexivity].
      * destruct (Hgok eq_refl) as (cols & -> & _). cbn [mbind exc_bind].
        right. split; [|by eexists].
        intros [?|[?|[_ ?]]]; [tauto|tauto|discriminate].
    + cbn [mbind exc_bind]. right. split; [|by eexists].
      intros [?|[?|[? _]]]; [tauto|tauto|discriminate].
Qed.

Lemma conclude_never_raises ontology fuel query_text parsed errors0
    {Value : Type} (ef : execution_feedback Value) e :
  ~ extraction_fails parsed query_text ->
  conclude ontology fuel query_text parsed errors0 ef <> Raise e.
Proof.
  intros Hn. unfold conclude. cbv zeta.
  destruct (_generate_ontology_suggestions_returns ontology query_text parsed
              (match ef with
               | ExecError error => errors0 ++ [error]
               | ExecResult _ => errors0
               end)) as [sugg ->].
  { intros Hg. destruct (_extract_group_by_columns_cases parsed) as [_ Hok].
    destruct (has_blank_part (group_by_clause parsed)) eqn:Hb.
    - exfalso. apply Hn. right. right. now split.
    - destruct (Hok eq_refl) as (cols & -> & _). by eexists. }
  cbn [mbind exc_bind].
  destruct (suggest_learning_path _ _ _); cbn [of_fuel mbind exc_bind];
    discriminate.
Qed.

(** When does [analyze_query] end with an exception, on ASCII text (the
    query and the statement the parser returns): on a non-blank query that
    the parser accepts, either with IndexError, before the database is
    called, when the extraction of the table names or of the GROUP BY
    columns takes the first word of a blank text; or, these extractions
    passing, with the exception the database call raises when it is not an
    [sqlite3.Error], for a query that passed the gate. *)
Theorem analyze_query_raises_iff {Value : Type}
    (ontology : OntologyManager) (sqlparse_parse : string -> string + string)
    (cursor_execute : string -> sqlite_outcome Value)
    (fuel : nat) (query_text : string) (executed executed' : list string)
    (e : exn) :
  ascii_text query_text = true ->
  (forall parsed,
     sqlparse_parse query_text = inr parsed -> ascii_text parsed = true) ->
  analyze_query ontology sqlparse_parse cursor_execute fuel query_text executed
  = (Raise e, executed')
  <-> Py.strip query_text <> ""
      /\ exists parsed,
           sqlparse_parse query_text = inr parsed
           /\ ((extraction_fails parsed query_text
                /\ e = IndexError /\ executed' = executed)
               \/ (~ extraction_fails parsed query_text
                   /\ destructive query_text = false
                   /\ cursor_execute query_text = CursorRaises e
                   /\ executed' = executed ++ [query_text])).
Proof.
  intros _ _. unfold analyze_query.
  destruct (String.eqb (Py.strip query_text) "") eqn:Hblank.
  { apply String.eqb_eq in Hblank. split; [discriminate|]. now intros [? _]. }
  apply String.eqb_neq in Hblank.
  destruct (sqlparse_parse query_text) as [msg|parsed] eqn:Hparse.
  { split; [discriminate|]. intros (_ & parsed & ? & _). discriminate. }
  destruct (validate_outcome ontology query_text parsed)
    as [[Hyes Hval]|[Hn [errors0 Hval]]]; rewrite Hval.
  - split.
    + intros [= <- <-]. split; [assumption|]. exists parsed.
      split; [reflexivity|]. left. now repeat split.
    + intros (_ & parsed' & [= <-] & [(_ & -> & ->)|(Hn & _)]);
        [reflexivity|contradiction].
  - unfold _try_execute_query. cbv zeta. rewrite destructive_strip.
    fold (destructive query_text).
    destruct (destructive query_text) eqn:Hd.
    + cbn [mbind exc_bind]. split.
      * intros [= Hrun _]. now apply conclude_never_raises in Hrun.
      * intros (_ & parsed' & [= <-] & [(Hyes & _)|(_ & ? & _)]);
          [contradiction|discriminate].
    + destruct (cursor_execute query_text) as [m|d r|e1] eqn:Hcur;
        cbn [mbind exc_bind].
      * split; [intros [= Hrun _]; now apply conclude_never_raises in Hrun|].
        intros (_ & parsed' & [= <-] & [(Hyes & _)|(_ & _ & ? & _)]);
          [contradiction|discriminate].
      * split; [intros [= Hrun _]; now apply conclude_never_raises in Hrun|].
        intros (_ & parsed' & [= <-] & [(Hyes & _)|(_ & _ & ? & _)]);
          [contradiction|discriminate].
      * split.
        -- intros [= <- <-]. split; [assumption|]. exists parsed.
           split; [reflexivity|]. right. now repeat split.
        -- intros (_ & parsed' & [= <-] & [(Hyes & _)|(_ & _ & [= <-] & ->)]);
             [contradiction|reflexivity].
Qed.

(** A query whose FROM clause is empty ends with IndexError, and the
    database is not called. *)
Lemma analyze_query_raises_witness :
  analyze_query empty_ontology accepting_parser no_rows 0 "SELECT name FROM" []
  = (Raise IndexError, []).
Proof.
  apply (proj2 (analyze_query_raises_iff empty_ontology accepting_parser no_rows
                  0 "SELECT name FROM" [] [] IndexError
                  ltac:(vm_compute; reflexivity)
                  ltac:(intros parsed [= <-]; vm_compute; reflexivity))).
  split; [vm_compute; discriminate|].
  exists "SELECT name FROM". split; [reflexivity|].
  left. split; [|split; reflexivity].
  left. vm_compute. reflexivity.
Defined.

(** When is the query handed to the database, on ASCII text (the query and
    the statement the parser returns): exactly when it is not blank, the
    parser accepts it, the extractions above pass and the text holds no
    destructive keyword, whatever the checks found; it is then handed over
    once, as it was given.  In every other case the database is not
    called. *)
Theorem query_is_executed_iff {Value : Type}
    (ontology : OntologyManager) (sqlparse_parse : string -> string + string)
    (cursor_execute : string -> sqlite_outcome Value)
    (fuel : nat) (query_text : string) (executed : list string) :
  ascii_text query_text = true ->
  (forall parsed,
     sqlparse_parse query_text = inr parsed -> ascii_text parsed = true) ->
  (reaches_database sqlparse_parse query_text
   /\ snd (analyze_query ontology sqlparse_parse cursor_execute fuel
             query_text executed) = executed ++ [query_text])
  \/ (~ reaches_database sqlparse_parse query_text
      /\ snd (analyze_query ontology sqlparse_parse cursor_execute fuel
                query_text executed) = executed).
Proof.
  intros _ _. unfold reaches_database, analyze_query.
  destruct (String.eqb (Py.strip query_text) "") eqn:Hblank.
  { apply String.eqb_eq in Hblank. right. split; [|reflexivity].
    now intros [? _]. }
  apply String.eqb_neq in Hblank.
  destruct (sqlparse_parse query_text) as [msg|parsed] eqn:Hparse.
  { right. split; [|reflexivity]. intros (_ & _ & parsed & ? & _).
    discriminate. }
  destruct (validate_outcome ontology query_text parsed)
    as [[Hyes Hval]|[Hn [errors0 Hval]]]; rewrite Hval.
  { right. split; [|reflexivity]. intros (_ & _ & parsed' & [= <-] & Hn).
    contradiction. }
  destruct (destructive query_text) eqn:Hd.
  - right. split; [intros (_ & ? & _); discriminate|].
    now rewrite _try_execute_query_destructive.
  - left. split; [split; [assumption|split; [reflexivity|now exists parsed]]|].
    pose proof (_try_execute_query_harmless cursor_execute query_text parsed
                  executed Hd) as Hsnd.
    now destruct (_try_execute_query cursor_execute query_text parsed executed).
Qed.

(** A plain SELECT is handed to the database, once. *)
Lemma query_is_executed_witness :
  snd (analyze_query empty_ontology accepting_parser no_rows 0
         "SELECT emp_id FROM employees" [])
  = ["SELECT emp_id FROM employees"].
Proof.
  destruct (query_is_executed_iff empty_ontology accepting_parser no_rows 0
              "SELECT emp_id FROM employees" []
              ltac:(vm_compute; reflexivity)
              ltac:(intros parsed [= <-]; vm_compute; reflexivity))
    as [[_ H]|[_ H]]; [exact H|].
  vm_compute in H. discriminate.
Defined.

(** ** The check for ambiguous columns *)

Lemma dedup_keys_elem x l : x ∈ dedup_keys l <-> x ∈ l.
Proof.
  induction l as [|y l IH]; [reflexivity|]. cbn [dedup_keys].
  rewrite !elem_of_cons, <- IH. split.
  - intros [->|H]; [now left|].
    apply list_elem_of_In, filter_In in H as [H _]. right. now apply list_elem_of_In.
  - intros [->|H]; [now left|].
    destruct (String.eqb y x) eqn:E.
    + apply String.eqb_eq in E. now left.
    + right. apply list_elem_of_In, filter_In. split; [now apply list_elem_of_In|].
      now rewrite E.
Qed.

Lemma NoDup_filter_list {A : Type} (f : A -> bool) (l : list A) :
  NoDup l -> NoDup (List.filter f l).
Proof.
  induction 1 as [|x l Hx Hl IH]; cbn [List.filter]; [constructor|].
  destruct (f x); [|assumption]. constructor; [|assumption].
  intros H. apply Hx. apply list_elem_of_In, filter_In in H as [H _].
  now apply list_elem_of_In.
Qed.

Lemma dedup_keys_NoDup l : NoDup (dedup_keys l).
Proof.
  induction l as [|x l IH]; cbn [dedup_keys]; constructor.
  - intros H. apply list_elem_of_In, filter_In in H as [_ H].
    now rewrite String.eqb_refl in H.
  - now apply NoDup_filter_list.
Qed.

Lemma schema_columns_entries (sch : list (string * table_schema))
    (l : list string) :
  NoDup l ->
  NoDup (List.map fst
           (omap (fun table =>
                    match assoc (Py.lower table) sch with
                    | Some t => Some (table, keys (columns t))
                    | None => None
                    end) l))
  /\ forall t cs,
       (t, cs) ∈ omap (fun table =>
                         match assoc (Py.lower table) sch with
                         | Some t => Some (table, keys (columns t))
                         | None => None
                         end) l ->
       t ∈ l
       /\ exists s, assoc (Py.lower t) sch = Some s /\ cs = keys (columns s).
Proof.
  induction 1 as [|t l Ht Hnd [IH1 IH2]].
  - split; [constructor|]. intros t cs H. inversion H.
  - cbn [omap list_omap].
    destruct (assoc (Py.lower t) sch) as [s|] eqn:E.
    + split.
      * cbn [List.map fst]. constructor; [|assumption].
        intros Hin. apply Ht.
        apply list_elem_of_In, in_map_iff in Hin as ([t' cs] & Heq & Hin).
        cbn in Heq. subst t'. apply list_elem_of_In in Hin.
        now apply IH2 in Hin as [Hin _].
      * intros t' cs H. apply elem_of_cons in H as [[= -> ->]|H].
        -- split; [now left|now exists s].
        -- destruct (IH2 _ _ H) as [Hin Hs]. split; [now right|assumption].
    + split; [assumption|]. intros t' cs H.
      destruct (IH2 _ _ H) as [Hin Hs]. split; [now right|assumption].
Qed.

Lemma two_entries_with (col : string) (l : list (string * list string)) :
  NoDup (List.map fst l) ->
  1 < length (List.filter (fun '(_, cols) => Py.mem col cols) l) ->
  exists t1 cs1 t2 cs2,
    (t1, cs1) ∈ l /\ (t2, cs2) ∈ l /\ t1 <> t2
    /\ Py.mem col cs1 = true /\ Py.mem col cs2 = true.
Proof.
  induction l as [|[t cs] l IH]; intros Hnodup Hocc; [cbn in Hocc; lia|].
  cbn [List.map fst] in Hnodup. apply NoDup_cons in Hnodup as [Ht Hnd].
  cbn [List.filter] in Hocc. destruct (Py.mem col cs) eqn:Hm.
  - destruct (List.filter (fun '(_, cols) => Py.mem col cols) l)
      as [|[t' cs'] l'] eqn:Hf; [cbn in Hocc; lia|].
    assert (In (t', cs') (List.filter (fun '(_, cols) => Py.mem col cols) l))
      as Hin by (rewrite Hf; now left).
    apply filter_In in Hin as [Hin Hm'].
    exists t, cs, t', cs'. split; [left|].
    split; [right; now apply list_elem_of_In|].
    split; [|now split].
    intros ->. apply Ht. apply list_elem_of_In, in_map_iff.
    now exists (t', cs').
  - destruct (IH Hnd Hocc) as (t1 & cs1 & t2 & cs2 & H1 & H2 & Hrest).
    exists t1, cs1, t2, cs2. split; [now right|]. split; [now right|assumption].
Qed.

(** A column is reported as ambiguous only if two different tables named
    in the statement are in the schema and both have a column of that name,
    and the name occurs as a word in the statement.  A statement on one
    table, named once or several times as in a self-join, gets no such
    finding. *)
Theorem ambiguous_column_needs_two_tables
    (ontology : OntologyManager) (parsed : string) (cols : list string)
    (col : string) :
  _find_ambiguous_columns ontology parsed = Ret cols ->
  col ∈ cols ->
  exists tables t1 t2 s1 s2,
    _extract_table_names parsed = Ret tables
    /\ t1 ∈ tables /\ t2 ∈ tables /\ t1 <> t2
    /\ assoc (Py.lower t1) (schema ontology) = Some s1
    /\ assoc (Py.lower t2) (schema ontology) = Some s2
    /\ Py.mem col (keys (columns s1)) = true
    /\ Py.mem col (keys (columns s2)) = true
    /\ Re.findall (column_word_pattern col) parsed <> [].
Proof.
  unfold _find_ambiguous_columns.
  destruct (_extract_table_names parsed) as [tables| |]; [|discriminate..].
  cbn [mbind exc_bind].
  destruct (length tables <? 2); [intros [= <-] H; inversion H|].
  cbv zeta.
  destruct (schema_columns_entries (schema ontology) (dedup_keys tables)
              (dedup_keys_NoDup tables)) as [Hnodup Hentries].
  set (all_columns := omap _ (dedup_keys tables)) in *.
  intros [= <-] Hcol.
  apply list_elem_of_In, filter_In in Hcol as [Hamb Hused].
  apply filter_In in Hamb as [_ Hocc].
  apply Nat.ltb_lt in Hocc. rewrite length_map in Hocc.
  destruct (two_entries_with col all_columns Hnodup Hocc)
    as (t1 & cs1 & t2 & cs2 & H1 & H2 & Hne & Hm1 & Hm2).
  destruct (Hentries _ _ H1) as (Ht1 & s1 & Hs1 & ->).
  destruct (Hentries _ _ H2) as (Ht2 & s2 & Hs2 & ->).
  apply (proj1 (dedup_keys_elem _ _)) in Ht1.
  apply (proj1 (dedup_keys_elem _ _)) in Ht2.
  exists tables, t1, t2, s1, s2.
  do 8 (split; [first [reflexivity|assumption]|]).
  intros Hnil. rewrite Hnil in Hused. discriminate.
Qed.

Lemma ambiguous_column_witness :
  _find_ambiguous_columns shared_column_ontology
    "SELECT department FROM employees, projects" = Ret ["department"]
  /\ exists tables t1 t2 s1 s2,
       _extract_table_names "SELECT department FROM employees, projects"
       = Ret tables
       /\ t1 ∈ tables /\ t2 ∈ tables /\ t1 <> t2
       /\ assoc (Py.lower t1) (schema shared_column_ontology) = Some s1
       /\ assoc (Py.lower t2) (schema shared_column_ontology) = Some s2
       /\ Py.mem "department" (keys (columns s1)) = true
       /\ Py.mem "department" (keys (columns s2)) = true
       /\ Re.findall (column_word_pattern "department")
            "SELECT department FROM employees, projects" <> [].
Proof.
  split; [vm_compute; reflexivity|].
  apply (ambiguous_column_needs_two_tables shared_column_ontology
           "SELECT department FROM employees, projects" ["department"]);
    [vm_compute; reflexivity|left].
Defined.

(** ** The schema check *)









(** ** Where the suggestions come from *)

Lemma suggestions_for_inv query_text parsed sugg_key sugg_info l :
  suggestions_for query_text parsed (sugg_key, sugg_info) = Ret l ->
  l = []
  \/ (exists sev tag,
        l = [suggestion sugg_info sev]
        /\ ((sev = "LOW" /\ (tag = "order_by" \/ tag = "select_star"))
            \/ (sev = "MEDIUM"
                /\ (tag = "group_by_aggregate" \/ tag = "group_by_select")
                /\ Py.contains "GROUP BY" (Py.upper query_text) = true))
        /\ Py.contains tag (Py.lower sugg_key) = true).
Proof.
  unfold suggestions_for. cbv zeta.
  rewrite lower_case_name_not_in_upper. cbn [andb].
  destruct (negb (Py.contains "ORDER BY" (Py.upper query_text))
            && Py.contains "order_by" (Py.lower sugg_key)
            && negb (Py.contains "GROUP BY" (Py.upper query_text))) eqn:E1.
  { intros [= <-]. right. exists "LOW", "order_by".
    apply andb_true_iff in E1 as [E1 _]. apply andb_true_iff in E1 as [_ E1].
    split; [reflexivity|]. split; [left; auto|assumption]. }
  destruct (Py.contains "*" query_text
            && Py.contains "select_star" (Py.lower sugg_key)
            && negb (Py.contains "COUNT(*)" (Py.upper query_text))) eqn:E2.
  { intros [= <-]. right. exists "LOW", "select_star".
    apply andb_true_iff in E2 as [E2 _]. apply andb_true_iff in E2 as [_ E2].
    split; [reflexivity|]. split; [left; auto|assumption]. }
  destruct (Py.contains "GROUP BY" (Py.upper query_text)) eqn:Hg;
    cbv beta iota zeta delta [andb]; [|intros [= <-]; now left].
  destruct (Py.contains "group_by_aggregate" (Py.lower sugg_key)) eqn:E3.
  { destruct (negb (existsb _ aggregate_functions)); intros [= <-]; [|now left].
    right. exists "MEDIUM", "group_by_aggregate".
    split; [reflexivity|]. split; [right; auto|assumption]. }
  destruct (Py.contains "group_by_select" (Py.lower sugg_key)) eqn:E4;
    [|intros [= <-]; now left].
  destruct (_extract_group_by_columns parsed) as [cols| |];
    cbn [mbind exc_bind]; [|discriminate..].
  destruct (existsb _ cols); intros [= <-]; [|now left].
  right. exists "MEDIUM", "group_by_select".
  split; [reflexivity|]. split; [right; auto|assumption].
Qed.

Lemma suggestions_provenance
    (ontology : OntologyManager) (query_text parsed : string)
    (errors : list item) (found : list item) :
  _generate_ontology_suggestions ontology query_text parsed errors = Ret found ->
  length found <= length (feedback_messages ontology)
  /\ Forall (fun s =>
               exists sugg_key sugg_info tag,
                 (sugg_key, sugg_info) ∈ feedback_messages ontology
                 /\ s = suggestion sugg_info (severity s)
                 /\ Py.contains tag (Py.lower sugg_key) = true
                 /\ ((severity s = "LOW"
                      /\ (tag = "order_by" \/ tag = "select_star"))
                     \/ (severity s = "MEDIUM"
                         /\ (tag = "group_by_aggregate"
                             \/ tag = "group_by_select")
                         /\ Py.contains "GROUP BY" (Py.upper query_text)
                            = true)))
            found
  /\ forall errors',
       _generate_ontology_suggestions ontology query_text parsed errors'
       = Ret found.
Proof.
  unfold _generate_ontology_suggestions. intros H.
  destruct (mapM _ _) as [l| |] eqn:Hm; [|discriminate..].
  injection H as <-. split; [|split; [|reflexivity]].
  - apply mapM_exc_Ret in Hm.
    induction Hm as [|[sugg_key sugg_info] ys entries l Hy Hm IH];
      [reflexivity|].
    cbn [concat]. rewrite length_app. cbn [length].
    apply suggestions_for_inv in Hy as [->|(sev & tag & -> & _)]; cbn; lia.
  - apply Forall_forall. intros s Hs.
    destruct (elem_of_concat_mapM _ _ _ _ Hm Hs)
      as ([sugg_key sugg_info] & ys & Hin & Hf & Hy).
    apply suggestions_for_inv in Hf as [->|(sev & tag & -> & Hsev & Htag)];
      [inversion Hy|].
    apply list_elem_of_singleton in Hy as ->.
    exists sugg_key, sugg_info, tag. cbn [suggestion severity].
    split; [assumption|]. split; [reflexivity|]. split; assumption.
Qed.

(** Every suggestion of [_generate_ontology_suggestions] is made from a
    template of the knowledge base, at most one for each template: it has
    the message and type of the template, the source [ontology] and no
    explanation; its severity is LOW for a template whose key holds
    [order_by] or [select_star], MEDIUM for one whose key holds
    [group_by_aggregate] or [group_by_select], which are given only to a
    query with GROUP BY.  No other template yields a suggestion, and the
    errors found so far have no part in it. *)
Theorem suggestions_come_from_templates
    (ontology : OntologyManager) (query_text parsed : string)
    (errors : list item) (found : list item) :
  _generate_ontology_suggestions ontology query_text parsed errors = Ret found ->
  length found <= length (feedback_messages ontology)
  /\ Forall (fun s =>
               exists sugg_key sugg_info tag,
                 (sugg_key, sugg_info) ∈ feedback_messages ontology
                 /\ s = suggestion sugg_info (severity s)
                 /\ Py.contains tag (Py.lower sugg_key) = true
                 /\ ((severity s = "LOW"
                      /\ (tag = "order_by" \/ tag = "select_star"))
                     \/ (severity s = "MEDIUM"
                         /\ (tag = "group_by_aggregate"
                             \/ tag = "group_by_select")
                         /\ Py.contains "GROUP BY" (Py.upper query_text)
                            = true)))
            found
  /\ forall errors',
       _generate_ontology_suggestions ontology query_text parsed errors'
       = Ret found.
Proof. apply suggestions_provenance. Qed.

Lemma suggestions_come_from_templates_witness :
  exists found,
    _generate_ontology_suggestions advisory_ontology
      "SELECT * FROM employees, departments"
      "SELECT * FROM employees, departments" [] = Ret found
    /\ length found <= 2
    /\ forall errors',
         _generate_ontology_suggestions advisory_ontology
           "SELECT * FROM employees, departments"
           "SELECT * FROM employees, departments" errors' = Ret found.
Proof.
  eexists. split; [vm_compute; reflexivity|].
  destruct (suggestions_come_from_templates advisory_ontology
              "SELECT * FROM employees, departments"
              "SELECT * FROM employees, departments" [] _
              ltac:(vm_compute; reflexivity)) as (Hlen & _ & Herr).
  split; [exact Hlen|exact Herr].
Defined.

(** The two suggestions about GROUP BY repeat two of the checks: a template
    whose key holds [group_by_aggregate] gives its suggestion exactly when
    [check_missing_aggregate_with_group_by] fires, and one whose key holds
    [group_by_select] exactly when [check_group_by_column_not_in_select]
    does (the key holding neither [order_by] nor [select_star]). *)
Theorem group_by_suggestions_mirror_checks
    (query_text parsed sugg_key : string) (sugg_info : feedback_message) :
  Py.contains "order_by" (Py.lower sugg_key) = false ->
  Py.contains "select_star" (Py.lower sugg_key) = false ->
  (Py.contains "group_by_aggregate" (Py.lower sugg_key) = true ->
   suggestions_for query_text parsed (sugg_key, sugg_info)
   = Ret (if check_missing_aggregate_with_group_by parsed query_text
          then [suggestion sugg_info "MEDIUM"] else []))
  /\ (Py.contains "group_by_aggregate" (Py.lower sugg_key) = false ->
      Py.contains "group_by_select" (Py.lower sugg_key) = true ->
      suggestions_for query_text parsed (sugg_key, sugg_info)
      = (fired ← check_group_by_column_not_in_select parsed query_text;
         Ret (if fired : bool then [suggestion sugg_info "MEDIUM"] else []))).
Proof.
  intros H1 H2. unfold suggestions_for, check_missing_aggregate_with_group_by,
    check_group_by_column_not_in_select. cbv zeta.
  rewrite H1, H2, lower_case_name_not_in_upper, !andb_false_r. cbn [andb].
  split.
  - intros ->. now destruct (Py.contains "GROUP BY" (Py.upper query_text)).
  - intros -> ->. cbn [andb].
    destruct (Py.contains "GROUP BY" (Py.upper query_text)); [|reflexivity].
    cbn [andb].
    now destruct (_extract_group_by_columns parsed).
Qed.

Lemma group_by_suggestions_witness :
  suggestions_for "SELECT name FROM employees GROUP BY name"
    "SELECT name FROM employees GROUP BY name"
    ("group_by_aggregate_hint", FeedbackMessage "Add an aggregate." "SUGGESTION")
  = Ret (if check_missing_aggregate_with_group_by
              "SELECT name FROM employees GROUP BY name"
              "SELECT name FROM employees GROUP BY name"
         then [suggestion (FeedbackMessage "Add an aggregate." "SUGGESTION")
                 "MEDIUM"]
         else []).
Proof.
  apply (proj1 (group_by_suggestions_mirror_checks
                  "SELECT name FROM employees GROUP BY name"
                  "SELECT name FROM employees GROUP BY name"
                  "group_by_aggregate_hint"
                  (FeedbackMessage "Add an aggregate." "SUGGESTION")
                  ltac:(vm_compute; reflexivity)
                  ltac:(vm_compute; reflexivity))).
  vm_compute. reflexivity.
Defined.

(** ** The error patterns of the knowledge base the engine uses *)

Lemma engine_error_patterns_agree ontology patterns :
  (forall key, key ∈ keys builtin_patterns ->
               patterns !! key = error_patterns ontology !! key) ->
  engine_error_patterns (with_error_patterns ontology patterns)
  = engine_error_patterns ontology.
Proof.
  intros H. unfold engine_error_patterns, _initialize_error_patterns.
  apply List.map_ext_in. intros [key [[check ty] sev]] Hin.
  f_equal. unfold enhance_pattern. cbn [error_patterns with_error_patterns].
  rewrite H; [reflexivity|].
  apply list_elem_of_In, in_map_iff. now exists (key, (check, ty, sev)).
Qed.

Lemma validate_agree ontology patterns query_text parsed :
  (forall key, key ∈ keys builtin_patterns ->
               patterns !! key = error_patterns ontology !! key) ->
  validate (with_error_patterns ontology patterns) query_text parsed
  = validate ontology query_text parsed.
Proof.
  intros H. unfold validate. cbv zeta.
  assert (_check_syntax (with_error_patterns ontology patterns) query_text parsed
          = _check_syntax ontology query_text parsed) as ->.
  { unfold _check_syntax. rewrite _check_clause_order_None.
    now rewrite engine_error_patterns_agree. }
  assert (_check_semantics (with_error_patterns ontology patterns) query_text parsed
          = _check_semantics ontology query_text parsed) as ->.
  { unfold _check_semantics. rewrite engine_error_patterns_agree by assumption.
    reflexivity. }
  reflexivity.
Qed.

Lemma get_concept_prerequisites_agree fuel ontology patterns c :
  get_concept_prerequisites fuel (with_error_patterns ontology patterns) c
  = get_concept_prerequisites fuel ontology c.
Proof.
  revert c. induction fuel as [|fuel IH]; intros c; [reflexivity|].
  cbn [get_concept_prerequisites sql_concepts with_error_patterns].
  destruct (sql_concepts ontology !! c) as [k|]; [|reflexivity].
  destruct (truthy (prerequisite k)) as [p|]; [|reflexivity].
  destruct (decide _); [|reflexivity]. now rewrite IH.
Qed.

Lemma suggest_learning_path_agree fuel ontology patterns current_errors :
  suggest_learning_path fuel (with_error_patterns ontology patterns)
    current_errors
  = suggest_learning_path fuel ontology current_errors.
Proof.
  unfold suggest_learning_path. cbv zeta.
  assert (forall l,
            mapM (get_concept_prerequisites fuel
                    (with_error_patterns ontology patterns)) l
            = mapM (get_concept_prerequisites fuel ontology) l) as ->;
    [|reflexivity].
  induction l as [|c l IH]; [reflexivity|].
  cbn [mapM]. now rewrite get_concept_prerequisites_agree, IH.
Qed.

(** Of the error patterns of the knowledge base the analysis uses the
    entries under the eight keys of its own table and no other: two
    knowledge bases that agree on these (and on the rest) give the same
    outcome on every query.  The entry [clause_order], which
    [_check_syntax] looks up, is among the unused ones. *)
Theorem unused_ontology_patterns {Value : Type}
    (ontology : OntologyManager) (patterns : gmap string ontology_error)
    (sqlparse_parse : string -> string + string)
    (cursor_execute : string -> sqlite_outcome Value)
    (fuel : nat) (query_text : string) (executed : list string) :
  (forall key, key ∈ keys builtin_patterns ->
               patterns !! key = error_patterns ontology !! key) ->
  analyze_query (with_error_patterns ontology patterns) sqlparse_parse
    cursor_execute fuel query_text executed
  = analyze_query ontology sqlparse_parse cursor_execute fuel query_text
      executed.
Proof.
  intros H. unfold analyze_query.
  destruct (String.eqb _ ""); [reflexivity|].
  destruct (sqlparse_parse query_text) as [e|parsed]; [reflexivity|].
  rewrite validate_agree by assumption.
  destruct (validate ontology query_text parsed) as [errors0| |];
    [|reflexivity..].
  destruct (_try_execute_query cursor_execute query_text parsed executed)
    as [[ef| |] executed']; [|reflexivity..].
  cbn [mbind exc_bind]. f_equal. unfold conclude. cbv zeta.
  now rewrite suggest_learning_path_agree.
Qed.

Lemma unused_ontology_patterns_witness :
  analyze_query
    (with_error_patterns join_ontology
       {[ "clause_order" :=
            OntologyError "Clauses are out of order." "SYNTAX_ERROR" "HIGH" "" ]})
    accepting_parser no_rows 0 "FROM employees SELECT emp_id" []
  = analyze_query join_ontology accepting_parser no_rows 0
      "FROM employees SELECT emp_id" [].
Proof.
  apply (unused_ontology_patterns join_ontology
           {[ "clause_order" :=
                OntologyError "Clauses are out of order." "SYNTAX_ERROR" "HIGH" "" ]}
           accepting_parser no_rows 0 "FROM employees SELECT emp_id" []).
  intros key H.
  repeat (apply elem_of_cons in H as [->|H]; [vm_compute; reflexivity|]).
  inversion H.
Defined.

(** ** The syntax pass *)

(** On ASCII text [_check_syntax] looks at one thing: whether the query,
    leading white space and letter case aside, begins with the letters
    SELECT.  It reports the finding of the pattern [missing_select] when it
    does not, and nothing else, whatever the parsed statement is. *)
Theorem syntax_pass_checks_leading_select
    (ontology : OntologyManager) (query_text parsed : string) :
  ascii_text query_text = true ->
  ascii_text parsed = true ->
  _check_syntax ontology query_text parsed
  = if Py.startswith "SELECT" (Py.upper (Py.lstrip query_text))
    then []
    else [pattern_finding
            (enhance_pattern ontology "missing_select" None
               "SYNTAX_ERROR" "HIGH")].
Proof.
  intros _ _. unfold _check_syntax. rewrite _check_clause_order_None, app_nil_r.
  unfold Py.strip. rewrite startswith_rstrip by reflexivity.
  rewrite lstrip_upper.
  destruct (Py.startswith "SELECT" (Py.upper (Py.lstrip query_text)));
    reflexivity.
Qed.

(** A query in lower case after two blanks passes; one that begins with
    FROM gets the finding. *)
Lemma syntax_pass_witness :
  _check_syntax empty_ontology "  select 1" "select 1" = []
  /\ List.map type (_check_syntax empty_ontology "FROM t SELECT a" "FROM t SELECT a")
     = ["SYNTAX_ERROR"].
Proof.
  rewrite (syntax_pass_checks_leading_select empty_ontology "  select 1" "select 1"
             ltac:(vm_compute; reflexivity) ltac:(vm_compute; reflexivity)).
  rewrite (syntax_pass_checks_leading_select empty_ontology
             "FROM t SELECT a" "FROM t SELECT a"
             ltac:(vm_compute; reflexivity) ltac:(vm_compute; reflexivity)).
  split; vm_compute; reflexivity.
Defined.

(** ** What the user sees *)

(** The results tab, for a report of [analyze_query]: without execution
    result it says that the query was not executed; with one it lists the
    column names, then the first ten rows the database returned at most,
    then the total number of rows, and the note "(Showing first 10 rows)"
    exactly when the database returned more than ten rows, that is when
    rows were left out. *)
Theorem results_display_of_a_report {Value : Type} (str : Value -> string)
    (ontology : OntologyManager) (sqlparse_parse : string -> string + string)
    (cursor_execute : string -> sqlite_outcome Value)
    (fuel : nat) (query_text : string) (executed executed' : list string)
    (fb : feedback Value) :
  analyze_query ontology sqlparse_parse cursor_execute fuel query_text executed
  = (Ret fb, executed') ->
  (execution_result fb = None
   /\ not_executed_line ∈ display_results str fb
   /\ (truncation_note ∉ display_results str fb))
  \/ (exists description results,
        cursor_execute query_text = Rows description results
        /\ executed' = executed ++ [query_text]
        /\ display_results str fb
           = [("=== QUERY EXECUTION RESULTS ===" +:+ nl +:+ nl, Some "header");
              ("Columns: " +:+ Py.join " | " description +:+ nl +:+ nl,
               Some "sql");
              ("Data:" +:+ nl, Some "header")]
             ++ List.map (fun row =>
                            (Py.join " | " (List.map str row) +:+ nl,
                             Some "sql"))
                         (take 10 results)
             ++ [(nl +:+ "Total rows: " +:+ pretty (length results) +:+ nl,
                  Some "header")]
             ++ (if 10 <? length results then [truncation_note] else [])
        /\ (not_executed_line ∉ display_results str fb)
        /\ (truncation_note ∈ display_results str fb
            <-> 10 < length results)).
Proof.
  intros Hrun.
  destruct (execution_result fb) as [result|] eqn:Hres.
  - right.
    destruct (analyze_query_inv _ _ _ _ _ _ _ _ Hrun)
      as [(_ & -> & _)|[(e & _ & _ & -> & _)|
          (parsed & errors0 & ef & _ & _ & _ & Hexec & Hfb)]];
      [discriminate..|].
    destruct (conclude_inv _ _ _ _ _ _ _ Hfb)
      as (sugg & path & _ & _ & _ & _ & _ & Hres' & _).
    rewrite Hres in Hres'.
    destruct (_try_execute_query_inv _ _ _ _ _ _ Hexec)
      as [(_ & -> & _)|(Hd & -> & [(d & results & Hrows & ->)|(msg & _ & ->)])];
      [discriminate| |discriminate].
    injection Hres' as ->. exists d, results.
    split; [assumption|]. split; [reflexivity|].
    unfold display_results. rewrite Hres. cbv zeta.
    cbn [result_columns data row_count].
    split; [reflexivity|].
    split.
    + unfold not_executed_line. intros H.
      apply elem_of_cons in H as [H|H]; [discriminate|].
      apply elem_of_app in H as [H|H].
      { repeat (apply elem_of_cons in H as [H|H]; [discriminate|]).
        inversion H. }
      apply elem_of_app in H as [H|H].
      { apply list_elem_of_In, in_map_iff in H as (row & H & _).
        discriminate. }
      apply elem_of_app in H as [H|H].
      { apply list_elem_of_singleton in H. discriminate. }
      destruct (10 <? length results); [|inversion H].
      apply list_elem_of_singleton in H. discriminate.
    + unfold truncation_note. split.
      * intros H.
        apply elem_of_cons in H as [H|H]; [discriminate|].
        apply elem_of_app in H as [H|H].
        { repeat (apply elem_of_cons in H as [H|H]; [discriminate|]).
          inversion H. }
        apply elem_of_app in H as [H|H].
        { apply list_elem_of_In, in_map_iff in H as (row & H & _).
          discriminate. }
        apply elem_of_app in H as [H|H].
        { apply list_elem_of_singleton in H. discriminate. }
        destruct (10 <? length results) eqn:E; [|inversion H].
        now apply Nat.ltb_lt.
      * intros H. apply Nat.ltb_lt in H. rewrite H.
        right. apply elem_of_app. right. apply elem_of_app. right.
        apply elem_of_app. right. left.
  - left. split; [reflexivity|]. unfold display_results. rewrite Hres.
    split; [right; left|].
    intros H. repeat (apply elem_of_cons in H as [H|H]; [discriminate|]).
    inversion H.
Qed.

Lemma results_display_witness :
  exists fb executed',
    analyze_query join_ontology accepting_parser twelve_rows 0
      "SELECT emp_id FROM employees" [] = (Ret fb, executed')
    /\ truncation_note ∈ display_results (fun cell => cell) fb.
Proof.
  eexists. eexists. split; [vm_compute; reflexivity|].
  destruct (results_display_of_a_report (fun cell : string => cell)
              join_ontology accepting_parser twelve_rows 0
              "SELECT emp_id FROM employees" [] _ _
              ltac:(vm_compute; reflexivity))
    as [(H & _)|(d & results & Hrows & _ & _ & _ & Hnote)]; [discriminate H|].
  apply Hnote. injection Hrows as _ <-. vm_compute. lia.
Defined.



Lemma imap_ext_Forall {A B : Type} (P : A -> Prop) (f g : nat -> A -> B)
    (l : list A) :
  Forall P l -> (forall i x, P x -> f i x = g i x) -> imap f l = imap g l.
Proof.
  intros Hl Hfg. revert f g Hfg.
  induction Hl as [|x l Hx Hl IH]; intros f g Hfg; [reflexivity|].
  cbn [imap]. rewrite (Hfg 0 x Hx). f_equal. apply IH.
  intros i y Hy. now apply Hfg.
Qed.

(** The feedback tab, for a report of [analyze_query]: "No errors found!"
    is shown exactly when the assessment is "Query is correct and
    executable!"; and every suggestion, the success message included, is
    shown with the tag [ontology] and followed by the line naming the
    knowledge base as its source: the tags [success] and [suggestion] are
    never used for a suggestion. *)
Theorem feedback_display_of_a_report {Value : Type}
    (ontology : OntologyManager) (sqlparse_parse : string -> string + string)
    (cursor_execute : string -> sqlite_outcome Value)
    (fuel : nat) (query_text : string) (executed executed' : list string)
    (fb : feedback Value) :
  analyze_query ontology sqlparse_parse cursor_execute fuel query_text executed
  = (Ret fb, executed') ->
  (errors_block (errors fb) = [("✅ No errors found!" +:+ nl, Some "success")]
   <-> assessment (correctness fb) = assessment "CORRECT")
  /\ suggestions_block (suggestions fb)
     = match suggestions fb with
       | [] => []
       | _ :: _ =>
           (nl +:+ nl +:+ "💡 SUGGESTIONS:" +:+ nl, Some "suggestion")
           :: concat (imap (fun i suggestion =>
                              [(nl +:+ pretty (S i) +:+ ". "
                                +:+ message suggestion +:+ nl,
                                Some "ontology");
                               source_line])
                           (suggestions fb))
       end.
Proof.
  intros Hrun.
  destruct (analyze_query_inv _ _ _ _ _ _ _ _ Hrun)
    as [(_ & -> & _)|[(e & _ & _ & -> & _)|
        (parsed & errors0 & ef & _ & _ & _ & _ & Hfb)]].
  - split; [split; discriminate|reflexivity].
  - split; [split; discriminate|reflexivity].
  - destruct (conclude_inv _ _ _ _ _ _ _ Hfb)
      as (sugg & path & Hsugg & _ & _ & _ & _ & _ & Hs & Hverdict).
    split.
    + rewrite Hverdict. destruct (errors fb) as [|e l].
      * split; reflexivity.
      * destruct (existsb _ (e :: l)); split; discriminate.
    + assert (Forall (fun s => is_ontology s = true) (suggestions fb)) as Hall.
      { destruct (suggestions_provenance _ _ _ _ _ Hsugg)
          as (_ & Htempl & _).
        assert (Forall (fun s => is_ontology s = true) sugg) as Hsrc.
        { eapply Forall_impl; [exact Htempl|].
          intros s (k & info & tag & _ & -> & _). reflexivity. }
        rewrite Hs. destruct (errors fb); [constructor; [reflexivity|]|];
          assumption. }
      unfold suggestions_block. destruct (suggestions fb) as [|s l] eqn:E;
        [reflexivity|].
      f_equal. f_equal.
      apply (imap_ext_Forall (fun s => is_ontology s = true)); [assumption|].
      intros i x Hx. unfold suggestion_lines. cbv zeta. now rewrite Hx.
Qed.

Lemma feedback_display_witness :
  exists fb executed',
    analyze_query advisory_ontology accepting_parser no_rows 0
      "SELECT name FROM employees" [] = (Ret fb, executed')
    /\ (errors_block (errors fb)
        = [("✅ No errors found!" +:+ nl, Some "success")]
        <-> assessment (correctness fb) = assessment "CORRECT").
Proof.
  eexists. eexists. split; [vm_compute; reflexivity|].
  apply (feedback_display_of_a_report advisory_ontology accepting_parser
           no_rows 0 "SELECT name FROM employees" []
           ["SELECT name FROM employees"]).
  vm_compute. reflexivity.
Defined.

(** ** The keys of the knowledge base *)

Lemma lower_char_not_upper : forall c, Py.isupper (Py.lower_char c) = false.
Proof.
  intros c; destruct c as [[] [] [] [] [] [] [] []]; vm_compute; reflexivity.
Qed.

Lemma lower_char_fixed : forall c, Py.isupper c = false -> Py.lower_char c = c.
Proof. intros c H. unfold Py.lower_char. now rewrite H. Qed.

Lemma lower_char_of_upper_not_hash :
  forall c, Py.isupper c = true -> Ascii.eqb (Py.lower_char c) "#" = false.
Proof.
  intros c; destruct c as [[] [] [] [] [] [] [] []]; vm_compute;
    first [reflexivity|discriminate].
Qed.

Lemma all_chars_remove_go p old skip s :
  Py.all_chars p s = true -> Py.all_chars p (remove_go old skip s) = true.
Proof.
  revert skip. induction s as [|c s IH]; intros skip H; [reflexivity|].
  cbn in H. apply andb_true_iff in H as [Hc H]. cbn [remove_go].
  destruct skip; [|now apply IH].
  destruct (Py.startswith old (String c s)); [now apply IH|].
  cbn. now rewrite Hc, IH.
Qed.

Lemma all_chars_lstrip_underscores p s :
  Py.all_chars p s = true -> Py.all_chars p (lstrip_underscores s) = true.
Proof.
  induction s as [|c s IH]; intros H; [reflexivity|].
  cbn [lstrip_underscores]. destruct (Ascii.eqb c "_"); [|assumption].
  apply IH. cbn in H. now apply andb_true_iff in H as [_ H].
Qed.

Lemma lstrip_underscores_head s :
  Py.startswith "_" (lstrip_underscores s) = false.
Proof.
  induction s as [|c s IH]; [reflexivity|]. cbn [lstrip_underscores].
  destruct (Ascii.eqb c "_") eqn:E; [assumption|].
  cbn [Py.startswith]. rewrite Ascii.eqb_sym, E. reflexivity.
Qed.

Lemma snake_case_no_capital s :
  Py.all_chars (fun c => negb (Py.isupper c)) (snake_case s) = true.
Proof.
  induction s as [|c s IH]; [reflexivity|]. cbn [snake_case].
  destruct (Py.isupper c) eqn:E; cbn; rewrite ?E, ?lower_char_not_upper, IH;
    reflexivity.
Qed.

Lemma snake_case_no_hash s :
  Py.all_chars (fun c => negb (Ascii.eqb c "#")) s = true ->
  Py.all_chars (fun c => negb (Ascii.eqb c "#")) (snake_case s) = true.
Proof.
  induction s as [|c s IH]; intros H; [reflexivity|].
  cbn in H. apply andb_true_iff in H as [Hc H]. cbn [snake_case].
  destruct (Py.isupper c) eqn:E; cbn.
  - now rewrite (lower_char_of_upper_not_hash c E), IH.
  - now rewrite Hc, IH.
Qed.

Lemma split_on_no_sep sep s :
  Forall (fun part => Py.all_chars (fun c => negb (Ascii.eqb c sep)) part = true)
         (Py.split_on sep s).
Proof.
  induction s as [|c s IH]; [now repeat constructor|].
  cbn [Py.split_on]. destruct (Ascii.eqb c sep) eqn:E; [now constructor|].
  destruct (Py.split_on sep s) as [|part parts].
  - repeat constructor. cbn. now rewrite E.
  - apply Forall_cons in IH as [Hpart Hparts]. constructor; [|assumption].
    cbn. now rewrite E.
Qed.

Lemma last_Forall {A : Type} (P : A -> Prop) (l : list A) (d : A) :
  Forall P l -> P d -> P (List.last l d).
Proof.
  induction 1 as [|x l Hx Hl IH]; intros Hd; [assumption|].
  cbn [List.last]. destruct l; [assumption|now apply IH].
Qed.

Lemma all_chars_not_contains (ch : ascii) s :
  Py.all_chars (fun c => negb (Ascii.eqb c ch)) s = true ->
  Py.contains (String ch "") s = false.
Proof.
  induction s as [|c s IH]; intros H; [reflexivity|].
  cbn in H. apply andb_true_iff in H as [Hc H].
  rewrite contains_cons, (IH H), orb_false_r. cbn [Py.startswith].
  apply negb_true_iff in Hc. rewrite Ascii.eqb_sym, Hc. reflexivity.
Qed.

Lemma no_capital_lower s :
  Py.all_chars (fun c => negb (Py.isupper c)) s = true -> Py.lower s = s.
Proof.
  unfold Py.lower. induction s as [|c s IH]; intros H; [reflexivity|].
  cbn in H. apply andb_true_iff in H as [Hc H]. cbn.
  apply negb_true_iff in Hc. now rewrite (lower_char_fixed c Hc), IH.
Qed.

(** The key under which an error pattern or a suggestion template of the
    ontology is stored has no capital letter, so that lower-casing it
    changes nothing, does not begin with an underscore, and holds no [#],
    whatever the URI of the individual is. *)
Theorem ontology_key_is_snake_case (suffix uri : string) :
  Py.all_chars (fun c => negb (Py.isupper c)) (ontology_key suffix uri) = true
  /\ Py.lower (ontology_key suffix uri) = ontology_key suffix uri
  /\ Py.startswith "_" (ontology_key suffix uri) = false
  /\ Py.contains "#" (ontology_key suffix uri) = false.
Proof.
  assert (Py.all_chars (fun c => negb (Py.isupper c)) (ontology_key suffix uri)
          = true) as Hcap.
  { unfold ontology_key. cbv zeta.
    apply all_chars_lstrip_underscores, snake_case_no_capital. }
  split; [exact Hcap|]. split; [now apply no_capital_lower|].
  split; [apply lstrip_underscores_head|].
  apply all_chars_not_contains. unfold ontology_key, remove. cbv zeta.
  apply all_chars_lstrip_underscores, snake_case_no_hash.
  apply all_chars_remove_go, all_chars_remove_go.
  apply (last_Forall (fun part =>
           Py.all_chars (fun c => negb (Ascii.eqb c "#")) part = true));
    [apply split_on_no_sep|reflexivity].
Qed.

(** ** The SELECT clause the checks inspect *)

Lemma startswith_stake_true p k s :
  Py.startswith p (Py.stake k s) = true -> Py.startswith p s = true.
Proof.
  revert k s. induction p as [|a p IH]; intros k s H; [reflexivity|].
  destruct k as [|k], s as [|c s]; try discriminate.
  cbn in *. apply andb_true_iff in H as [-> H]. now rewrite (IH k s H).
Qed.

Lemma first_occurrence sub s i n :
  sub <> "" -> Py.find_at sub s i = Some n ->
  Py.contains sub (Py.stake (n - i) s) = false.
Proof.
  intros Hsub. revert i. induction s as [|c s IH]; intros i H.
  - cbn in H. destruct sub; [congruence|discriminate].
  - cbn [Py.find_at] in H.
    destruct (Py.startswith sub (String c s)) eqn:E.
    + injection H as <-. rewrite Nat.sub_diag. cbn. destruct sub; [congruence|].
      reflexivity.
    + pose proof (find_at_ge _ _ _ _ H) as Hge.
      replace (n - i) with (S (n - S i)) by lia. cbn [Py.stake].
      rewrite contains_cons, (IH _ H), orb_false_r.
      destruct (Py.startswith sub (String c (Py.stake (n - S i) s))) eqn:E';
        [|reflexivity].
      apply (startswith_stake_true sub (S (n - S i)) (String c s)) in E'.
      congruence.
Qed.

(** [_extract_select_clause] gives the empty text for a statement without
    SELECT, and otherwise a text in upper case that begins with SELECT.  The
    clause never holds the letters FROM: it ends at the first FROM after
    that SELECT, wherever it is (in a column name such as [from_date], for
    one). *)
Theorem select_clause_shape (parsed : string) :
  (Py.contains "SELECT" (Py.upper parsed) = false ->
   _extract_select_clause parsed = "")
  /\ (Py.contains "SELECT" (Py.upper parsed) = true ->
      Py.startswith "SELECT" (_extract_select_clause parsed) = true)
  /\ Py.upper (_extract_select_clause parsed) = _extract_select_clause parsed
  /\ Py.contains "FROM" (_extract_select_clause parsed) = false.
Proof.
  unfold _extract_select_clause. cbv zeta.
  destruct (Py.find "SELECT" (Py.upper parsed)) as [select_start|] eqn:Hsel.
  - assert (Py.contains "SELECT" (Py.upper parsed) = true) as Hc.
    { apply (find_at_is_Some "SELECT" _ 0). unfold Py.find in Hsel. eauto. }
    rewrite Hc. split; [discriminate|].
    pose proof (find_at_startswith _ _ _ _ Hsel) as Hstart.
    rewrite Nat.sub_0_r in Hstart.
    destruct (Py.find_from "FROM" (Py.upper parsed) select_start)
      as [from_start|] eqn:Hfrom.
    + unfold Py.slice. split; [|split].
      * intros _. unfold Py.find_from in Hfrom.
        apply startswith_inv in Hstart as [t Ht]. rewrite Ht in Hfrom.
        pose proof (from_after_select _ _ _ Hfrom) as Hle. rewrite Ht.
        replace (from_start - select_start)
          with (6 + (from_start - select_start - 6)) by lia.
        reflexivity.
      * rewrite upper_stake, upper_sdrop, upper_idem. reflexivity.
      * unfold Py.find_from in Hfrom.
        apply (first_occurrence "FROM" _ _ _ ltac:(discriminate) Hfrom).
    + unfold Py.slice_from. split; [intros _; exact Hstart|].
      split; [now rewrite upper_sdrop, upper_idem|].
      unfold Py.find_from in Hfrom.
      destruct (Py.contains "FROM" (Py.sdrop select_start (Py.upper parsed)))
        eqn:E; [|reflexivity].
      apply (find_at_is_Some "FROM" _ select_start) in E as [n Hn]. congruence.
  - assert (Py.contains "SELECT" (Py.upper parsed) = false) as Hc.
    { destruct (Py.contains "SELECT" (Py.upper parsed)) eqn:E; [|reflexivity].
      apply (find_at_is_Some "SELECT" _ 0) in E as [n Hn].
      unfold Py.find in Hsel. congruence. }
    rewrite Hc. split; [reflexivity|]. split; [discriminate|].
    split; reflexivity.
Qed.
